(** * Per-satellite cycle tracking and azimuth estimation (cecil)

    A shallow embedding of [models.py] (the data model, [SatHistory.update]
    and [freeze_cycle]) and of the state-changing parts of [driver.py]
    ([Driver._drop_old_satellites], [Driver._process_gsv],
    [Driver._sort_proprietary_sentence]), followed by the properties the
    specification states about them.  The rest of the driver ([reset],
    [_check_for_reset], [_sort_regular_sentence], a pass of [_loop]) and
    [serialize_sat_histories] of [serializers.py] are embedded as well, with
    the invariants of the tracker and of the driver's loop.

    Conventions of the embedding.
    - Python [int] is [Z]; [Optional[int]] is [option Z].
    - Wall-clock timestamps ([time.time()], a float of seconds) are
      rationals [Q]: the code only adds, divides and compares them.  The clock
      is an explicit argument [now] of every function that reads it.
    - The per-phase averages and the azimuth of a frozen cycle are real
      numbers [R]: [math.atan2] and [math.pi] have no rational model.
    - A raised exception is the [Raise]/[Raised] outcome of the function.
    - [logger] calls are collected as a list of [LogRecord]s returned next to
      the new state; [print] calls (debug output on stdout) are left out.
    - [get_config()] is the explicit argument [cfg], a record of the fields
      that the code reads.
    - The decoders of [server.cecil.daq.parser] and the builtin [int] are
      parameters; [CaporDict] of [server.cecil.generics] is modelled from
      the specification. *)

From Stdlib Require Import ZArith QArith Reals Lqa Lra Lia List String Ascii.
From stdpp Require Import base option list strings pretty gmap sorting.

Open Scope string_scope.
Open Scope list_scope.
Open Scope Z_scope.

(** ** Python odds and ends *)

(** [bool(n)] for an [int]. *)
Definition bool_of_int (n : Z) : bool := negb (n =? 0).

(** [bool(x)] for an [Optional[int]]: [None] and [0] are falsy. *)
Definition truthy (x : option Z) : bool :=
  match x with
  | Some n => bool_of_int n
  | None => false
  end.

(** The exceptions that the modelled code raises or catches. *)
Inductive exn : Type :=
| ValueError (msg : string)
| IndexError (msg : string)
| KeyError (key : string)
| StatisticsError (msg : string)
| Exception (msg : string).

Inductive Result (A : Type) : Type :=
| Ok (a : A)
| Raise (e : exn).
Arguments Ok {A} a.
Arguments Raise {A} e.

#[global] Instance Result_bind : MBind Result :=
  fun A B (f : A -> Result B) (r : Result A) =>
    match r with
    | Ok a => f a
    | Raise e => Raise e
    end.

(** [s[n:]] *)
Fixpoint slice_from (n : nat) (s : string) : string :=
  match n, s with
  | O, _ => s
  | S n', EmptyString => EmptyString
  | S n', String _ s' => slice_from n' s'
  end.

(** [s[:n]] *)
Definition slice_to (n : nat) (s : string) : string := String.substring 0 n s.

(** [s[n]] *)
Definition index (n : nat) (s : string) : Result ascii :=
  match String.get n s with
  | Some c => Ok c
  | None => Raise (IndexError "string index out of range")
  end.

(** ** Enumerations of [models.py] *)

Module SID.
Definition STANDARD : ascii := "$"%char.
Definition PROPRIETARY : ascii := "#"%char.
Definition GSV : string := "GSV".
Definition GGA : string := "GGA".
End SID.

(** Proprietary sentence ids. *)
Module PSID.
Definition STATUS : string := "#00".
Definition ERROR_STATUS : string := "#01".
Definition ANTENNA_PHASE : string := "#02".
Definition TEMPERATURE : string := "#11".
Definition MAGNETOMETER : string := "#10".
End PSID.

Module AntennaPhase.
Inductive t : Type := A | B | C | D.

(** [AntennaPhase(c)]: the member whose value is [c], [ValueError]
    otherwise. *)
Definition of_value (c : ascii) : Result t :=
  if Ascii.eqb c "A" then Ok A
  else if Ascii.eqb c "B" then Ok B
  else if Ascii.eqb c "C" then Ok C
  else if Ascii.eqb c "D" then Ok D
  else Raise (ValueError "is not a valid AntennaPhase").
End AntennaPhase.

(** [Talker] is a [StrEnum]; the talker of a reading is the string that the
    NMEA parser hands over, so a talker is a [string] here and the members
    are its distinguished values. *)
Module Talker.
Definition GPS : string := "GP".
Definition GLONASS : string := "GL".
Definition GALIEO : string := "GA".
Definition BEIDOU : string := "GB".
Definition GNSS : string := "GN".
Definition QZSS : string := "GQ".
End Talker.

Definition talker_to_offset (talker : string) : option Z :=
  if String.eqb talker Talker.GALIEO then Some 1000
  else if String.eqb talker Talker.BEIDOU then Some 2000
  else if String.eqb talker Talker.GLONASS then Some 3000
  else if String.eqb talker Talker.GNSS then Some 4000
  else if String.eqb talker Talker.GPS then Some 5000
  else if String.eqb talker Talker.QZSS then Some 6000
  else None.

(** The identity shared by [Sat.ident] and [SatHistory.ident]. *)
Definition ident_of (talker : string) (prn : option Z) : Z :=
  let offset := talker_to_offset talker in
  match offset, prn with
  | Some o, Some p => if bool_of_int o && bool_of_int p then o + p else -1000
  | _, _ => -1000
  end.

(** ** Immutable readings *)

Module Antenna.
Record t : Type := mk {
  counter : Z;
  phase : AntennaPhase.t;
  interval : Z;
  offset : Z;
  last_change : Q
}.
End Antenna.

Module Sat.
Record t : Type := mk {
  talker : string;
  prn : option Z;
  azimuth : option Z;
  elevation : option Z;
  SNR : option Z;
  phase : AntennaPhase.t;
  timestamp : Q
}.

Definition ident (self : t) : Z := ident_of (talker self) (prn self).

(** [self.SNR is not None and self.SNR > 0] *)
Definition is_valid (self : t) : bool :=
  match SNR self with
  | Some n => 0 <? n
  | None => false
  end.

(** The same reading with another SNR field. *)
Definition with_SNR (snr : option Z) (self : t) : t :=
  mk (talker self) (prn self) (azimuth self) (elevation self) snr
     (phase self) (timestamp self).
End Sat.

Module Temperature.
Record t : Type := mk { internal : Q; external : Q }.
End Temperature.

Module RawMagnetometerReading.
Record t : Type := mk { x : Q; y : Q; z : Q }.
End RawMagnetometerReading.

Module Position.
Record t : Type := mk {
  talker : string;
  timestamp : Q;
  latitude : Q;
  longitude : Q;
  fix_quality : Z;
  num_satellites : Z;
  horizontal_dilution : Q;
  altitude : Q;
  geoidal_separation : Q;
  age : Q;
  station_id : Z
}.

Definition is_valid (self : t) : bool := 0 <? fix_quality self.
End Position.

(** ** Configuration

    [server.cecil.config] is not part of the modelled sources; the fields
    that the code reads are the fields of these records. *)

Module Daq.
Record t : Type := mk {
  AVG_SIZE : Z;
  MAX_AGE : Z;
  MAX_AGE_TIME : Q;
  AZ_OFFSET : R
}.
End Daq.

Module Magnetometer.
Record t : Type := mk {
  AVG_SIZE : option nat;
  FLIP_MAGNETOMETER_X : bool;
  FLIP_MAGNETOMETER_Y : bool;
  FLIP_MAGNETOMETER_Z : bool
}.
End Magnetometer.

Module Config.
Record t : Type := mk {
  daq : Daq.t;
  magnetometer : Magnetometer.t
}.
End Config.

(** ** Logging *)

Inductive Level : Type := DEBUG | WARNING | ERROR.

(** One constructor per [logger] call of the modelled functions, carrying
    the values that the message interpolates. *)
Inductive LogMsg : Type :=
| SatelliteWentMissing (ident : Z)
| AboveAgeLimit (ident age : Z)
| EarlierCycle (cycle : Z)
| CycleExists (cycle : Z)
| ActiveCycleInvalid (counter : Z)
| DroppingSatellite (prn : option Z) (max_age_time : Q)
| PhaseSentence (antenna : Antenna.t)
| NoAntenna
| SatellitesInView (sequence_number total_number sat_in_view : string)
| AntennaCounterNotAvailable
| SatelliteTooOld (ident age : Z)
| NotImplProprietary (decoded : string)
| FailedProprietary (psid decoded : string) (e : exn).

Definition LogRecord : Type := Level * LogMsg.

(** ** Cycles *)

Module Cycle.
Record t : Type := mk {
  counter : Z;
  A : list Z;
  B : list Z;
  C : list Z;
  D : list Z
}.

(** [Cycle(counter)]: four empty sample lists. *)
Definition new (counter : Z) : t := mk counter [] [] [] [].

Definition getitem (self : t) (phase : AntennaPhase.t) : list Z :=
  match phase with
  | AntennaPhase.A => A self
  | AntennaPhase.B => B self
  | AntennaPhase.C => C self
  | AntennaPhase.D => D self
  end.

(** [all(len(self[phase]) > 0 for phase in AntennaPhase)] *)
Definition is_valid (self : t) : bool :=
  forallb (fun phase => (0 <? length (getitem self phase))%nat)
          [AntennaPhase.A; AntennaPhase.B; AntennaPhase.C; AntennaPhase.D].

Definition is_invalid (self : t) : bool := negb (is_valid self).

(** [self[phase].append(snr)] *)
Definition append (phase : AntennaPhase.t) (snr : Z) (self : t) : t :=
  match phase with
  | AntennaPhase.A =>
      mk (counter self) (A self ++ [snr]) (B self) (C self) (D self)
  | AntennaPhase.B =>
      mk (counter self) (A self) (B self ++ [snr]) (C self) (D self)
  | AntennaPhase.C =>
      mk (counter self) (A self) (B self) (C self ++ [snr]) (D self)
  | AntennaPhase.D =>
      mk (counter self) (A self) (B self) (C self) (D self ++ [snr])
  end.
End Cycle.

Module FrozenCycle.
Record t : Type := mk {
  counter : Z;
  A : list Z;
  B : list Z;
  C : list Z;
  D : list Z;
  avg_A : R;
  avg_B : R;
  avg_C : R;
  avg_D : R;
  azimuth : R
}.
End FrozenCycle.

(** ** Numeric library functions *)

(** [sum(data)] *)
Definition sum (data : list Z) : Z := fold_right Z.add 0 data.

(** [statistics.fmean]: the arithmetic mean, [StatisticsError] on no data. *)
Definition fmean (data : list Z) : Result R :=
  match data with
  | [] => Raise (StatisticsError "fmean requires at least one data point")
  | _ => Ok (IZR (sum data) / INR (length data))%R
  end.

(** [math.atan2(y, x)]: the angle of the vector [(x, y)], in [(-PI, PI]]. *)
Definition atan2 (y x : R) : R :=
  if Rlt_dec 0 x then atan (y / x)
  else if Rlt_dec x 0 then
    if Rle_dec 0 y then (atan (y / x) + PI)%R else (atan (y / x) - PI)%R
  else if Rlt_dec 0 y then (PI / 2)%R
  else if Rlt_dec y 0 then (- (PI / 2))%R
  else 0%R.

(** [math.degrees] *)
Definition degrees (x : R) : R := (x * (180 / PI))%R.

(** ** Freezing a cycle *)

(** [math.degrees(2 * math.pi + azimuth if azimuth < 0 else azimuth)
     + cfg.daq.AZ_OFFSET] *)
Definition apply_az_offset (cfg : Config.t) (azimuth : R) : R :=
  (degrees (if Rlt_dec azimuth 0 then 2 * PI + azimuth else azimuth)
   + Daq.AZ_OFFSET (Config.daq cfg))%R.

Definition freeze_cycle (cfg : Config.t) (active : Cycle.t)
  : Result FrozenCycle.t :=
  if Cycle.is_invalid active then
    Raise (ValueError "Cannot freeze invalid cycle")
  else
    avg_a ← fmean (Cycle.A active);
    avg_b ← fmean (Cycle.B active);
    avg_c ← fmean (Cycle.C active);
    avg_d ← fmean (Cycle.D active);
    let azimuth := atan2 (avg_a - avg_c) (avg_b - avg_d) in
    let azimuth := apply_az_offset cfg azimuth in
    Ok (FrozenCycle.mk (Cycle.counter active)
          (Cycle.A active) (Cycle.B active) (Cycle.C active) (Cycle.D active)
          avg_a avg_b avg_c avg_d azimuth).

(** ** The bounded archive *)

Module CaporDict.
Section CaporDict.
Context {V : Type}.

(** Modelled from the spec: the class [CaporDict] of
    [server.cecil.generics], whose source is missing.  The specification
    calls it a generic fixed-capacity, insertion-order map with
    oldest-eviction; the entries are kept oldest first. *)
Record t : Type := mk {
  capacity : Z;
  items : list (Z * V)
}.

(** Modelled from the spec: [CaporDict(capacity)], an empty map. *)
Definition new (capacity : Z) : t := mk capacity [].

(** Modelled from the spec: [d.clear()] keeps the capacity. *)
Definition clear (d : t) : t := mk (capacity d) [].

(** Modelled from the spec: [list(d.keys())], oldest first. *)
Definition keys (d : t) : list Z := map fst (items d).


(** Modelled from the spec: [len(d)]. *)
Definition len (d : t) : Z := Z.of_nat (length (items d)).

(** Modelled from the spec: [key in d]. *)
Definition contains (key : Z) (d : t) : bool :=
  existsb (fun kv => fst kv =? key) (items d).

(** Modelled from the spec: [d[key]], [KeyError] on a missing key. *)
Definition getitem (key : Z) (d : t) : Result V :=
  match find (fun kv => fst kv =? key) (items d) with
  | Some kv => Ok (snd kv)
  | None => Raise (KeyError (pretty key))
  end.

(** Modelled from the spec: [d[key] = value].  A key that is present
    keeps its place and takes the new value; a new key goes in last, and
    insertion beyond capacity evicts the oldest entry. *)
Definition setitem (key : Z) (value : V) (d : t) : t :=
  if contains key d then
    mk (capacity d)
       (map (fun kv => if fst kv =? key then (key, value) else kv)
            (items d))
  else
    let items' := items d ++ [(key, value)] in
    if capacity d <? Z.of_nat (length items')
    then mk (capacity d) (tail items')
    else mk (capacity d) items'.
End CaporDict.
Arguments t V : clear implicits.
End CaporDict.

(** ** The per-satellite tracker *)

(** What a call leaves behind: the state, the log records it emitted, and
    either the value it returned or the exception it raised. *)
Inductive Outcome (S A : Type) : Type :=
| Return (s : S) (a : A) (log : list LogRecord)
| Raised (s : S) (e : exn) (log : list LogRecord).
Arguments Return {S A} s a log.
Arguments Raised {S A} s e log.

Definition state_of {S A : Type} (o : Outcome S A) : S :=
  match o with
  | Return s _ _ => s
  | Raised s _ _ => s
  end.

Definition log_of {S A : Type} (o : Outcome S A) : list LogRecord :=
  match o with
  | Return _ _ log => log
  | Raised _ _ log => log
  end.

Module SatHistory.
Record t : Type := mk {
  talker : string;
  prn : option Z;
  avg_size : Z;
  max_age : Z;
  active_phase : AntennaPhase.t;
  active_cycle : option Cycle.t;
  _records : CaporDict.t FrozenCycle.t;
  age : Z;
  valid : bool;
  last_update : option Q;
  latest_sat : option Sat.t
}.

(** [SatHistory(talker, prn, avg_size, max_age)] *)
Definition init (talker : string) (prn : option Z) (avg_size max_age : Z)
  : t :=
  mk talker prn avg_size max_age AntennaPhase.A None (CaporDict.new avg_size)
     0 true None None.

(** Attribute assignments [self.f = v]. *)
Definition set_active_phase (v : AntennaPhase.t) (self : t) : t :=
  mk (talker self) (prn self) (avg_size self) (max_age self) v
     (active_cycle self) (_records self) (age self) (valid self)
     (last_update self) (latest_sat self).
Definition set_active_cycle (v : option Cycle.t) (self : t) : t :=
  mk (talker self) (prn self) (avg_size self) (max_age self)
     (active_phase self) v (_records self) (age self) (valid self)
     (last_update self) (latest_sat self).
Definition set_records (v : CaporDict.t FrozenCycle.t) (self : t) : t :=
  mk (talker self) (prn self) (avg_size self) (max_age self)
     (active_phase self) (active_cycle self) v (age self) (valid self)
     (last_update self) (latest_sat self).
Definition set_age (v : Z) (self : t) : t :=
  mk (talker self) (prn self) (avg_size self) (max_age self)
     (active_phase self) (active_cycle self) (_records self) v (valid self)
     (last_update self) (latest_sat self).
Definition set_valid (v : bool) (self : t) : t :=
  mk (talker self) (prn self) (avg_size self) (max_age self)
     (active_phase self) (active_cycle self) (_records self) (age self) v
     (last_update self) (latest_sat self).
Definition set_last_update (v : option Q) (self : t) : t :=
  mk (talker self) (prn self) (avg_size self) (max_age self)
     (active_phase self) (active_cycle self) (_records self) (age self)
     (valid self) v (latest_sat self).
Definition set_latest_sat (v : option Sat.t) (self : t) : t :=
  mk (talker self) (prn self) (avg_size self) (max_age self)
     (active_phase self) (active_cycle self) (_records self) (age self)
     (valid self) (last_update self) v.

Definition is_valid (self : t) : bool :=
  match prn self with Some _ => true | None => false end.

(** [self.age >= self.max_age] *)
Definition above_age_limit (self : t) : bool := max_age self <=? age self.

(** [self.last_update <= time.time() - cfg.daq.MAX_AGE_TIME / 1000];
    [now] is the reading of the clock. *)
Definition above_time_limit (cfg : Config.t) (self : t) (now : Q) : bool :=
  match last_update self with
  | None => false
  | Some last =>
      let max_age_ms := (Daq.MAX_AGE_TIME (Config.daq cfg) / 1000)%Q in
      Qle_bool last (now - max_age_ms)
  end.

Definition ident (self : t) : Z := ident_of (talker self) (prn self).


Definition contains (key : Z) (self : t) : bool :=
  CaporDict.contains key (_records self).

Definition getitem (key : Z) (self : t) : Result FrozenCycle.t :=
  CaporDict.getitem key (_records self).

Definition len (self : t) : Z := CaporDict.len (_records self).

(** The first block of [update]: the reading has no usable SNR. *)
Definition went_missing (self : t) (sat : Sat.t) : Outcome t Z :=
  let self := set_valid false self in
  let self := set_active_phase (Sat.phase sat) self in
  let self := set_age (age self + 1) self in
  Return self (age self) [(DEBUG, SatelliteWentMissing (Sat.ident sat))].

(** [update(self, cycle, sat)].  The guard [if not sat.SNR] is the two
    [went_missing] branches; in the remaining branch [snr] is the
    reading's SNR, a non-zero integer. *)
Definition update (cfg : Config.t) (self : t) (cycle : Z) (sat : Sat.t)
    (now : Q) : Outcome t Z :=
  match Sat.SNR sat with
  | None => went_missing self sat
  | Some snr =>
    if negb (bool_of_int snr) then went_missing self sat
    else
      let '(self, log) :=
        if above_age_limit self
        then (set_records (CaporDict.clear (_records self)) self,
              [(WARNING, AboveAgeLimit (Sat.ident sat) (age self))])
        else (self, []) in
      if negb (valid self) then
        let self := set_age (age self + 1) self in
        Return self (age self) log
      else
        (* create the active cycle if it doesn't exist *)
        let active :=
          match active_cycle self with
          | Some c => c
          | None => Cycle.new cycle
          end in
        let self := set_active_cycle (Some active) self in
        if cycle <? Cycle.counter active then
          Return self (age self) (log ++ [(WARNING, EarlierCycle cycle)])
        else if CaporDict.contains cycle (_records self) then
          Return self (age self) (log ++ [(WARNING, CycleExists cycle)])
        else
          (* if the cycle has changed, archive the active cycle *)
          let boundary :=
            if negb (cycle =? Cycle.counter active) then
              if Cycle.is_valid active then
                frozen ← freeze_cycle cfg active;
                Ok (set_records
                      (CaporDict.setitem (Cycle.counter active) frozen
                         (_records self)) self,
                    Cycle.new cycle, log)
              else
                Ok (self, Cycle.new cycle,
                    log ++ [(DEBUG,
                             ActiveCycleInvalid (Cycle.counter active))])
            else Ok (self, active, log) in
          match boundary with
          | Raise e => Raised self e log
          | Ok (self, active, log) =>
              let active := Cycle.append (Sat.phase sat) snr active in
              let self := set_active_cycle (Some active) self in
              let self := set_latest_sat (Some sat) self in
              let self := set_valid true self in
              let self := set_active_phase (Sat.phase sat) self in
              let self := set_age 0 self in
              let self := set_last_update (Some now) self in
              Return self (age self) log
          end
  end.

(** A run of calls, each [(cycle, sat, now)], oldest first. *)
Definition update_all (cfg : Config.t) (self : t)
    (calls : list (Z * Sat.t * Q)) : t :=
  fold_left
    (fun self '(cycle, sat, now) => state_of (update cfg self cycle sat now))
    calls self.

(** The trackers that a run of [update] calls produces from [start]. *)
Inductive reachable (cfg : Config.t) (start : t) : t -> Prop :=
| reachable_start : reachable cfg start start
| reachable_update self cycle sat now :
    reachable cfg start self ->
    reachable cfg start (state_of (update cfg self cycle sat now)).
End SatHistory.

(** ** The driver *)

(** [collections.deque(maxlen=n)], oldest first.  A negative [maxlen] is
    refused when the deque is built, so a bounded [maxlen] is a [nat]. *)
Module Deque.
Section Deque.
Context {A : Type}.

Record t : Type := mk {
  maxlen : option nat;
  elems : list A
}.

Definition new (maxlen : option nat) : t := mk maxlen [].

(** [d.append(x)]: a full deque drops its oldest element. *)
Definition append (x : A) (d : t) : t :=
  match maxlen d with
  | None => mk None (elems d ++ [x])
  | Some n =>
      let elems' := elems d ++ [x] in
      if (n <? length elems')%nat
      then mk (Some n) (tail elems')
      else mk (Some n) elems'
  end.
End Deque.
Arguments t A : clear implicits.
End Deque.

(** The fields of a [pynmea2.GSV] sentence that the driver reads; each one
    is the text of the field, empty when the field is blank or missing. *)
Module GSV.
Record slot : Type := mk_slot {
  sv_prn_num : string;
  elevation_deg : string;
  azimuth : string;
  snr : string
}.

Record t : Type := mk {
  talker : string;
  num_messages : string;
  msg_num : string;
  num_sv_in_view : string;
  slot_1 : slot;
  slot_2 : slot;
  slot_3 : slot;
  slot_4 : slot
}.

Definition slots (sentence : t) : list slot :=
  [slot_1 sentence; slot_2 sentence; slot_3 sentence; slot_4 sentence].
End GSV.

(** Put the records of an earlier step in front of those of a later one. *)
Definition logged_before {S A : Type} (log : list LogRecord)
    (o : Outcome S A) : Outcome S A :=
  match o with
  | Return s a log' => Return s a (log ++ log')
  | Raised s e log' => Raised s e (log ++ log')
  end.

Module Driver.
Record t : Type := mk {
  _do_reset : bool;
  antenna : option Antenna.t;
  position : option Position.t;
  magnetometer : option RawMagnetometerReading.t;
  temprature : option Temperature.t;
  status : option string;
  error_status : option string;
  satellites : gmap string SatHistory.t;
  antenna_phase : AntennaPhase.t;
  magnetometer_calibration_mode : bool;
  magnetometer_readings : Deque.t RawMagnetometerReading.t
}.

(** Attribute assignments [self.f = v]. *)
Definition set_antenna (v : option Antenna.t) (self : t) : t :=
  mk (_do_reset self) v (position self) (magnetometer self)
     (temprature self) (status self) (error_status self) (satellites self)
     (antenna_phase self) (magnetometer_calibration_mode self)
     (magnetometer_readings self).
Definition set_magnetometer (v : option RawMagnetometerReading.t)
    (self : t) : t :=
  mk (_do_reset self) (antenna self) (position self) v
     (temprature self) (status self) (error_status self) (satellites self)
     (antenna_phase self) (magnetometer_calibration_mode self)
     (magnetometer_readings self).
Definition set_temprature (v : option Temperature.t) (self : t) : t :=
  mk (_do_reset self) (antenna self) (position self) (magnetometer self)
     v (status self) (error_status self) (satellites self)
     (antenna_phase self) (magnetometer_calibration_mode self)
     (magnetometer_readings self).
Definition set_status (v : option string) (self : t) : t :=
  mk (_do_reset self) (antenna self) (position self) (magnetometer self)
     (temprature self) v (error_status self) (satellites self)
     (antenna_phase self) (magnetometer_calibration_mode self)
     (magnetometer_readings self).
Definition set_error_status (v : option string) (self : t) : t :=
  mk (_do_reset self) (antenna self) (position self) (magnetometer self)
     (temprature self) (status self) v (satellites self)
     (antenna_phase self) (magnetometer_calibration_mode self)
     (magnetometer_readings self).
Definition set_satellites (v : gmap string SatHistory.t) (self : t) : t :=
  mk (_do_reset self) (antenna self) (position self) (magnetometer self)
     (temprature self) (status self) (error_status self) v
     (antenna_phase self) (magnetometer_calibration_mode self)
     (magnetometer_readings self).
Definition set_antenna_phase (v : AntennaPhase.t) (self : t) : t :=
  mk (_do_reset self) (antenna self) (position self) (magnetometer self)
     (temprature self) (status self) (error_status self) (satellites self)
     v (magnetometer_calibration_mode self) (magnetometer_readings self).
Definition set_magnetometer_readings
    (v : Deque.t RawMagnetometerReading.t) (self : t) : t :=
  mk (_do_reset self) (antenna self) (position self) (magnetometer self)
     (temprature self) (status self) (error_status self) (satellites self)
     (antenna_phase self) (magnetometer_calibration_mode self) v.

(** [Driver(raw_queue)] just after construction. *)
Definition init (cfg : Config.t) : t :=
  mk false None None None None None None ∅ AntennaPhase.A false
     (Deque.new (Magnetometer.AVG_SIZE (Config.magnetometer cfg))).

(** [self.satellites.pop(str(ident))] for each [ident], stopping at the
    first key that is missing. *)
Fixpoint pop_all (idents : list Z) (satellites : gmap string SatHistory.t)
  : gmap string SatHistory.t * option exn :=
  match idents with
  | [] => (satellites, None)
  | ident :: idents' =>
      let key := pretty ident in
      match satellites !! key with
      | Some _ => pop_all idents' (delete key satellites)
      | None => (satellites, Some (KeyError key))
      end
  end.

Section Driver.
Variable cfg : Config.t.

(** The decoders of [server.cecil.daq.parser] are not among the modelled
    sources: each one is a function that returns a reading or raises. *)
Variable parse_phase_sentence : string -> Result Antenna.t.
Variable parse_temperature_sentence : string -> Result Temperature.t.
Variable parse_magnetometer_sentence :
  string -> bool -> bool -> bool -> Result RawMagnetometerReading.t.

(** The trackers that the sweep finds above the time limit; [now key] is
    the reading of the clock when the tracker stored under [key] is
    examined. *)
Definition stale (self : t) (now : string -> Q)
  : list (string * SatHistory.t) :=
  filter (fun kv => SatHistory.above_time_limit cfg kv.2 (now kv.1) = true)
         (map_to_list (satellites self)).

(** [_drop_old_satellites(self)].  [to_drop] is a set, so the order of the
    [pop] calls is that of its elements; the log records come in the
    order in which the finite map lists the registry. *)
Definition _drop_old_satellites (self : t) (now : string -> Q)
  : Outcome t unit :=
  let to_drop : gset Z :=
    list_to_set (map (fun kv => SatHistory.ident kv.2) (stale self now)) in
  let log :=
    map (fun kv : string * SatHistory.t =>
           (WARNING,
            DroppingSatellite (SatHistory.prn kv.2)
              (Daq.MAX_AGE_TIME (Config.daq cfg))))
        (stale self now) in
  match pop_all (elements to_drop) (satellites self) with
  | (satellites', None) => Return (set_satellites satellites' self) tt log
  | (satellites', Some e) => Raised (set_satellites satellites' self) e log
  end.

(** [_sort_proprietary_sentence(self, decoded)].  The [except Exception]
    clause turns every [Raise] of the [try] body into an error record. *)
Definition _sort_proprietary_sentence (self : t) (decoded : string)
  : Outcome t unit :=
  let psid := slice_to 3 decoded in
  let failed (self : t) (e : exn) : Outcome t unit :=
    Return self tt [(ERROR, FailedProprietary psid decoded e)] in
  if String.eqb psid PSID.STATUS then
    Return (set_status (Some (slice_from 4 decoded)) self) tt []
  else if String.eqb psid PSID.ERROR_STATUS then
    Return (set_error_status (Some (slice_from 4 decoded)) self) tt []
  else if String.eqb psid PSID.ANTENNA_PHASE then
    match index 4 decoded ≫= AntennaPhase.of_value with
    | Raise e => failed self e
    | Ok phase =>
        let self := set_antenna_phase phase self in
        match parse_phase_sentence decoded with
        | Raise e => failed self e
        | Ok antenna =>
            let self := set_antenna (Some antenna) self in
            Return self tt [(DEBUG, PhaseSentence antenna)]
        end
    end
  else if String.eqb psid PSID.TEMPERATURE then
    match parse_temperature_sentence decoded with
    | Raise e => failed self e
    | Ok temperature =>
        Return (set_temprature (Some temperature) self) tt []
    end
  else if String.eqb psid PSID.MAGNETOMETER then
    match
      parse_magnetometer_sentence decoded
        (Magnetometer.FLIP_MAGNETOMETER_X (Config.magnetometer cfg))
        (Magnetometer.FLIP_MAGNETOMETER_Y (Config.magnetometer cfg))
        (Magnetometer.FLIP_MAGNETOMETER_Z (Config.magnetometer cfg))
    with
    | Raise e => failed self e
    | Ok reading =>
        let self := set_magnetometer (Some reading) self in
        let self :=
          set_magnetometer_readings
            (Deque.append reading (magnetometer_readings self)) self in
        Return self tt []
    end
  else
    Return self tt [(WARNING, NotImplProprietary decoded)].

(** The builtin [int] applied to a string: an integer or [ValueError]. *)
Variable int : string -> Result Z.

(** [int(field) if field else None] *)
Definition int_or_none (field : string) : Result (option Z) :=
  if String.eqb field "" then Ok None
  else n ← int field; Ok (Some n).

(** One turn of the loop of [_process_gsv]; [clock] holds the two
    readings of the clock, for the reading's timestamp and inside
    [update]. *)
Definition _process_gsv_slot (talker : string) (self : t)
    (slot : GSV.slot) (clock : Q * Q) : Outcome t unit :=
  let fields :=
    prn ← int_or_none (GSV.sv_prn_num slot);
    azimuth ← int_or_none (GSV.azimuth slot);
    elevation ← int_or_none (GSV.elevation_deg slot);
    snr ← int_or_none (GSV.snr slot);
    Ok (prn, azimuth, elevation, snr) in
  match fields with
  | Raise e => Raised self e []
  | Ok (Some prn, Some azimuth, Some elevation, snr) =>
      let sat :=
        Sat.mk talker (Some prn) (Some azimuth) (Some elevation) snr
               (antenna_phase self) clock.1 in
      let key := pretty (Sat.ident sat) in
      let self :=
        match satellites self !! key with
        | Some _ => self
        | None =>
            set_satellites
              (<[key :=
                   SatHistory.init (Sat.talker sat) (Sat.prn sat)
                     (Daq.AVG_SIZE (Config.daq cfg))
                     (Daq.MAX_AGE (Config.daq cfg))]> (satellites self))
              self
        end in
      match antenna self with
      | None => Return self tt [(WARNING, AntennaCounterNotAvailable)]
      | Some antenna =>
          match satellites self !! key with
          | None => Raised self (KeyError key) []
          | Some history =>
              let o :=
                SatHistory.update cfg history (Antenna.counter antenna)
                  sat clock.2 in
              let self :=
                set_satellites (<[key := state_of o]> (satellites self))
                               self in
              match o with
              | Raised _ e log => Raised self e log
              | Return history age log =>
                  Return self tt
                    (log ++
                     if SatHistory.above_age_limit history
                     then [(DEBUG, SatelliteTooOld (Sat.ident sat) age)]
                     else [])
              end
          end
      end
  | Ok _ => Return self tt []
  end.

(** The loop [for i in range(1, 5)], left at the first exception. *)
Fixpoint _process_gsv_slots (talker : string) (self : t)
    (slots : list (GSV.slot * (Q * Q))) : Outcome t unit :=
  match slots with
  | [] => Return self tt []
  | (slot, clock) :: slots' =>
      match _process_gsv_slot talker self slot clock with
      | Return self' _ log =>
          logged_before log (_process_gsv_slots talker self' slots')
      | Raised self' e log => Raised self' e log
      end
  end.

(** [_process_gsv(self, sentence)]; [clock i] holds the readings of the
    clock in turn [i] of the loop.  An [Antenna] and an [AntennaPhase]
    are always truthy, so [all([self.antenna, self.antenna_phase])]
    asks for an antenna snapshot. *)
Definition _process_gsv (self : t) (sentence : GSV.t)
    (clock : nat -> Q * Q) : Outcome t unit :=
  match antenna self with
  | None => Return self tt [(WARNING, NoAntenna)]
  | Some _ =>
      logged_before
        [(DEBUG,
          SatellitesInView (GSV.msg_num sentence)
            (GSV.num_messages sentence) (GSV.num_sv_in_view sentence))]
        (_process_gsv_slots (GSV.talker sentence) self
           (zip (GSV.slots sentence)
                [clock 1%nat; clock 2%nat; clock 3%nat; clock 4%nat]))
  end.
End Driver.
End Driver.

(** * Notions used in the statements *)

(** The arithmetic mean of the samples of one phase. *)
Definition mean (samples : list Z) : R :=
  (IZR (sum samples) / INR (length samples))%R.

(** The counter of the active cycle never goes down. *)
Definition counter_le (before after : option Cycle.t) : Prop :=
  match before, after with
  | None, _ => True
  | Some a, Some a' => Cycle.counter a <= Cycle.counter a'
  | Some _, None => False
  end.

(** The invariant of a tracker's archive: it has the configured capacity,
    every entry is the frozen form of a valid cycle and is stored under that
    cycle's counter, every key is older than the active cycle, and the
    archive is no longer than a non-negative window size. *)
Record archive_ok (cfg : Config.t) (self : SatHistory.t) : Prop := {
  ok_capacity :
    CaporDict.capacity (SatHistory._records self) = SatHistory.avg_size self;
  ok_frozen : forall key frozen,
    (key, frozen) ∈ CaporDict.items (SatHistory._records self) ->
    exists c, Cycle.is_valid c = true /\ freeze_cycle cfg c = Ok frozen
              /\ key = Cycle.counter c;
  ok_keys : forall key,
    key ∈ CaporDict.keys (SatHistory._records self) ->
    exists active,
      SatHistory.active_cycle self = Some active
      /\ key < Cycle.counter active;
  ok_len :
    0 <= SatHistory.avg_size self ->
    SatHistory.len self <= SatHistory.avg_size self
}.

(** Every tracker of the registry is stored under the decimal string of its
    identity, as [_process_gsv] stores it. *)
Definition registry_wf (satellites : gmap string SatHistory.t) : Prop :=
  forall key sat, satellites !! key = Some sat ->
                  key = pretty (SatHistory.ident sat).

Section Decode_raises.
Variable cfg : Config.t.
Variable parse_phase_sentence : string -> Result Antenna.t.
Variable parse_temperature_sentence : string -> Result Temperature.t.
Variable parse_magnetometer_sentence :
  string -> bool -> bool -> bool -> Result RawMagnetometerReading.t.

(** Decoding the proprietary sentence [decoded], whose id is recognized,
    raises [e] inside the [try] block of [_sort_proprietary_sentence]. *)
Inductive decode_raises (decoded : string) (e : exn) : Prop :=
| raises_phase_char :
    slice_to 3 decoded = PSID.ANTENNA_PHASE ->
    index 4 decoded ≫= AntennaPhase.of_value = Raise e ->
    decode_raises decoded e
| raises_phase_fields phase :
    slice_to 3 decoded = PSID.ANTENNA_PHASE ->
    index 4 decoded ≫= AntennaPhase.of_value = Ok phase ->
    parse_phase_sentence decoded = Raise e ->
    decode_raises decoded e
| raises_temperature :
    slice_to 3 decoded = PSID.TEMPERATURE ->
    parse_temperature_sentence decoded = Raise e ->
    decode_raises decoded e
| raises_magnetometer :
    slice_to 3 decoded = PSID.MAGNETOMETER ->
    parse_magnetometer_sentence decoded
      (Magnetometer.FLIP_MAGNETOMETER_X (Config.magnetometer cfg))
      (Magnetometer.FLIP_MAGNETOMETER_Y (Config.magnetometer cfg))
      (Magnetometer.FLIP_MAGNETOMETER_Z (Config.magnetometer cfg))
    = Raise e ->
    decode_raises decoded e.
End Decode_raises.

(** ** Sample data *)

Module Sample.
(** A configuration: window of [avg_size] cycles, [max_age] misses, one
    minute of staleness, no azimuth offset. *)
Definition cfg (avg_size max_age : Z) : Config.t :=
  Config.mk (Daq.mk avg_size max_age 60000 0%R)
            (Magnetometer.mk (Some 10%nat) false false false).

(** A reading of GPS satellite 7 with a signal. *)
Definition reading (phase : AntennaPhase.t) (snr : Z) : Sat.t :=
  Sat.mk Talker.GPS (Some 7) (Some 120) (Some 45) (Some snr) phase 0%Q.

(** A reading of the same satellite with a blank SNR field. *)
Definition lost (phase : AntennaPhase.t) : Sat.t :=
  Sat.mk Talker.GPS (Some 7) (Some 120) (Some 45) None phase 0%Q.

(** One sample in each phase of cycle [cycle], taken from time [t] on. *)
Definition full_cycle (cycle : Z) (t : Q) : list (Z * Sat.t * Q) :=
  [(cycle, reading AntennaPhase.A 30, t);
   (cycle, reading AntennaPhase.B 31, t + 1);
   (cycle, reading AntennaPhase.C 32, t + 2);
   (cycle, reading AntennaPhase.D 33, t + 3)]%Q.

Definition tracker (avg_size max_age : Z) : SatHistory.t :=
  SatHistory.init Talker.GPS (Some 7) avg_size max_age.

(** Cycle 1 is archived and cycle 2 has begun. *)
Definition archived (avg_size max_age : Z) : SatHistory.t :=
  SatHistory.update_all (cfg avg_size max_age) (tracker avg_size max_age)
    (full_cycle 1 1 ++ [(2, reading AntennaPhase.A 30, 5%Q)]).


(** A window of one cycle: cycle 1 is archived, cycle 2 is complete. *)
Definition full : SatHistory.t :=
  SatHistory.update_all (cfg 1 60) (tracker 1 60)
    (full_cycle 1 1 ++ full_cycle 2 5).

(** The second cycle of [full]. *)
Definition second_cycle : Cycle.t := Cycle.mk 2 [30] [31] [32] [33].

(** A driver whose registry holds one tracker, last updated at time 5. *)
Definition driver : Driver.t :=
  Driver.set_satellites {[ "5007" := archived 50 60 ]}
    (Driver.init (cfg 50 60)).

(** A phase decoder that rejects every sentence. *)
Definition reject_phase (decoded : string) : Result Antenna.t :=
  Raise (ValueError decoded).
Definition reject_temperature (decoded : string) : Result Temperature.t :=
  Raise (ValueError decoded).
Definition reject_magnetometer (decoded : string) (_ _ _ : bool)
  : Result RawMagnetometerReading.t :=
  Raise (ValueError decoded).
End Sample.

(** * The rest of the driver and the serializers *)

(** The log records of the functions below: the records of the functions
    above, and their own. *)
Inductive DriverMsg : Type :=
| Logged (msg : LogMsg)
| StartingDriverReset
| FinishedDriverReset
| ReceivedEmptySentence
| UnknownSentence (decoded : string)
| ChecksumErrorIn (decoded : string)
| UnableToParse (decoded : string)
| FailedToProcess (decoded : string) (e : exn)
| FailedToSerialize (key : string) (e : exn).

Definition DriverLog : Type := Level * DriverMsg.

Definition logged (log : list LogRecord) : list DriverLog :=
  map (fun r => (r.1, Logged r.2)) log.

(** The three ways in which [pynmea2.parse] fails, as the handlers of
    [_sort_regular_sentence] tell them apart. *)
Inductive ParseFailure : Type :=
| ChecksumError (e : exn)
| ParseError (e : exn)
| OtherFailure (e : exn).

Definition exn_of (failure : ParseFailure) : exn :=
  match failure with
  | ChecksumError e => e
  | ParseError e => e
  | OtherFailure e => e
  end.

(** The two settings that [_sort_regular_sentence] reads:
    [device.TYPE == SerialDeviceType.MOCK] and [mocking.DYNAMIC_SIM]. *)
Module DeviceMode.
Record t : Type := mk {
  TYPE_is_MOCK : bool;
  DYNAMIC_SIM : bool
}.
End DeviceMode.

(** What a pass of the loop leaves behind: it is done, or an exception left
    the loop. *)
Inductive Run : Type :=
| Done (self : Driver.t) (log : list DriverLog)
| Died (self : Driver.t) (e : exn) (log : list DriverLog).

Definition driver_of (r : Run) : Driver.t :=
  match r with
  | Done self _ => self
  | Died self _ _ => self
  end.

Module DriverLoop.
(** Attribute assignments [self.f = v]. *)
Definition set__do_reset (v : bool) (self : Driver.t) : Driver.t :=
  Driver.mk v (Driver.antenna self) (Driver.position self)
    (Driver.magnetometer self) (Driver.temprature self) (Driver.status self)
    (Driver.error_status self) (Driver.satellites self)
    (Driver.antenna_phase self) (Driver.magnetometer_calibration_mode self)
    (Driver.magnetometer_readings self).
Definition set_position (v : option Position.t) (self : Driver.t)
  : Driver.t :=
  Driver.mk (Driver._do_reset self) (Driver.antenna self) v
    (Driver.magnetometer self) (Driver.temprature self) (Driver.status self)
    (Driver.error_status self) (Driver.satellites self)
    (Driver.antenna_phase self) (Driver.magnetometer_calibration_mode self)
    (Driver.magnetometer_readings self).

(** [reset(self)] *)
Definition reset (self : Driver.t) : Driver.t := set__do_reset true self.

(** [_check_for_reset(self)].  [clear_queue(self._raw_queue)] empties the
    input queue, which belongs to the producer and is not part of the
    driver's state. *)
Definition _check_for_reset (self : Driver.t) : Driver.t * list DriverLog :=
  if Driver._do_reset self then
    let self := Driver.set_satellites ∅ self in
    let self := Driver.set_antenna None self in
    let self := set_position None self in
    let self := Driver.set_magnetometer None self in
    let self := Driver.set_temprature None self in
    let self := Driver.set_status None self in
    let self := Driver.set_error_status None self in
    let self := set__do_reset false self in
    (self, [(WARNING, StartingDriverReset); (WARNING, FinishedDriverReset)])
  else (self, []).

(** The sentence that a mock device without dynamic simulation reports as
    its position. *)
Definition canonical_fix : string :=
  "$GPGGA,213512.10,4729.8747,N,01903.1441,E,1,14,3.1,-13.0,M,-45.3,M,,*53".

Section DriverLoop.
Variable cfg : Config.t.
Variable mode : DeviceMode.t.

(** The decoders of [server.cecil.daq.parser] and the builtin [int]. *)
Variable parse_phase_sentence : string -> Result Antenna.t.
Variable parse_temperature_sentence : string -> Result Temperature.t.
Variable parse_magnetometer_sentence :
  string -> bool -> bool -> bool -> Result RawMagnetometerReading.t.
Variable int : string -> Result Z.

(** [pynmea2]: the parsed sentences, [pynmea2.parse], the attribute
    [sentence_type] (a sentence class may lack it) and the fields that
    [_process_gsv] reads. *)
Variable NMEASentence : Type.
Variable parse : string -> ParseFailure + NMEASentence.
Variable sentence_type : NMEASentence -> Result string.
Variable gsv_fields : NMEASentence -> GSV.t.
Variable parse_gga_sentence : NMEASentence -> Result Position.t.

(** [bytes.decode(encoding)] for the configured encoding, and [str.strip]. *)
Variable decode : list Byte.byte -> Result string.
Variable strip : string -> string.

(** [_sort_regular_sentence(self, decoded)]; every exception is caught, so
    the call returns the driver and its log records.  [clock] is passed on
    to [_process_gsv]. *)
Definition _sort_regular_sentence (self : Driver.t) (decoded : string)
    (clock : nat -> Q * Q) : Driver.t * list DriverLog :=
  match parse decoded with
  | inl (ChecksumError _) => (self, [(ERROR, ChecksumErrorIn decoded)])
  | inl (ParseError _) => (self, [(ERROR, UnableToParse decoded)])
  | inl (OtherFailure _) => (self, [(ERROR, UnableToParse decoded)])
  | inr sentence =>
      match sentence_type sentence with
      | Raise e => (self, [(ERROR, FailedToProcess decoded e)])
      | Ok type =>
          if String.eqb type SID.GSV then
            match
              Driver._process_gsv cfg int self (gsv_fields sentence) clock
            with
            | Return self _ log => (self, logged log)
            | Raised self e log =>
                (self, logged log ++ [(ERROR, FailedToProcess decoded e)])
            end
          else if String.eqb type SID.GGA then
            let position :=
              if DeviceMode.TYPE_is_MOCK mode
                 && negb (DeviceMode.DYNAMIC_SIM mode)
              then
                match parse canonical_fix with
                | inl failure => Raise (exn_of failure)
                | inr fixed => parse_gga_sentence fixed
                end
              else parse_gga_sentence sentence in
            match position with
            | Ok position => (set_position (Some position) self, [])
            | Raise e => (self, [(ERROR, FailedToProcess decoded e)])
            end
          else (self, [])
      end
  end.

(** One pass of the body of [while True] in [_loop].  [raw] is the sentence
    that [self._raw_queue.get()] hands over, [now] the clock of the sweep
    and [clock] that of [_process_gsv]. *)
Definition _loop_pass (self : Driver.t) (now : string -> Q)
    (raw : list Byte.byte) (clock : nat -> Q * Q) : Run :=
  let '(self, log) := _check_for_reset self in
  match Driver._drop_old_satellites cfg self now with
  | Raised self e log' => Died self e (log ++ logged log')
  | Return self _ log' =>
      let log := log ++ logged log' in
      match decode raw with
      | Raise e => Died self e log
      | Ok text =>
          let decoded := strip text in
          match decoded with
          | EmptyString => Done self (log ++ [(ERROR, ReceivedEmptySentence)])
          | String first _ =>
              if Ascii.eqb first SID.PROPRIETARY then
                match
                  Driver._sort_proprietary_sentence cfg parse_phase_sentence
                    parse_temperature_sentence parse_magnetometer_sentence
                    self decoded
                with
                | Return self _ log' => Done self (log ++ logged log')
                | Raised self e log' => Died self e (log ++ logged log')
                end
              else if Ascii.eqb first SID.STANDARD then
                let '(self, log') :=
                  _sort_regular_sentence self decoded clock in
                Done self (log ++ log')
              else Done self (log ++ [(ERROR, UnknownSentence decoded)])
          end
      end
  end.

(** The drivers that the loop and calls of [reset] produce. *)
Inductive reachable : Driver.t -> Prop :=
| reachable_init : reachable (Driver.init cfg)
| reachable_reset self : reachable self -> reachable (reset self)
| reachable_pass self now raw clock :
    reachable self ->
    reachable (driver_of (_loop_pass self now raw clock)).
End DriverLoop.
End DriverLoop.

(** ** [serializers.py] *)

Module Serializers.
Section Serializers.
(** The values that [server.cecil.algo.functions] computes: [F] for an
    averaged SNR or azimuth, [Azimuths] for what [get_azimuths] returns. *)
Context {F Azimuths : Type}.

Record SerializedSatHistory : Type := mk {
  talker : string;
  prn : option Z;
  ident : Z;
  calculated_azimuth : F;
  calculated_azimuth_az_avg : F;
  reported_azimuth : option Z;
  reported_elevation : option Z;
  SNR : option Z;
  avg_SNR_A : F;
  avg_SNR_B : F;
  avg_SNR_C : F;
  avg_SNR_D : F;
  latest_SNR_A : F;
  latest_SNR_B : F;
  latest_SNR_C : F;
  latest_SNR_D : F;
  is_valid : bool;
  age : Z;
  last_update : option Q
}.

(** The functions of [server.cecil.algo.functions], which are not among the
    modelled sources: each one returns a value or raises. *)
Variable calculate_avg_snr : SatHistory.t -> Result (F * F * F * F).
Variable calculate_snr_avg_azimuth : F -> F -> F -> F -> Result F.
Variable get_azimuths : SatHistory.t -> Result Azimuths.
Variable calculate_azimuth_avg : Azimuths -> Result F.
Variable get_latest_snr : SatHistory.t -> AntennaPhase.t -> Result F.

Definition serialize_sat_history (history : SatHistory.t)
  : Result SerializedSatHistory :=
  '(avg_snr_a, avg_snr_b, avg_snr_c, avg_snr_d) ← calculate_avg_snr history;
  algo_l_AZ ←
    calculate_snr_avg_azimuth avg_snr_a avg_snr_b avg_snr_c avg_snr_d;
  azimuths ← get_azimuths history;
  algo_r_AZ ← calculate_azimuth_avg azimuths;
  let latest_sat_snr := SatHistory.latest_sat history ≫= Sat.SNR in
  latest_a ← get_latest_snr history AntennaPhase.A;
  latest_b ← get_latest_snr history AntennaPhase.B;
  latest_c ← get_latest_snr history AntennaPhase.C;
  latest_d ← get_latest_snr history AntennaPhase.D;
  Ok (mk (SatHistory.talker history) (SatHistory.prn history)
         (SatHistory.ident history) algo_l_AZ algo_r_AZ
         (SatHistory.latest_sat history ≫= Sat.azimuth)
         (SatHistory.latest_sat history ≫= Sat.elevation)
         latest_sat_snr avg_snr_a avg_snr_b avg_snr_c avg_snr_d
         latest_a latest_b latest_c latest_d
         (SatHistory.is_valid history) (SatHistory.age history)
         (SatHistory.last_update history)).

(** One turn of the loop of [serialize_sat_histories]: [update[key] = ...],
    or the handler's [update.pop(key, None)] and its log record. *)
Definition serialize_entry (key : string) (sat : SatHistory.t)
    (acc : gmap string SerializedSatHistory * list DriverLog)
  : gmap string SerializedSatHistory * list DriverLog :=
  match serialize_sat_history sat with
  | Ok serialized => (<[key := serialized]> acc.1, acc.2)
  | Raise e =>
      (delete key acc.1, acc.2 ++ [(ERROR, FailedToSerialize key e)])
  end.

(** [serialize_sat_histories(histories)]; [uuid] is the value that
    [uuid.uuid4()] draws.  The entries are visited in the order in which
    the finite map lists them. *)
Definition serialize_sat_histories {U : Type} (uuid : U)
    (histories : gmap string SatHistory.t)
  : (U * gmap string SerializedSatHistory) * list DriverLog :=
  let result :=
    fold_left (fun acc kv => serialize_entry kv.1 kv.2 acc)
              (map_to_list histories) (∅, []) in
  ((uuid, result.1), result.2).
End Serializers.
Arguments SerializedSatHistory F : clear implicits.
End Serializers.

(** ** Notions used in the further statements *)

(** Every sample of the cycle is a usable SNR. *)
Definition samples_usable (c : Cycle.t) : Prop :=
  forall phase, Forall (fun snr => snr <> 0) (Cycle.getitem c phase).

(** One rotation of the antenna: the readings of cycle [cycle] in the four
    phases, in the order A, B, C, D, and the times of the calls. *)
Module Rotation.
Record t : Type := mk {
  cycle : Z;
  sat : AntennaPhase.t -> Sat.t;
  now : AntennaPhase.t -> Q
}.

Definition calls (r : t) : list (Z * Sat.t * Q) :=
  map (fun phase => (cycle r, sat r phase, now r phase))
      [AntennaPhase.A; AntennaPhase.B; AntennaPhase.C; AntennaPhase.D].

Definition snr (r : t) (phase : AntennaPhase.t) : Z :=
  default 0 (Sat.SNR (sat r phase)).


(** The cycle that the rotation fills. *)
Definition samples (r : t) : Cycle.t :=
  Cycle.mk (cycle r) [snr r AntennaPhase.A] [snr r AntennaPhase.B]
    [snr r AntennaPhase.C] [snr r AntennaPhase.D].
End Rotation.



(** A tracker of the registry: it is stored under the string of its
    identity, it has a PRN, and a run of [update] calls has produced it from
    a tracker that was built with the configured sizes. *)
Definition tracked (cfg : Config.t) (key : string) (tracker : SatHistory.t)
  : Prop :=
  key = pretty (SatHistory.ident tracker)
  /\ is_Some (SatHistory.prn tracker)
  /\ SatHistory.reachable cfg
       (SatHistory.init (SatHistory.talker tracker) (SatHistory.prn tracker)
          (Daq.AVG_SIZE (Config.daq cfg)) (Daq.MAX_AGE (Config.daq cfg)))
       tracker.

Definition registry_ok (cfg : Config.t)
    (satellites : gmap string SatHistory.t) : Prop :=
  forall key tracker, satellites !! key = Some tracker ->
                      tracked cfg key tracker.

(** The calibration buffer has the configured bound and keeps to it. *)
Definition buffer_ok (cfg : Config.t)
    (readings : Deque.t RawMagnetometerReading.t) : Prop :=
  Deque.maxlen readings = Magnetometer.AVG_SIZE (Config.magnetometer cfg)
  /\ forall n, Deque.maxlen readings = Some n ->
               (length (Deque.elems readings) <= n)%nat.

(** Every tracker of [satellites] is still registered in [satellites'],
    after some calls of [update]. *)
Definition evolves (cfg : Config.t)
    (satellites satellites' : gmap string SatHistory.t) : Prop :=
  forall key tracker, satellites !! key = Some tracker ->
    exists tracker', satellites' !! key = Some tracker'
                     /\ SatHistory.reachable cfg tracker tracker'.

(** ** A sample run of the driver *)

Module Scenario.
Definition cfg : Config.t := Sample.cfg 50 60.

(** A mock device without dynamic simulation. *)
Definition mode : DeviceMode.t := DeviceMode.mk true false.

(** A phase decoder that reports cycle 1 in phase A. *)
Definition antenna : Antenna.t := Antenna.mk 1 AntennaPhase.A 1 0 0%Q.
Definition parse_phase_sentence (decoded : string) : Result Antenna.t :=
  Ok antenna.

(** [int] on a string of decimal digits. *)
Fixpoint digits (s : string) (acc : Z) : Result Z :=
  match s with
  | EmptyString => Ok acc
  | String c s' =>
      let d := Z.of_nat (nat_of_ascii c) - 48 in
      if (0 <=? d) && (d <=? 9) then digits s' (10 * acc + d)
      else Raise (ValueError s)
  end.
Definition int (s : string) : Result Z :=
  if String.eqb s "" then Raise (ValueError s) else digits s 0.

(** The parsed sentences: satellites in view, or a fix. *)
Inductive NMEASentence : Type :=
| gsv (fields : GSV.t)
| gga (position : Position.t).

Definition blank : GSV.slot := GSV.mk_slot "" "" "" "".

(** GPS satellite 7 in view, with the given SNR field. *)
Definition view (snr : string) : GSV.t :=
  GSV.mk Talker.GPS "1" "1" "1" (GSV.mk_slot "7" "45" "120" snr)
         blank blank blank.

Definition home : Position.t :=
  Position.mk Talker.GPS 0%Q 0%Q 0%Q 1 14 0%Q 0%Q 0%Q 0%Q 0.

(** A parser that knows three GSV sentences and takes every sentence that
    starts with [$GPGGA] for the fix [home]. *)
Definition parse (decoded : string) : ParseFailure + NMEASentence :=
  if String.eqb decoded "$GPGSV,30" then inr (gsv (view "30"))
  else if String.eqb decoded "$GPGSV," then inr (gsv (view ""))
  else if String.eqb decoded "$GPGSV,x" then inr (gsv (view "x"))
  else if String.prefix "$GPGGA" decoded then inr (gga home)
  else inl (ParseError (ValueError decoded)).

Definition sentence_type (sentence : NMEASentence) : Result string :=
  match sentence with
  | gsv _ => Ok SID.GSV
  | gga _ => Ok SID.GGA
  end.

Definition gsv_fields (sentence : NMEASentence) : GSV.t :=
  match sentence with
  | gsv fields => fields
  | gga _ => GSV.mk "" "" "" "" blank blank blank blank
  end.

Definition parse_gga_sentence (sentence : NMEASentence) : Result Position.t :=
  match sentence with
  | gga position => Ok position
  | gsv _ => Raise (ValueError "not a fix")
  end.

Definition decode (raw : list Byte.byte) : Result string :=
  Ok (string_of_list_byte raw).
Definition strip (text : string) : string := text.

(** Every reading of the clock is 0. *)
Definition now (key : string) : Q := 0%Q.
Definition clock (i : nat) : Q * Q := (0%Q, 0%Q).

(** One pass of the loop over the sentence [sentence]. *)
Definition pass (self : Driver.t) (sentence : string) : Run :=
  DriverLoop._loop_pass cfg mode parse_phase_sentence
    Sample.reject_temperature Sample.reject_magnetometer int NMEASentence
    parse sentence_type gsv_fields parse_gga_sentence decode strip
    self now (list_byte_of_string sentence) clock.

(** The drivers that the loop produces with these decoders. *)
Definition reachable : Driver.t -> Prop :=
  DriverLoop.reachable cfg mode parse_phase_sentence
    Sample.reject_temperature Sample.reject_magnetometer int NMEASentence
    parse sentence_type gsv_fields parse_gga_sentence decode strip.

(** The driver after a phase sentence, ... *)
Definition tuned : Driver.t := driver_of (pass (Driver.init cfg) "#02,A").

(** ... after a sighting of satellite 7 with a signal, ... *)
Definition heard : Driver.t := driver_of (pass tuned "$GPGSV,30").

(** ... and after a sighting without one. *)
Definition unheard : Driver.t := driver_of (pass tuned "$GPGSV,").

(** The tracker of satellite 7 after its first sighting, with and without
    a signal. *)
Definition heard_tracker : SatHistory.t :=
  state_of (SatHistory.update cfg (Sample.tracker 50 60) 1
              (Sample.reading AntennaPhase.A 30) 0%Q).
Definition lost_tracker : SatHistory.t :=
  state_of (SatHistory.update cfg (Sample.tracker 50 60) 1
              (Sample.lost AntennaPhase.A) 0%Q).


(** Serializer functions that report nothing. *)
Definition calculate_avg_snr (history : SatHistory.t)
  : Result (unit * unit * unit * unit) := Ok (tt, tt, tt, tt).
Definition calculate_snr_avg_azimuth (a b c d : unit) : Result unit := Ok tt.
Definition get_azimuths (history : SatHistory.t) : Result unit := Ok tt.
Definition calculate_azimuth_avg (azimuths : unit) : Result unit := Ok tt.
Definition get_latest_snr (history : SatHistory.t) (phase : AntennaPhase.t)
  : Result unit := Ok tt.
End Scenario.

(** * Properties *)

(** Unfold one step of [update] and keep the library calls folded. *)
Ltac step :=
  cbn -[Z.add Z.ltb Z.leb Z.eqb freeze_cycle Cycle.is_valid Cycle.append
        CaporDict.setitem CaporDict.contains].

(** ** The bounded map *)

Section CaporDict_facts.
Context {V : Type}.
Implicit Types (d : CaporDict.t V) (key : Z) (value : V).

Lemma elem_of_tail {A : Type} (x : A) (l : list A) : x ∈ tail l -> x ∈ l.
Proof. destruct l; cbn; [done | by apply list_elem_of_further]. Qed.

Lemma contains_keys key d :
  CaporDict.contains key d = true <-> key ∈ CaporDict.keys d.
Proof.
  unfold CaporDict.contains, CaporDict.keys. rewrite existsb_exists.
  rewrite list_elem_of_fmap. split.
  - intros (kv & Hin & Heq). exists kv. apply Z.eqb_eq in Heq.
    split; [done | by apply list_elem_of_In].
  - intros (kv & Heq & Hin). exists kv. split; [by apply list_elem_of_In|].
    apply Z.eqb_eq. done.
Qed.

Lemma keys_elem_of d key :
  key ∈ CaporDict.keys d <-> exists value, (key, value) ∈ CaporDict.items d.
Proof.
  unfold CaporDict.keys. rewrite list_elem_of_fmap. split.
  - intros ([k v] & -> & Hin). by exists v.
  - intros (v & Hin). by exists (key, v).
Qed.

Lemma setitem_capacity key value d :
  CaporDict.capacity (CaporDict.setitem key value d) = CaporDict.capacity d.
Proof.
  unfold CaporDict.setitem.
  destruct (CaporDict.contains key d); [done|]. by destruct (_ <? _).
Qed.

(** A new key goes in last; a full map gives up its oldest entry. *)
Lemma setitem_fresh key value d :
  CaporDict.contains key d = false ->
  CaporDict.items (CaporDict.setitem key value d)
  = if CaporDict.capacity d <? CaporDict.len d + 1
    then tail (CaporDict.items d ++ [(key, value)])
    else CaporDict.items d ++ [(key, value)].
Proof.
  intros Hfresh. unfold CaporDict.setitem, CaporDict.len. rewrite Hfresh.
  rewrite length_app. cbn [length].
  replace (Z.of_nat (length (CaporDict.items d) + 1))
    with (Z.of_nat (length (CaporDict.items d)) + 1) by lia.
  by destruct (_ <? _).
Qed.

Lemma setitem_elem_of key value d kv :
  kv ∈ CaporDict.items (CaporDict.setitem key value d) ->
  kv ∈ CaporDict.items d \/ kv = (key, value).
Proof.
  unfold CaporDict.setitem. destruct (CaporDict.contains key d).
  - cbn. rewrite list_elem_of_fmap. intros (kv0 & -> & Hin).
    destruct (kv0.1 =? key); auto.
  - intros Hin.
    assert (Hin' : kv ∈ CaporDict.items d ++ [(key, value)]).
    { destruct (_ <? _); cbn in Hin; [by apply elem_of_tail | done]. }
    apply elem_of_app in Hin' as [?|Hin']; [by left | right].
    by apply list_elem_of_singleton in Hin'.
Qed.

Lemma setitem_len key value d :
  0 <= CaporDict.capacity d ->
  CaporDict.len d <= CaporDict.capacity d ->
  CaporDict.len (CaporDict.setitem key value d) <= CaporDict.capacity d.
Proof.
  unfold CaporDict.len, CaporDict.setitem. intros Hcap Hlen.
  destruct (CaporDict.contains key d).
  - cbn. by rewrite length_map.
  - destruct (_ <? _) eqn:Hfull; cbn.
    + rewrite length_tl, length_app. cbn. lia.
    + by apply Z.ltb_ge in Hfull.
Qed.
End CaporDict_facts.

(** ** Cycles and freezing *)

Lemma append_counter phase snr active :
  Cycle.counter (Cycle.append phase snr active) = Cycle.counter active.
Proof. by destruct phase. Qed.

Lemma is_invalid_phase c :
  Cycle.is_invalid c = true <-> exists phase, Cycle.getitem c phase = [].
Proof.
  unfold Cycle.is_invalid, Cycle.is_valid. destruct c as [n a b c d]. split.
  - intros H.
    destruct a; [by exists AntennaPhase.A|].
    destruct b; [by exists AntennaPhase.B|].
    destruct c; [by exists AntennaPhase.C|].
    destruct d; [by exists AntennaPhase.D|]. discriminate.
  - intros ([| | |] & H); cbn in H; subst; cbn; try done.
    + by destruct a.
    + by destruct a, b.
    + by destruct a, b, c.
Qed.

Lemma fmean_mean samples :
  samples <> [] -> fmean samples = Ok (mean samples).
Proof. by destruct samples. Qed.

Lemma freeze_cycle_invalid cfg c :
  Cycle.is_invalid c = true ->
  freeze_cycle cfg c = Raise (ValueError "Cannot freeze invalid cycle").
Proof. unfold freeze_cycle. by intros ->. Qed.

Lemma freeze_cycle_valid cfg active :
  Cycle.is_valid active = true ->
  exists frozen, freeze_cycle cfg active = Ok frozen
    /\ FrozenCycle.counter frozen = Cycle.counter active
    /\ FrozenCycle.A frozen = Cycle.A active
    /\ FrozenCycle.B frozen = Cycle.B active
    /\ FrozenCycle.C frozen = Cycle.C active
    /\ FrozenCycle.D frozen = Cycle.D active.
Proof.
  intros Hv. unfold freeze_cycle, Cycle.is_invalid. rewrite Hv. cbn [negb].
  destruct active as [n a b c d]. cbn in Hv.
  destruct a, b, c, d; try discriminate.
  cbn. eexists. split; [reflexivity|]. cbn. auto.
Qed.

(** ** The angle function *)

Lemma atan2_zero : atan2 0 0 = 0%R.
Proof. unfold atan2. repeat (destruct (Rlt_dec _ _); try lra). Qed.

Lemma atan2_up : atan2 1 0 = (PI / 2)%R.
Proof. unfold atan2. repeat (destruct (Rlt_dec _ _); try lra). Qed.

Lemma atan2_down : atan2 (-1) 0 = (- (PI / 2))%R.
Proof. unfold atan2. repeat (destruct (Rlt_dec _ _); try lra). Qed.


Lemma degrees_three_quarter_turn : degrees (2 * PI + - (PI / 2)) = 270%R.
Proof. pose proof PI_RGT_0. unfold degrees. field. lra. Qed.

(** C1.  For a valid cycle [freeze_cycle] returns a frozen cycle whose four
    averages are the arithmetic means of the phases' samples and whose
    azimuth is [atan2 (avg_A - avg_C) (avg_B - avg_D)], with [2 * PI] added
    when it is negative, converted to degrees, plus the configured offset.
    With [avg_A - avg_C = -1], [avg_B - avg_D = 0] and offset [0] the azimuth
    is 270 degrees. *)
Theorem freeze_cycle_azimuth cfg active :
  Cycle.is_valid active = true ->
  exists frozen,
    freeze_cycle cfg active = Ok frozen
    /\ FrozenCycle.avg_A frozen = mean (Cycle.A active)
    /\ FrozenCycle.avg_B frozen = mean (Cycle.B active)
    /\ FrozenCycle.avg_C frozen = mean (Cycle.C active)
    /\ FrozenCycle.avg_D frozen = mean (Cycle.D active)
    /\ (let raw :=
          atan2 (FrozenCycle.avg_A frozen - FrozenCycle.avg_C frozen)
                (FrozenCycle.avg_B frozen - FrozenCycle.avg_D frozen) in
        FrozenCycle.azimuth frozen
        = (degrees (if Rlt_dec raw 0 then 2 * PI + raw else raw)
           + Daq.AZ_OFFSET (Config.daq cfg))%R)
    /\ ((FrozenCycle.avg_A frozen - FrozenCycle.avg_C frozen = -1)%R ->
        (FrozenCycle.avg_B frozen - FrozenCycle.avg_D frozen = 0)%R ->
        Daq.AZ_OFFSET (Config.daq cfg) = 0%R ->
        FrozenCycle.azimuth frozen = 270%R).
Proof.
  intros Hv. unfold freeze_cycle, Cycle.is_invalid. rewrite Hv. cbn [negb].
  destruct active as [n a b c d]. cbn in Hv.
  destruct a as [|a0 a]; [done|]. destruct b as [|b0 b]; [done|].
  destruct c as [|c0 c]; [done|]. destruct d as [|d0 d]; [done|].
  cbn [Cycle.A Cycle.B Cycle.C Cycle.D Cycle.counter].
  rewrite !fmean_mean by done. cbn [mbind Result_bind].
  eexists. split; [reflexivity|].
  cbn [FrozenCycle.avg_A FrozenCycle.avg_B FrozenCycle.avg_C
       FrozenCycle.avg_D FrozenCycle.azimuth].
  repeat (split; [reflexivity|]).
  intros Hy Hx Hoff. unfold apply_az_offset. rewrite Hy, Hx, Hoff, atan2_down.
  pose proof PI_RGT_0.
  destruct (Rlt_dec _ _); [|lra].
  rewrite degrees_three_quarter_turn. lra.
Qed.

Lemma freeze_cycle_azimuth_witness :
  exists frozen,
    freeze_cycle (Sample.cfg 50 60) (Cycle.mk 3 [1] [3] [2] [3]) = Ok frozen
    /\ FrozenCycle.azimuth frozen = 270%R.
Proof.
  destruct (freeze_cycle_azimuth (Sample.cfg 50 60)
              (Cycle.mk 3 [1] [3] [2] [3]) eq_refl)
    as (frozen & Hfz & HA & HB & HC & HD & _ & H270).
  exists frozen. split; [exact Hfz|].
  apply H270; [rewrite HA, HC | rewrite HB, HD | reflexivity];
    unfold mean; cbn; rewrite !Z.add_0_r; lra.
Defined.

(** ** One call of [update] *)

Section Tracker.
Import SatHistory.
Context (cfg : Config.t).

Lemma truthy_usable (x : option Z) :
  truthy x = true -> exists snr, x = Some snr /\ bool_of_int snr = true.
Proof.
  destruct x as [snr|]; simpl; intros H; [|discriminate].
  exists snr. split; [reflexivity | exact H].
Qed.

(** The guard [if not sat.SNR]. *)
Lemma update_missing self cycle sat now :
  truthy (Sat.SNR sat) = false ->
  update cfg self cycle sat now = went_missing self sat.
Proof.
  unfold update, truthy. destruct (Sat.SNR sat) as [snr|]; [|reflexivity].
  intros ->. reflexivity.
Qed.

Lemma set_active_cycle_same self active :
  active_cycle self = Some active ->
  set_active_cycle (Some active) self = self.
Proof. destruct self; simpl; intros ->; reflexivity. Qed.

(** [update] never assigns the identity or the configuration. *)
Lemma update_static self cycle sat now :
  let self' := state_of (update cfg self cycle sat now) in
  talker self' = talker self /\ prn self' = prn self
  /\ avg_size self' = avg_size self /\ max_age self' = max_age self.
Proof.
  unfold update, went_missing.
  destruct (Sat.SNR sat) as [snr|]; [|cbn; auto].
  destruct (negb (bool_of_int snr)); [cbn; auto|].
  destruct (above_age_limit self); step.
  all: destruct (valid self); step; [|auto].
  all: destruct (_ <? _); step; [auto|].
  all: destruct (CaporDict.contains _ _); step; [auto|].
  all: destruct (_ =? _); step; [auto|].
  all: destruct (Cycle.is_valid _); step; [|auto].
  all: destruct (freeze_cycle _ _); step; auto.
Qed.

Lemma update_ident self cycle sat now :
  ident (state_of (update cfg self cycle sat now)) = ident self.
Proof.
  destruct (update_static self cycle sat now) as (Ht & Hp & _).
  unfold ident. cbv zeta in Ht, Hp. by rewrite Ht, Hp.
Qed.

(** The call returns: the error branch of [freeze_cycle] is behind the
    guard [self.active_cycle.is_valid]. *)
Lemma update_returns self cycle sat now :
  exists self' a log, update cfg self cycle sat now = Return self' a log.
Proof.
  unfold update, went_missing.
  destruct (Sat.SNR sat) as [snr|]; [|by eexists _, _, _].
  destruct (negb (bool_of_int snr)); [by eexists _, _, _|].
  destruct (above_age_limit self); step.
  all: destruct (valid self); step; [|by eexists _, _, _].
  all: destruct (_ <? _); step; [by eexists _, _, _|].
  all: destruct (CaporDict.contains _ _); step; [by eexists _, _, _|].
  all: destruct (_ =? _); step; [by eexists _, _, _|].
  all: destruct (Cycle.is_valid _) eqn:Hv; step; [|by eexists _, _, _].
  all: destruct (freeze_cycle_valid cfg _ Hv) as (frozen & -> & _); step.
  all: by eexists _, _, _.
Qed.

(** C4.  A call whose reading carries no SNR leaves the active cycle (and
    with it the four sample sequences) unchanged, sets the validity flag
    to [false], records the reading's phase, adds exactly 1 to the
    miss-age and returns the new miss-age. *)
Theorem update_without_snr self cycle sat now :
  Sat.SNR sat = None ->
  exists self',
    update cfg self cycle sat now
    = Return self' (age self + 1)
        [(DEBUG, SatelliteWentMissing (Sat.ident sat))]
    /\ active_cycle self' = active_cycle self
    /\ valid self' = false
    /\ active_phase self' = Sat.phase sat
    /\ age self' = age self + 1
    /\ _records self' = _records self
    /\ latest_sat self' = latest_sat self
    /\ last_update self' = last_update self.
Proof.
  intros Hsnr. rewrite update_missing by (rewrite Hsnr; reflexivity).
  eexists. split; [reflexivity|]. simpl. repeat split; reflexivity.
Qed.

(** C10.  A reading whose SNR is 0 is treated as one whose SNR is absent:
    the two calls have the same outcome, which marks the tracker invalid,
    records the phase, adds 1 to the miss-age and leaves the active cycle
    alone; [Sat.is_valid] is [false] for both readings. *)
Theorem zero_snr_is_missing self cycle sat now :
  update cfg self cycle (Sat.with_SNR (Some 0) sat) now
  = update cfg self cycle (Sat.with_SNR None sat) now
  /\ update cfg self cycle (Sat.with_SNR (Some 0) sat) now
     = Return
         (set_age (age self + 1)
            (set_active_phase (Sat.phase sat) (set_valid false self)))
         (age self + 1)
         [(DEBUG, SatelliteWentMissing (Sat.ident sat))]
  /\ active_cycle
       (state_of (update cfg self cycle (Sat.with_SNR (Some 0) sat) now))
     = active_cycle self
  /\ Sat.is_valid (Sat.with_SNR (Some 0) sat) = false
  /\ Sat.is_valid (Sat.with_SNR None sat) = false.
Proof. repeat split; reflexivity. Qed.

(** One call on an invalid tracker. *)
Lemma update_invalid self cycle sat now :
  valid self = false ->
  exists self' log,
    update cfg self cycle sat now = Return self' (age self + 1) log
    /\ valid self' = false
    /\ age self' = age self + 1
    /\ active_cycle self' = active_cycle self
    /\ latest_sat self' = latest_sat self
    /\ last_update self' = last_update self.
Proof.
  intros Hinv. destruct (truthy (Sat.SNR sat)) eqn:Hsnr.
  - apply truthy_usable in Hsnr as (snr & Hsome & Hnz).
    unfold update. rewrite Hsome, Hnz. simpl negb.
    destruct (above_age_limit self); cbn -[Z.add]; rewrite Hinv;
      cbn -[Z.add]; eexists _, _; (split; [reflexivity|]); cbn; auto.
  - rewrite update_missing by assumption.
    eexists _, _. split; [reflexivity|]. cbn. auto.
Qed.




(** C7, amended.  On a valid tracker that has an active cycle and whose
    miss-age is below the maximum, a call with a usable SNR whose cycle
    counter is less than the active cycle's counter, or is a key of the
    archive, logs one warning, returns the current miss-age and leaves the
    whole state as it is. *)
Theorem update_rejects_stale_cycle self cycle sat now active :
  truthy (Sat.SNR sat) = true ->
  valid self = true ->
  above_age_limit self = false ->
  active_cycle self = Some active ->
  cycle < Cycle.counter active
  \/ CaporDict.contains cycle (_records self) = true ->
  exists msg,
    update cfg self cycle sat now = Return self (age self) [(WARNING, msg)]
    /\ (msg = EarlierCycle cycle \/ msg = CycleExists cycle).
Proof.
  intros Hsnr Hvalid Hage Hactive Hstale.
  apply truthy_usable in Hsnr as (snr & Hsome & Hnz).
  unfold update. rewrite Hsome, Hnz, Hage. cbn [negb]. rewrite Hvalid.
  cbn [negb]. rewrite Hactive, (set_active_cycle_same _ _ Hactive).
  destruct (cycle <? Cycle.counter active) eqn:Hlt.
  - eexists. split; [reflexivity | by left].
  - destruct Hstale as [Hstale | Hstale]; [apply Z.ltb_ge in Hlt; lia|].
    rewrite Hstale. eexists. split; [reflexivity | by right].
Qed.

(** A valid tracker has no misses: the flag is set only where the miss-age
    is reset, and every miss clears it. *)
Lemma update_valid_age self cycle sat now :
  (valid self = true -> age self = 0) ->
  valid (state_of (update cfg self cycle sat now)) = true ->
  age (state_of (update cfg self cycle sat now)) = 0.
Proof.
  intros IH. unfold update, went_missing.
  destruct (Sat.SNR sat) as [snr|]; [|step; done].
  destruct (negb (bool_of_int snr)); [step; done|].
  destruct (above_age_limit self); step.
  all: destruct (valid self) eqn:Hvalid; step; [|by rewrite Hvalid].
  all: destruct (_ <? _); step; [by auto|].
  all: destruct (CaporDict.contains _ _); step; [by auto|].
  all: destruct (_ =? _); step; [done|].
  all: destruct (Cycle.is_valid _); step; [|done].
  all: destruct (freeze_cycle _ _); step; by auto.
Qed.

Lemma reachable_valid_age talker prn avg_size max_age self :
  reachable cfg (init talker prn avg_size max_age) self ->
  valid self = true -> age self = 0.
Proof.
  induction 1 as [|self cycle sat now _ IH]; [done|].
  by apply update_valid_age.
Qed.

(** With a positive maximum, a valid tracker is below the age limit. *)
Lemma reachable_valid_below_limit talker prn avg_size max_age self :
  0 < max_age ->
  reachable cfg (init talker prn avg_size max_age) self ->
  valid self = true -> above_age_limit self = false.
Proof.
  intros Hpos Hreach Hvalid. unfold above_age_limit.
  rewrite (reachable_valid_age _ _ _ _ _ Hreach Hvalid).
  assert (Hmax : SatHistory.max_age self = max_age).
  { clear Hvalid. induction Hreach as [|self cycle sat now _ IH]; [done|].
    destruct (update_static self cycle sat now) as (_ & _ & _ & ->).
    done. }
  rewrite Hmax. apply Z.leb_gt. lia.
Qed.

(** ** The archive along a run of calls *)

(** What one call does to the archive and to the active cycle: the
    archive is kept or cleared, and then either left alone or extended
    with the frozen active cycle. *)
Lemma update_archive self cycle sat now :
  let self' := state_of (update cfg self cycle sat now) in
  exists R,
    (R = _records self \/ R = CaporDict.clear (_records self))
    /\ ((_records self' = R
         /\ counter_le (active_cycle self) (active_cycle self'))
        \/ (exists active frozen a,
              truthy (Sat.SNR sat) = true
              /\ valid self = true
              /\ active_cycle self = Some active
              /\ Cycle.is_valid active = true
              /\ freeze_cycle cfg active = Ok frozen
              /\ Cycle.counter active < cycle
              /\ CaporDict.contains cycle R = false
              /\ (above_age_limit self = false -> R = _records self)
              /\ _records self'
                 = CaporDict.setitem (Cycle.counter active) frozen R
              /\ active_cycle self' = Some a
              /\ Cycle.counter a = cycle)).
Proof.
  assert (Hrefl : forall o, counter_le o o).
  { intros [a|]; cbn; [lia | done]. }
  destruct (truthy (Sat.SNR sat)) eqn:Hsnr.
  2:{ rewrite update_missing by done. exists (_records self). cbn. auto. }
  apply truthy_usable in Hsnr as (snr & Hsome & Hnz).
  unfold update. rewrite Hsome, Hnz. cbn [negb].
  destruct (above_age_limit self) eqn:Hage;
    [exists (CaporDict.clear (_records self)) | exists (_records self)];
    (split; [auto|]); step.
  all: destruct (valid self) eqn:Hvalid; step; [|by left].
  all: set (active := match active_cycle self with
                      | Some c => c | None => Cycle.new cycle end).
  all: assert (Hle : counter_le (active_cycle self) (Some active))
         by (subst active; destruct (active_cycle self); cbn; [lia | done]).
  all: destruct (cycle <? Cycle.counter active) eqn:Hlt; step; [by left|].
  all: apply Z.ltb_ge in Hlt.
  all: destruct (CaporDict.contains cycle _) eqn:Hdup; step; [by left|].
  all: destruct (cycle =? Cycle.counter active) eqn:Hsame; step.
  all: try (left; split; [done|]; destruct (active_cycle self); cbn in *;
            rewrite ?append_counter; done).
  all: apply Z.eqb_neq in Hsame.
  all: destruct (Cycle.is_valid active) eqn:Hv; step.
  all: try (left; split; [done|]; destruct (active_cycle self); cbn in *;
            rewrite ?append_counter; cbn; lia).
  all: destruct (freeze_cycle_valid cfg active Hv) as (frozen & Hfz & _).
  all: rewrite Hfz; step; right.
  all: assert (Hactive : active_cycle self = Some active)
         by (subst active; destruct (active_cycle self);
             [done | cbn in Hv; discriminate]).
  all: eexists active, frozen, _.
  all: repeat split; try done; try lia; try (by rewrite append_counter).
Qed.

Lemma init_archive_ok talker prn avg_size max_age :
  archive_ok cfg (init talker prn avg_size max_age).
Proof.
  split; cbn; try done.
  - intros key frozen Hin. by apply elem_of_nil in Hin.
  - intros key Hin. by apply elem_of_nil in Hin.
Qed.

Lemma update_archive_ok self cycle sat now :
  archive_ok cfg self ->
  archive_ok cfg (state_of (update cfg self cycle sat now)).
Proof.
  intros [Hcap Hfrozen Hkeys Hlen].
  destruct (update_static self cycle sat now) as (_ & _ & Havg & _).
  destruct (update_archive self cycle sat now)
    as (R & HR & [(Hrec & Hle) | Hfreeze]).
  - (* the archive is kept or cleared *)
    assert (Hsub : forall kv, kv ∈ CaporDict.items R ->
                              kv ∈ CaporDict.items (_records self)).
    { destruct HR as [-> | ->]; [done|]. intros kv Hin.
      by apply elem_of_nil in Hin. }
    split; rewrite ?Hrec, ?Havg.
    + by destruct HR as [-> | ->].
    + intros key frozen Hin. apply Hfrozen. by apply Hsub.
    + intros key Hin. apply keys_elem_of in Hin as (value & Hin).
      destruct (Hkeys key) as (active & Hactive & Hlt).
      { apply keys_elem_of. exists value. by apply Hsub. }
      rewrite Hactive in Hle.
      destruct (active_cycle (state_of (update cfg self cycle sat now)))
        as [active'|]; [|done].
      exists active'. cbn in Hle. split; [done | lia].
    + intros Hnonneg. unfold len. rewrite Hrec.
      destruct HR as [-> | ->]; [by apply Hlen |].
      unfold CaporDict.len, CaporDict.clear.
      cbn [CaporDict.items length]. lia.
  - (* the active cycle is frozen into the archive *)
    destruct Hfreeze as (active & frozen & a & _ & _ & Hactive & Hv & Hfz
                         & Hlt & _ & _ & Hrec & Hactive' & Ha).
    assert (Hsub : forall kv, kv ∈ CaporDict.items R ->
                              kv ∈ CaporDict.items (_records self)).
    { destruct HR as [-> | ->]; [done|]. intros kv Hin.
      by apply elem_of_nil in Hin. }
    assert (HcapR : CaporDict.capacity R = avg_size self).
    { by destruct HR as [-> | ->]. }
    split; rewrite ?Hrec, ?Havg.
    + by rewrite setitem_capacity.
    + intros key frozen' Hin. apply setitem_elem_of in Hin as [Hin | Hin].
      * apply Hfrozen. by apply Hsub.
      * injection Hin as -> ->. by exists active.
    + intros key Hin. apply keys_elem_of in Hin as (value & Hin).
      exists a. split; [done|]. rewrite Ha.
      apply setitem_elem_of in Hin as [Hin | Hin].
      * destruct (Hkeys key) as (active0 & Hactive0 & Hlt0).
        { apply keys_elem_of. exists value. by apply Hsub. }
        rewrite Hactive in Hactive0. injection Hactive0 as <-. lia.
      * injection Hin as -> ->. done.
    + intros Hnonneg. unfold len. rewrite Hrec, <- HcapR.
      apply setitem_len; rewrite HcapR; [done|].
      destruct HR as [-> | ->]; [by apply Hlen |].
      unfold CaporDict.len, CaporDict.clear.
      cbn [CaporDict.items length]. lia.
Qed.

Lemma reachable_archive_ok talker prn avg_size max_age self :
  reachable cfg (init talker prn avg_size max_age) self ->
  archive_ok cfg self /\ SatHistory.avg_size self = avg_size.
Proof.
  induction 1 as [|self cycle sat now _ [IH Havg]].
  - split; [apply init_archive_ok | done].
  - split; [by apply update_archive_ok|].
    destruct (update_static self cycle sat now) as (_ & _ & -> & _).
    done.
Qed.

Lemma reachable_update_all calls : forall start self,
  reachable cfg start self ->
  reachable cfg start (update_all cfg self calls).
Proof.
  induction calls as [|[[cycle sat] now] calls IH]; intros start self Hr.
  - exact Hr.
  - apply (IH start (state_of (update cfg self cycle sat now))).
    by constructor.
Qed.

(** C5.  [freeze_cycle] raises its [ValueError] exactly on an invalid
    cycle, one that has a phase without samples, and returns a frozen
    cycle otherwise; [update] reaches no raising branch (with the averages
    computed exactly, it always returns), since it freezes behind the
    validity guard; and every entry of the archive of a tracker that a run
    of calls has produced is the frozen form of a cycle with at least one
    sample in each of the four phases. *)
Theorem freeze_guard talker prn avg_size max_age self :
  reachable cfg (init talker prn avg_size max_age) self ->
  (forall c,
      (Cycle.is_invalid c = true ->
       freeze_cycle cfg c
       = Raise (ValueError "Cannot freeze invalid cycle"))
      /\ (Cycle.is_invalid c = false ->
          exists frozen, freeze_cycle cfg c = Ok frozen)
      /\ (Cycle.is_invalid c = true <->
          exists phase, Cycle.getitem c phase = []))
  /\ (forall cycle sat now, exists self' a log,
        update cfg self cycle sat now = Return self' a log)
  /\ (forall key frozen,
        (key, frozen) ∈ CaporDict.items (_records self) ->
        exists c,
          freeze_cycle cfg c = Ok frozen
          /\ key = Cycle.counter c
          /\ forall phase, (0 < length (Cycle.getitem c phase))%nat).
Proof.
  intros Hreach. split; [|split].
  - intros c. split; [apply freeze_cycle_invalid|].
    split; [|apply is_invalid_phase].
    intros Hv. destruct (freeze_cycle_valid cfg c) as (frozen & Hfz & _).
    + unfold Cycle.is_invalid in Hv. by destruct (Cycle.is_valid c).
    + by exists frozen.
  - intros. apply update_returns.
  - intros key frozen Hin.
    destruct (reachable_archive_ok _ _ _ _ _ Hreach) as [Hok _].
    destruct (ok_frozen _ _ Hok key frozen Hin) as (c & Hv & Hfz & Hkey).
    exists c. repeat split; try done.
    intros phase. destruct (length (Cycle.getitem c phase)) eqn:Hlen; [|lia].
    apply length_zero_iff_nil in Hlen.
    assert (Hinv : Cycle.is_invalid c = true)
      by (apply is_invalid_phase; by exists phase).
    unfold Cycle.is_invalid in Hinv. rewrite Hv in Hinv. discriminate.
Qed.

(** The branch of [update] that archives the active cycle. *)
Lemma update_freezes self cycle sat now snr active frozen :
  Sat.SNR sat = Some snr -> bool_of_int snr = true ->
  valid self = true ->
  above_age_limit self = false ->
  active_cycle self = Some active ->
  Cycle.counter active < cycle ->
  CaporDict.contains cycle (_records self) = false ->
  freeze_cycle cfg active = Ok frozen ->
  _records (state_of (update cfg self cycle sat now))
  = CaporDict.setitem (Cycle.counter active) frozen (_records self)
  /\ active_cycle (state_of (update cfg self cycle sat now))
     = Some (Cycle.append (Sat.phase sat) snr (Cycle.new cycle)).
Proof.
  intros Hsome Hnz Hvalid Hage Hactive Hlt Hfresh Hfz.
  assert (Hv : Cycle.is_valid active = true).
  { destruct (Cycle.is_valid active) eqn:Hv; [done|].
    rewrite freeze_cycle_invalid in Hfz; [done|].
    unfold Cycle.is_invalid. by rewrite Hv. }
  unfold update. rewrite Hsome, Hnz, Hage. cbn [negb]. rewrite Hvalid.
  cbn [negb]. rewrite Hactive, (set_active_cycle_same _ _ Hactive).
  replace (cycle <? Cycle.counter active) with false
    by (symmetry; apply Z.ltb_ge; lia).
  rewrite Hfresh.
  replace (cycle =? Cycle.counter active) with false
    by (symmetry; apply Z.eqb_neq; lia).
  cbn [negb]. rewrite Hv, Hfz. step. done.
Qed.

(** C9.  With a non-negative window size [avg_size], the archive of a
    tracker that a run of calls has produced never holds more than
    [avg_size] entries; and when the archive is full and a call archives
    the active cycle, that cycle's counter is a new key, the entry goes in
    last and the oldest entry is dropped. *)
Theorem archive_bounded talker prn avg_size max_age self :
  0 <= avg_size ->
  reachable cfg (init talker prn avg_size max_age) self ->
  len self <= avg_size
  /\ forall cycle sat now active frozen,
       truthy (Sat.SNR sat) = true ->
       valid self = true ->
       above_age_limit self = false ->
       active_cycle self = Some active ->
       Cycle.counter active < cycle ->
       freeze_cycle cfg active = Ok frozen ->
       len self = avg_size ->
       ~ Cycle.counter active ∈ CaporDict.keys (_records self)
       /\ CaporDict.items
            (_records (state_of (update cfg self cycle sat now)))
          = tail (CaporDict.items (_records self)
                  ++ [(Cycle.counter active, frozen)]).
Proof.
  intros Hnonneg Hreach.
  destruct (reachable_archive_ok _ _ _ _ _ Hreach) as [Hok Havg].
  split; [rewrite <- Havg in *; by apply (ok_len _ _ Hok)|].
  intros cycle sat now active frozen Hsnr Hvalid Hage Hactive Hlt Hfz Hfull.
  apply truthy_usable in Hsnr as (snr & Hsome & Hnz).
  assert (Hbelow : forall key, key ∈ CaporDict.keys (_records self) ->
                               key < Cycle.counter active).
  { intros key Hin. destruct (ok_keys _ _ Hok key Hin) as (a & Ha & Hk).
    rewrite Hactive in Ha. by injection Ha as <-. }
  assert (Hnew : ~ Cycle.counter active ∈ CaporDict.keys (_records self)).
  { intros Hin. apply Hbelow in Hin. lia. }
  split; [done|].
  destruct (update_freezes self cycle sat now snr active frozen)
    as [Hrec _]; try done.
  { destruct (CaporDict.contains cycle (_records self)) eqn:Hdup; [|done].
    apply contains_keys, Hbelow in Hdup. lia. }
  rewrite Hrec, setitem_fresh.
  - unfold len in Hfull. rewrite (ok_capacity _ _ Hok), Havg, Hfull.
    by rewrite (proj2 (Z.ltb_lt _ _)) by lia.
  - destruct (CaporDict.contains _ _) eqn:Hdup; [|done].
    by apply contains_keys in Hdup.
Qed.
End Tracker.

(** ** The theorems on sample runs *)

Lemma update_without_snr_witness :
  exists self',
    SatHistory.update (Sample.cfg 50 60) (Sample.archived 50 60) 2
      (Sample.lost AntennaPhase.B) 6%Q
    = Return self' 1 [(DEBUG, SatelliteWentMissing 5007)]
    /\ SatHistory.active_cycle self'
       = Some (Cycle.mk 2 [30] [] [] [])
    /\ SatHistory.valid self' = false
    /\ SatHistory.active_phase self' = AntennaPhase.B
    /\ SatHistory.age self' = 1.
Proof.
  destruct (update_without_snr (Sample.cfg 50 60) (Sample.archived 50 60) 2
              (Sample.lost AntennaPhase.B) 6%Q eq_refl)
    as (self' & Hup & Hactive & Hvalid & Hphase & Hage & _).
  exists self'. split; [exact Hup|].
  rewrite Hactive, Hvalid, Hphase, Hage. repeat split.
Defined.


Lemma archived_reachable avg_size max_age :
  SatHistory.reachable (Sample.cfg avg_size max_age)
    (SatHistory.init Talker.GPS (Some 7) avg_size max_age)
    (Sample.archived avg_size max_age).
Proof. apply reachable_update_all. constructor. Qed.

Lemma archived_items :
  exists frozen,
    freeze_cycle (Sample.cfg 50 60) (Cycle.mk 1 [30] [31] [32] [33])
    = Ok frozen
    /\ CaporDict.items (SatHistory._records (Sample.archived 50 60))
       = [(1, frozen)].
Proof. eexists. split; reflexivity. Qed.

Lemma freeze_guard_witness :
  (exists self' a log,
      SatHistory.update (Sample.cfg 50 60) (Sample.archived 50 60) 3
        (Sample.reading AntennaPhase.A 30) 9%Q
      = Return self' a log)
  /\ exists frozen c,
       CaporDict.items (SatHistory._records (Sample.archived 50 60))
       = [(1, frozen)]
       /\ freeze_cycle (Sample.cfg 50 60) c = Ok frozen
       /\ 1 = Cycle.counter c
       /\ forall phase, (0 < length (Cycle.getitem c phase))%nat.
Proof.
  destruct (freeze_guard (Sample.cfg 50 60) Talker.GPS (Some 7) 50 60
              (Sample.archived 50 60) (archived_reachable 50 60))
    as (_ & Hreturns & Harchive).
  split; [apply Hreturns|].
  destruct archived_items as (frozen & _ & Hitems).
  destruct (Harchive 1 frozen) as (c & Hfz & Hkey & Hphases).
  { rewrite Hitems. apply list_elem_of_here. }
  by exists frozen, c.
Defined.


Lemma update_rejects_stale_cycle_witness :
  exists msg,
    SatHistory.update (Sample.cfg 50 60) (Sample.archived 50 60) 1
      (Sample.reading AntennaPhase.B 31) 6%Q
    = Return (Sample.archived 50 60) 0 [(WARNING, msg)].
Proof.
  destruct (update_rejects_stale_cycle (Sample.cfg 50 60)
              (Sample.archived 50 60) 1 (Sample.reading AntennaPhase.B 31) 6%Q
              (Cycle.mk 2 [30] [] [] []) eq_refl eq_refl eq_refl eq_refl)
    as (msg & Hup & _).
  { left. reflexivity. }
  exists msg. exact Hup.
Defined.

(** C7 as stated fails when the maximum miss-age is 0: the tracker below is
    valid, the reading has a usable SNR, and cycle 1 is both older than the
    active cycle 2 and a key of the archive, yet the call empties the
    archive. *)
Lemma stale_cycle_clears_archive :
  SatHistory.reachable (Sample.cfg 50 0)
    (SatHistory.init Talker.GPS (Some 7) 50 0) (Sample.archived 50 0)
  /\ truthy (Sat.SNR (Sample.reading AntennaPhase.B 31)) = true
  /\ SatHistory.valid (Sample.archived 50 0) = true
  /\ SatHistory.active_cycle (Sample.archived 50 0)
     = Some (Cycle.mk 2 [30] [] [] [])
  /\ CaporDict.contains 1 (SatHistory._records (Sample.archived 50 0)) = true
  /\ CaporDict.keys (SatHistory._records (Sample.archived 50 0)) = [1]
  /\ CaporDict.keys
       (SatHistory._records
          (state_of
             (SatHistory.update (Sample.cfg 50 0) (Sample.archived 50 0) 1
                (Sample.reading AntennaPhase.B 31) 6%Q)))
     = []
  /\ state_of
       (SatHistory.update (Sample.cfg 50 0) (Sample.archived 50 0) 1
          (Sample.reading AntennaPhase.B 31) 6%Q)
     <> Sample.archived 50 0.
Proof.
  split; [apply archived_reachable|].
  repeat (split; [reflexivity|]).
  intros Heq.
  assert (Hkeys : CaporDict.keys (SatHistory._records (Sample.archived 50 0))
                  = []) by (rewrite <- Heq; reflexivity).
  discriminate Hkeys.
Qed.

Lemma full_reachable :
  SatHistory.reachable (Sample.cfg 1 60)
    (SatHistory.init Talker.GPS (Some 7) 1 60) Sample.full.
Proof. apply reachable_update_all. constructor. Qed.

Lemma archive_bounded_witness :
  SatHistory.len Sample.full <= 1
  /\ CaporDict.keys (SatHistory._records Sample.full) = [1]
  /\ CaporDict.keys
       (SatHistory._records
          (state_of
             (SatHistory.update (Sample.cfg 1 60) Sample.full 3
                (Sample.reading AntennaPhase.A 30) 9%Q)))
     = [2].
Proof.
  assert (Hnonneg : 0 <= 1) by lia.
  destruct (archive_bounded (Sample.cfg 1 60) Talker.GPS (Some 7) 1 60
              Sample.full Hnonneg full_reachable) as (Hlen & Hevict).
  split; [exact Hlen|]. split; [reflexivity|].
  destruct (freeze_cycle_valid (Sample.cfg 1 60) Sample.second_cycle eq_refl)
    as (frozen & Hfz & _).
  destruct (Hevict 3 (Sample.reading AntennaPhase.A 30) 9%Q
              Sample.second_cycle frozen
              eq_refl eq_refl eq_refl eq_refl eq_refl Hfz eq_refl)
    as (_ & Hitems).
  unfold CaporDict.keys. rewrite Hitems. reflexivity.
Defined.

(** ** The registry *)

Section Registry.
Context (cfg : Config.t) (int : string -> Result Z).

Lemma init_registry_wf : registry_wf (Driver.satellites (Driver.init cfg)).
Proof.
  intros key sat Hlook. cbn in Hlook. by rewrite lookup_empty in Hlook.
Qed.

Lemma insert_registry_wf satellites key sat :
  registry_wf satellites ->
  key = pretty (SatHistory.ident sat) ->
  registry_wf (<[key := sat]> satellites).
Proof.
  intros Hwf Hkey key' sat' Hlook.
  apply lookup_insert_Some in Hlook as [[<- <-] | [_ Hlook]]; [done|].
  by apply Hwf.
Qed.

(** [_process_gsv] stores a tracker under the string of its identity. *)
Lemma process_gsv_slot_wf talker self slot clock :
  registry_wf (Driver.satellites self) ->
  registry_wf
    (Driver.satellites
       (state_of (Driver._process_gsv_slot cfg int talker self slot clock))).
Proof.
  intros Hwf. unfold Driver._process_gsv_slot.
  destruct (Driver.int_or_none int (GSV.sv_prn_num slot)) as [[prn|]|];
    cbn [mbind Result_bind];
    destruct (Driver.int_or_none int (GSV.azimuth slot)) as [[az|]|];
    cbn [mbind Result_bind];
    destruct (Driver.int_or_none int (GSV.elevation_deg slot)) as [[el|]|];
    cbn [mbind Result_bind];
    destruct (Driver.int_or_none int (GSV.snr slot)) as [snr|];
    cbn [mbind Result_bind state_of]; try done.
  set (sat := Sat.mk _ _ _ _ _ _ _).
  set (key := pretty (Sat.ident sat)).
  set (self1 := match Driver.satellites self !! key with
                | Some _ => self | None => _ end).
  assert (Hwf1 : registry_wf (Driver.satellites self1)).
  { subst self1. destruct (Driver.satellites self !! key); [done|].
    destruct self. by apply insert_registry_wf. }
  clearbody self1.
  destruct (Driver.antenna self1) as [antenna|]; [|done].
  destruct (Driver.satellites self1 !! key) as [history|] eqn:Hlook; [|done].
  assert (Hwf2 : registry_wf
    (<[key := state_of
         (SatHistory.update cfg history (Antenna.counter antenna) sat
            clock.2)]> (Driver.satellites self1))).
  { apply insert_registry_wf; [done|]. rewrite update_ident.
    by apply Hwf1. }
  destruct (SatHistory.update _ _ _ _ _); by destruct self1.
Qed.

Lemma process_gsv_wf self sentence clock :
  registry_wf (Driver.satellites self) ->
  registry_wf
    (Driver.satellites
       (state_of (Driver._process_gsv cfg int self sentence clock))).
Proof.
  intros Hwf. unfold Driver._process_gsv.
  destruct (Driver.antenna self); [|done].
  assert (Hslots : forall slots self,
    registry_wf (Driver.satellites self) ->
    registry_wf
      (Driver.satellites
         (state_of
            (Driver._process_gsv_slots cfg int (GSV.talker sentence) self
               slots)))).
  { clear. induction slots as [|[slot clock] slots IH]; intros self Hwf.
    - done.
    - cbn [Driver._process_gsv_slots].
      pose proof (process_gsv_slot_wf (GSV.talker sentence) self slot clock
                    Hwf) as Hslot.
      destruct (Driver._process_gsv_slot _ _ _ _ _ _) as [self' [] log|];
        [|done].
      specialize (IH self' Hslot).
      by destruct (Driver._process_gsv_slots _ _ _ _ _). }
  specialize (Hslots (zip (GSV.slots sentence)
    [clock 1%nat; clock 2%nat; clock 3%nat; clock 4%nat]) self Hwf).
  by destruct (Driver._process_gsv_slots _ _ _ _ _).
Qed.

(** Popping identities that are all stored, each once, removes them and
    nothing else. *)
Lemma pop_all_spec idents : forall satellites : gmap string SatHistory.t,
  NoDup idents ->
  (forall ident, ident ∈ idents -> is_Some (satellites !! pretty ident)) ->
  exists satellites',
    Driver.pop_all idents satellites = (satellites', None)
    /\ forall key : string,
         satellites' !! key
         = if decide (key ∈ pretty <$> idents) then None
           else satellites !! key.
Proof.
  induction idents as [|ident idents IH]; intros satellites Hnodup Hin.
  - exists satellites. split; [done|]. intros key.
    destruct (decide _) as [H|_]; [|done]. by apply elem_of_nil in H.
  - apply NoDup_cons in Hnodup as [Hfresh Hnodup].
    destruct (Hin ident) as [sat Hsat]; [by left|].
    cbn [Driver.pop_all]. rewrite Hsat.
    destruct (IH (delete (pretty ident) satellites) Hnodup)
      as (satellites' & Hpop & Hlook).
    { intros ident' Hin'. rewrite lookup_delete_ne.
      - apply Hin. by right.
      - intros Heq. apply (inj pretty) in Heq. by subst. }
    exists satellites'. split; [done|]. intros key. rewrite Hlook.
    rewrite fmap_cons.
    destruct (decide (key ∈ pretty <$> idents)) as [Hk|Hk].
    + rewrite decide_True; [done | by right].
    + destruct (decide (key = pretty ident)) as [->|Hne].
      * rewrite decide_True by (by left). apply lookup_delete_eq.
      * rewrite decide_False.
        -- by apply lookup_delete_ne.
        -- intros [?|?]%elem_of_cons; done.
Qed.

(** More than the threshold has passed since the last update. *)
Lemma above_time_limit_stale sat now last :
  SatHistory.last_update sat = Some last ->
  (Daq.MAX_AGE_TIME (Config.daq cfg) / 1000 < now - last)%Q ->
  SatHistory.above_time_limit cfg sat now = true.
Proof.
  intros Hlast Hold. unfold SatHistory.above_time_limit. rewrite Hlast.
  apply Qle_bool_iff. cbv zeta.
  generalize dependent (Daq.MAX_AGE_TIME (Config.daq cfg) / 1000)%Q.
  intros limit Hold. Lqa.lra.
Qed.

(** C8.  In a registry that stores each tracker under the string of its
    identity, the sweep returns, and every tracker whose last update lies
    more than [MAX_AGE_TIME / 1000] seconds before the clock reading taken
    for it is gone from the registry afterwards, whatever its miss-age
    (and the rest of its state) is; a tracker that is not above the time
    limit stays. *)
Theorem stale_trackers_dropped self now :
  registry_wf (Driver.satellites self) ->
  exists satellites' log,
    Driver._drop_old_satellites cfg self now
    = Return (Driver.set_satellites satellites' self) tt log
    /\ (forall key sat last,
          Driver.satellites self !! key = Some sat ->
          SatHistory.last_update sat = Some last ->
          (Daq.MAX_AGE_TIME (Config.daq cfg) / 1000 < now key - last)%Q ->
          satellites' !! key = None)
    /\ (forall key sat,
          Driver.satellites self !! key = Some sat ->
          SatHistory.above_time_limit cfg sat (now key) = false ->
          satellites' !! key = Some sat).
Proof.
  intros Hwf. unfold Driver._drop_old_satellites.
  set (to_drop := list_to_set _ : gset Z).
  assert (Hdrop : forall ident, ident ∈ elements to_drop <->
    exists key sat, Driver.satellites self !! key = Some sat
      /\ SatHistory.above_time_limit cfg sat (now key) = true
      /\ ident = SatHistory.ident sat).
  { intros ident. subst to_drop.
    rewrite elem_of_elements, elem_of_list_to_set, list_elem_of_fmap.
    unfold Driver.stale. split.
    - intros ([key sat] & -> & Hin).
      apply list_elem_of_filter in Hin as [Hlim Hin].
      apply elem_of_map_to_list in Hin. by exists key, sat.
    - intros (key & sat & Hlook & Hlim & ->). exists (key, sat).
      split; [done|]. apply list_elem_of_filter. split; [done|].
      by apply elem_of_map_to_list. }
  destruct (pop_all_spec (elements to_drop) (Driver.satellites self))
    as (satellites' & Hpop & Hlook).
  { apply NoDup_elements. }
  { intros ident (key & sat & Hsat & _ & ->)%Hdrop.
    rewrite <- (Hwf key sat Hsat). by exists sat. }
  rewrite Hpop. eexists satellites', _. split; [reflexivity|]. split.
  - intros key sat last Hsat Hlast Hold. rewrite Hlook.
    rewrite decide_True; [done|]. apply list_elem_of_fmap.
    exists (SatHistory.ident sat). split; [by apply Hwf|].
    apply Hdrop. exists key, sat. split; [done|]. split; [|done].
    by apply above_time_limit_stale with last.
  - intros key sat Hsat Hfresh. rewrite Hlook.
    rewrite decide_False; [done|].
    intros (ident & -> & (key' & sat' & Hsat' & Hlim & ->)%Hdrop)
      %list_elem_of_fmap.
    rewrite <- (Hwf key' sat' Hsat') in Hsat, Hfresh.
    rewrite Hsat' in Hsat. injection Hsat as ->. congruence.
Qed.
End Registry.

Lemma sample_registry_wf : registry_wf (Driver.satellites Sample.driver).
Proof.
  intros key sat Hlook.
  change (Driver.satellites Sample.driver)
    with ({[ "5007" := Sample.archived 50 60 ]} : gmap string SatHistory.t)
    in Hlook.
  apply lookup_singleton_Some in Hlook as [<- <-]. vm_compute. reflexivity.
Qed.

Lemma stale_trackers_dropped_witness :
  SatHistory.last_update (Sample.archived 50 60) = Some 5%Q
  /\ Driver.satellites
       (state_of
          (Driver._drop_old_satellites (Sample.cfg 50 60) Sample.driver
             (fun _ => 100%Q)))
     !! "5007"
     = None.
Proof.
  destruct (stale_trackers_dropped (Sample.cfg 50 60) Sample.driver
              (fun _ => 100%Q) sample_registry_wf)
    as (satellites' & log & Hsweep & Hgone & _).
  split; [vm_compute; reflexivity|]. rewrite Hsweep.
  change (satellites' !! "5007" = None).
  apply (Hgone "5007" (Sample.archived 50 60) 5%Q).
  - reflexivity.
  - vm_compute; reflexivity.
  - vm_compute; reflexivity.
Defined.

(** ** Proprietary sentences *)

Section Proprietary.
Context (cfg : Config.t).
Context (parse_phase_sentence : string -> Result Antenna.t).
Context (parse_temperature_sentence : string -> Result Temperature.t).
Context (parse_magnetometer_sentence :
           string -> bool -> bool -> bool -> Result RawMagnetometerReading.t).

Local Abbreviation sort :=
  (Driver._sort_proprietary_sentence cfg parse_phase_sentence
     parse_temperature_sentence parse_magnetometer_sentence).
Local Abbreviation raises :=
  (decode_raises cfg parse_phase_sentence parse_temperature_sentence
     parse_magnetometer_sentence).

Ltac pick_case Hid :=
  unfold Driver._sort_proprietary_sentence; rewrite Hid;
  cbn [String.eqb Ascii.eqb Bool.eqb PSID.STATUS PSID.ERROR_STATUS
       PSID.ANTENNA_PHASE PSID.TEMPERATURE PSID.MAGNETOMETER].

(** The status ids decode nothing that can fail. *)
Lemma status_stored self decoded :
  slice_to 3 decoded = PSID.STATUS ->
  sort self decoded
  = Return (Driver.set_status (Some (slice_from 4 decoded)) self) tt [].
Proof. intros Hid. by pick_case Hid. Qed.

Lemma error_status_stored self decoded :
  slice_to 3 decoded = PSID.ERROR_STATUS ->
  sort self decoded
  = Return (Driver.set_error_status (Some (slice_from 4 decoded)) self)
      tt [].
Proof. intros Hid. by pick_case Hid. Qed.

(** A failed decode is caught and logged with the id and the raw text; of
    the driver's fields only [antenna_phase] can differ afterwards. *)
Lemma decode_failure_caught self decoded e :
  raises decoded e ->
  exists self',
    sort self decoded
    = Return self' tt
        [(ERROR, FailedProprietary (slice_to 3 decoded) decoded e)]
    /\ Driver.set_antenna_phase (Driver.antenna_phase self) self' = self.
Proof.
  intros [Hid Hraise | phase Hid Hphase Hraise | Hid Hraise | Hid Hraise];
    pick_case Hid; rewrite ?Hphase, Hraise;
    eexists; (split; [reflexivity|]); by destruct self.
Qed.

(** Unless the failure is that of [parse_phase_sentence], nothing
    changes. *)
Lemma decode_failure_isolated self decoded e :
  raises decoded e ->
  (forall phase, index 4 decoded ≫= AntennaPhase.of_value = Ok phase ->
                 slice_to 3 decoded <> PSID.ANTENNA_PHASE) ->
  sort self decoded
  = Return self tt
      [(ERROR, FailedProprietary (slice_to 3 decoded) decoded e)].
Proof.
  intros [Hid Hraise | phase Hid Hphase Hraise | Hid Hraise | Hid Hraise]
    Hother.
  2:{ by destruct (Hother phase Hphase). }
  all: pick_case Hid; by rewrite Hraise.
Qed.

(** C3, where the code departs from it.  When the phase character of an
    antenna-phase sentence is accepted and [parse_phase_sentence] then
    raises, the exception is caught and logged with the id and the raw
    text, but [antenna_phase] has already been assigned: the driver keeps
    the new phase next to the old antenna snapshot, and its state differs
    from the one before whenever the phase differs. *)
Theorem failed_phase_decode_moves_phase self decoded phase e :
  slice_to 3 decoded = PSID.ANTENNA_PHASE ->
  index 4 decoded ≫= AntennaPhase.of_value = Ok phase ->
  parse_phase_sentence decoded = Raise e ->
  sort self decoded
  = Return (Driver.set_antenna_phase phase self) tt
      [(ERROR, FailedProprietary PSID.ANTENNA_PHASE decoded e)]
  /\ (Driver.antenna_phase self <> phase ->
      state_of (sort self decoded) <> self).
Proof.
  intros Hid Hphase Hraise.
  assert (Hsort : sort self decoded
    = Return (Driver.set_antenna_phase phase self) tt
        [(ERROR, FailedProprietary PSID.ANTENNA_PHASE decoded e)]).
  { pick_case Hid. by rewrite Hphase, Hraise. }
  split; [done|]. rewrite Hsort. cbn [state_of]. intros Hne Heq.
  apply Hne. by rewrite <- Heq.
Qed.
End Proprietary.

Lemma failed_phase_decode_moves_phase_witness :
  Driver.antenna_phase (Driver.init (Sample.cfg 50 60)) = AntennaPhase.A
  /\ Driver.antenna_phase
       (state_of
          (Driver._sort_proprietary_sentence (Sample.cfg 50 60)
             Sample.reject_phase Sample.reject_temperature
             Sample.reject_magnetometer (Driver.init (Sample.cfg 50 60))
             "#02,B"))
     = AntennaPhase.B
  /\ log_of
       (Driver._sort_proprietary_sentence (Sample.cfg 50 60)
          Sample.reject_phase Sample.reject_temperature
          Sample.reject_magnetometer (Driver.init (Sample.cfg 50 60))
          "#02,B")
     = [(ERROR, FailedProprietary "#02" "#02,B" (ValueError "#02,B"))].
Proof.
  destruct (failed_phase_decode_moves_phase (Sample.cfg 50 60)
              Sample.reject_phase Sample.reject_temperature
              Sample.reject_magnetometer (Driver.init (Sample.cfg 50 60))
              "#02,B" AntennaPhase.B (ValueError "#02,B")
              eq_refl eq_refl eq_refl)
    as [Hsort _].
  split; [reflexivity|]. rewrite Hsort. split; reflexivity.
Defined.

(** * Further properties *)

(** ** The tracker, call by call *)

Section Tracker_steps.
Import SatHistory.
Context (cfg : Config.t).


End Tracker_steps.

Section Tracker_runs.
Import SatHistory.
Context (cfg : Config.t).

Lemma keys_tail {V : Type} (l : list (Z * V)) :
  map fst (tail l) = tail (map fst l).
Proof. by destruct l. Qed.

Lemma StronglySorted_tail {A : Type} (R : relation A) (l : list A) :
  StronglySorted R l -> StronglySorted R (tail l).
Proof. destruct l; [done|]. cbn. by intros [_ ?]%StronglySorted_cons. Qed.

Lemma update_keys_sorted self cycle sat now :
  archive_ok cfg self ->
  StronglySorted Z.lt (CaporDict.keys (_records self)) ->
  StronglySorted Z.lt
    (CaporDict.keys (_records (state_of (update cfg self cycle sat now)))).
Proof.
  intros Hok Hsorted.
  destruct (update_archive cfg self cycle sat now)
    as (R & HR & [(-> & _) | Hfreeze]).
  - destruct HR as [-> | ->]; [done | constructor].
  - destruct Hfreeze as (active & frozen & a & _ & _ & Hactive & _ & _
                         & _ & _ & _ & -> & _ & _).
    assert (HsortedR : StronglySorted Z.lt (CaporDict.keys R)).
    { destruct HR as [-> | ->]; [done | constructor]. }
    assert (Hbelow : forall key, key ∈ CaporDict.keys R ->
                                 key < Cycle.counter active).
    { intros key Hin.
      assert (Hin' : key ∈ CaporDict.keys (_records self)).
      { destruct HR as [-> | ->]; [done | by apply elem_of_nil in Hin]. }
      destruct (ok_keys _ _ Hok key Hin') as (active' & Hactive' & Hlt).
      rewrite Hactive in Hactive'. by injection Hactive' as <-. }
    unfold CaporDict.keys. rewrite setitem_fresh.
    2:{ destruct (CaporDict.contains _ R) eqn:Hdup; [|done].
        apply contains_keys, Hbelow in Hdup. lia. }
    assert (Hsnoc : StronglySorted Z.lt
              (map fst (CaporDict.items R
                        ++ [(Cycle.counter active, frozen)]))).
    { rewrite map_app. apply StronglySorted_app_2.
      - intros x1 x2 Hx1 ->%list_elem_of_singleton. by apply Hbelow.
      - done.
      - repeat constructor. }
    destruct (_ <? _); [|done].
    rewrite keys_tail. by apply StronglySorted_tail.
Qed.

(** X2.  Along every run of [update] the archive lists its cycles by strictly
    increasing counter, every archived counter is older than the active
    cycle, and every frozen cycle is stored under its own counter. *)
Theorem archive_keys_increasing talker prn avg_size max_age self :
  reachable cfg (init talker prn avg_size max_age) self ->
  StronglySorted Z.lt (CaporDict.keys (_records self))
  /\ (forall key, key ∈ CaporDict.keys (_records self) ->
        exists active,
          active_cycle self = Some active /\ key < Cycle.counter active)
  /\ (forall key frozen,
        (key, frozen) ∈ CaporDict.items (_records self) ->
        FrozenCycle.counter frozen = key).
Proof.
  intros Hreach. split; [|split].
  - induction Hreach as [|self cycle sat now Hreach IH]; [constructor|].
    apply update_keys_sorted; [|done].
    by destruct (reachable_archive_ok cfg _ _ _ _ _ Hreach).
  - destruct (reachable_archive_ok cfg _ _ _ _ _ Hreach) as [Hok _].
    apply (ok_keys _ _ Hok).
  - destruct (reachable_archive_ok cfg _ _ _ _ _ Hreach) as [Hok _].
    intros key frozen Hin.
    destruct (ok_frozen _ _ Hok key frozen Hin) as (c & Hv & Hfz & ->).
    destruct (freeze_cycle_valid cfg c Hv) as (frozen' & Hfz' & Hc & _).
    congruence.
Qed.

Ltac other_records :=
  let Hin := fresh "Hin" in
  intros Hin;
  repeat (apply elem_of_cons in Hin as [Hin|Hin]; [discriminate Hin|]);
  by apply elem_of_nil in Hin.

(** X3.  The branch [if cycle in self._records] of [update] is dead along
    every run of [update] calls: its warning is never logged. *)
Theorem duplicate_warning_never_logged talker prn avg_size max_age self
    cycle sat now known :
  reachable cfg (init talker prn avg_size max_age) self ->
  ~ (WARNING, CycleExists known) ∈ log_of (update cfg self cycle sat now).
Proof.
  intros Hreach.
  destruct (reachable_archive_ok cfg _ _ _ _ _ Hreach) as [Hok _].
  pose proof (ok_keys _ _ Hok) as Hkeys.
  unfold update, went_missing.
  destruct (Sat.SNR sat) as [snr|]; [|cbn; other_records].
  destruct (negb (bool_of_int snr)); [cbn; other_records|].
  destruct (above_age_limit self) eqn:Hage; step.
  all: destruct (valid self) eqn:Hvalid; step; [|other_records].
  all: set (active := match active_cycle self with
                      | Some c => c | None => Cycle.new cycle end).
  all: destruct (cycle <? Cycle.counter active) eqn:Hlt; step;
    [other_records|].
  - (* the archive has just been cleared: no key is left *)
    destruct (cycle =? Cycle.counter active); step; [other_records|].
    destruct (Cycle.is_valid active) eqn:Hv; step; [|other_records].
    destruct (freeze_cycle_valid cfg _ Hv) as (frozen & -> & _); step.
    other_records.
  - destruct (CaporDict.contains cycle (_records self)) eqn:Hdup; step.
    + (* an archived key is below the active counter *)
      exfalso. apply contains_keys, Hkeys in Hdup as (a & Ha & Hbelow).
      subst active. rewrite Ha in Hlt. apply Z.ltb_ge in Hlt. lia.
    + destruct (cycle =? Cycle.counter active); step; [other_records|].
      destruct (Cycle.is_valid active) eqn:Hv; step; [|other_records].
      destruct (freeze_cycle_valid cfg _ Hv) as (frozen & -> & _); step.
      other_records.
Qed.
End Tracker_runs.

Section Tracker_samples.
Import SatHistory.
Context (cfg : Config.t).

Lemma samples_usable_new cycle : samples_usable (Cycle.new cycle).
Proof. by intros []. Qed.

Lemma samples_usable_append phase snr c :
  snr <> 0 -> samples_usable c ->
  samples_usable (Cycle.append phase snr c).
Proof.
  intros Hnz Hc phase'. specialize (Hc phase').
  destruct phase, phase'; cbn in *; try done;
    apply Forall_app; split; try done; by constructor.
Qed.

(** What a call keeps of the samples and of the latest reading. *)
Lemma update_samples self cycle sat now :
  (forall c, active_cycle self = Some c -> samples_usable c) ->
  (forall s, latest_sat self = Some s -> truthy (Sat.SNR s) = true) ->
  (latest_sat self = None <-> last_update self = None) ->
  let self' := state_of (update cfg self cycle sat now) in
  (forall c, active_cycle self' = Some c -> samples_usable c)
  /\ (forall s, latest_sat self' = Some s -> truthy (Sat.SNR s) = true)
  /\ (latest_sat self' = None <-> last_update self' = None).
Proof.
  intros Hact Hlatest Hboth.
  unfold update, went_missing.
  destruct (Sat.SNR sat) as [snr|] eqn:Hsome; [|by step].
  destruct (bool_of_int snr) eqn:Hnz; cbn [negb]; [|by step].
  assert (Hsnr : snr <> 0).
  { intros ->. discriminate Hnz. }
  assert (Husable : truthy (Sat.SNR sat) = true) by (by rewrite Hsome).
  assert (Hactive : samples_usable
            match active_cycle self with
            | Some c => c | None => Cycle.new cycle end).
  { destruct (active_cycle self) as [c|]; [by apply Hact|].
    apply samples_usable_new. }
  destruct (above_age_limit self); step.
  all: destruct (valid self); step; [|done].
  all: destruct (_ <? _); step;
    [split; [by intros c [= <-]|done]|].
  all: destruct (CaporDict.contains _ _); step;
    [split; [by intros c [= <-]|done]|].
  all: destruct (_ =? _); step.
  all: try destruct (Cycle.is_valid _) eqn:Hv; step.
  all: try (destruct (freeze_cycle_valid cfg _ Hv) as (frozen & -> & _); step).
  all: split; [intros c [= <-]; apply samples_usable_append; try done;
               apply samples_usable_new|].
  all: split; [by intros s [= <-] | done].
Qed.

Lemma frozen_samples c frozen :
  freeze_cycle cfg c = Ok frozen ->
  Cycle.mk (FrozenCycle.counter frozen) (FrozenCycle.A frozen)
    (FrozenCycle.B frozen) (FrozenCycle.C frozen) (FrozenCycle.D frozen)
  = c.
Proof.
  intros Hfz. destruct (Cycle.is_valid c) eqn:Hv.
  - destruct (freeze_cycle_valid cfg c Hv)
      as (frozen' & Hfz' & Hn & Ha & Hb & Hc & Hd).
    rewrite Hfz in Hfz'. injection Hfz' as <-.
    rewrite Hn, Ha, Hb, Hc, Hd. by destruct c.
  - rewrite freeze_cycle_invalid in Hfz; [done|].
    unfold Cycle.is_invalid. by rewrite Hv.
Qed.

(** The active samples and the latest reading along a run. *)
Lemma reachable_latest talker prn avg_size max_age self :
  reachable cfg (init talker prn avg_size max_age) self ->
  (forall c, active_cycle self = Some c -> samples_usable c)
  /\ (forall s, latest_sat self = Some s -> truthy (Sat.SNR s) = true)
  /\ (latest_sat self = None <-> last_update self = None).
Proof.
  induction 1 as [|self cycle sat now Hreach (IHact & IHlatest & IHboth)].
  - by cbn.
  - by apply update_samples.
Qed.

(** X4.  No sample that enters the statistics is 0: along every run of
    [update] the samples of the active cycle and of every archived cycle
    are non-zero, the latest reading has a usable SNR, and there is a
    latest reading exactly when there is a time of last update. *)
Theorem samples_never_zero talker prn avg_size max_age self :
  reachable cfg (init talker prn avg_size max_age) self ->
  (forall c, active_cycle self = Some c -> samples_usable c)
  /\ (forall key frozen,
        (key, frozen) ∈ CaporDict.items (_records self) ->
        samples_usable
          (Cycle.mk (FrozenCycle.counter frozen) (FrozenCycle.A frozen)
             (FrozenCycle.B frozen) (FrozenCycle.C frozen)
             (FrozenCycle.D frozen)))
  /\ (forall s, latest_sat self = Some s -> truthy (Sat.SNR s) = true)
  /\ (latest_sat self = None <-> last_update self = None).
Proof.
  intros Hreach.
  destruct (reachable_latest _ _ _ _ _ Hreach) as (Hact & Hlatest & Hboth).
  split; [done|]. split; [|done]. clear Hact Hlatest Hboth.
  induction Hreach as [|self cycle sat now Hreach IHarch].
  - intros key frozen Hin. by apply elem_of_nil in Hin.
  - intros key frozen Hin.
    destruct (update_archive cfg self cycle sat now)
      as (R & HR & [(Hrec & _) | Hfreeze]).
    + rewrite Hrec in Hin. apply IHarch with key.
      destruct HR as [-> | ->]; [done | by apply elem_of_nil in Hin].
    + destruct Hfreeze as (active & frozen' & a & _ & _ & Hactive & _ & Hfz
                           & _ & _ & _ & Hrec & _ & _).
      rewrite Hrec in Hin. apply setitem_elem_of in Hin as [Hin | Hin].
      * apply IHarch with key.
        destruct HR as [-> | ->]; [done | by apply elem_of_nil in Hin].
      * injection Hin as -> ->. rewrite (frozen_samples _ _ Hfz).
        destruct (reachable_latest _ _ _ _ _ Hreach) as (Hact & _).
        by apply Hact.
Qed.
End Tracker_samples.

(** ** Whole rotations *)

Section Rotations.
Import SatHistory.
Context (cfg : Config.t).












End Rotations.

(** ** The azimuth *)

Section Azimuth.
Context (cfg : Config.t).

(** The frozen form of a valid cycle, in one equation. *)
Lemma freeze_cycle_formula active :
  Cycle.is_valid active = true ->
  freeze_cycle cfg active
  = Ok (FrozenCycle.mk (Cycle.counter active)
          (Cycle.A active) (Cycle.B active) (Cycle.C active) (Cycle.D active)
          (mean (Cycle.A active)) (mean (Cycle.B active))
          (mean (Cycle.C active)) (mean (Cycle.D active))
          (apply_az_offset cfg
             (atan2 (mean (Cycle.A active) - mean (Cycle.C active))
                    (mean (Cycle.B active) - mean (Cycle.D active))))).
Proof.
  intros Hv. unfold freeze_cycle, Cycle.is_invalid. rewrite Hv. cbn [negb].
  destruct active as [n a b c d]. cbn in Hv.
  destruct a as [|a0 a]; [done|]. destruct b as [|b0 b]; [done|].
  destruct c as [|c0 c]; [done|]. destruct d as [|d0 d]; [done|].
  cbn [Cycle.A Cycle.B Cycle.C Cycle.D Cycle.counter].
  by rewrite !fmean_mean.
Qed.



Lemma atan2_axis y x :
  (y = 0 /\ 0 <= x -> atan2 y x = 0)%R
  /\ (0 < y /\ x = 0 -> atan2 y x = PI / 2)%R
  /\ (y = 0 /\ x < 0 -> atan2 y x = PI)%R
  /\ (y < 0 /\ x = 0 -> atan2 y x = - (PI / 2))%R.
Proof.
  unfold atan2. repeat split.
  - intros [-> Hx]. destruct (Rlt_dec 0 x).
    + unfold Rdiv. by rewrite Rmult_0_l, atan_0.
    + repeat (destruct (Rlt_dec _ _); try lra).
  - intros [Hy ->]. repeat (destruct (Rlt_dec _ _); try lra).
  - intros [-> Hx]. destruct (Rlt_dec 0 x); [lra|].
    destruct (Rlt_dec x 0); [|lra]. destruct (Rle_dec 0 0); [|lra].
    unfold Rdiv. rewrite Rmult_0_l, atan_0. lra.
  - intros [Hy ->]. repeat (destruct (Rlt_dec _ _); try lra).
Qed.

Lemma degrees_turns :
  degrees 0 = 0%R /\ degrees (PI / 2) = 90%R /\ degrees PI = 180%R
  /\ degrees (2 * PI + - (PI / 2)) = 270%R.
Proof.
  pose proof PI_RGT_0. unfold degrees. repeat split; field; lra.
Qed.

(** X7.  The four axes: when one pair of opposing phases is balanced, the
    stronger phase of the other pair gives the quarter turn (B: 0, A: 90,
    D: 180, C: 270 degrees above the offset). *)
Theorem azimuth_on_the_axes active frozen :
  freeze_cycle cfg active = Ok frozen ->
  let dy := (mean (Cycle.A active) - mean (Cycle.C active))%R in
  let dx := (mean (Cycle.B active) - mean (Cycle.D active))%R in
  let offset := Daq.AZ_OFFSET (Config.daq cfg) in
  (dy = 0 /\ 0 <= dx -> FrozenCycle.azimuth frozen = offset + 0)%R
  /\ (0 < dy /\ dx = 0 -> FrozenCycle.azimuth frozen = offset + 90)%R
  /\ (dy = 0 /\ dx < 0 -> FrozenCycle.azimuth frozen = offset + 180)%R
  /\ (dy < 0 /\ dx = 0 -> FrozenCycle.azimuth frozen = offset + 270)%R.
Proof.
  intros Hfz dy dx offset.
  assert (Hv : Cycle.is_valid active = true).
  { destruct (Cycle.is_valid active) eqn:Hv; [done|].
    rewrite freeze_cycle_invalid in Hfz; [done|].
    unfold Cycle.is_invalid. by rewrite Hv. }
  rewrite (freeze_cycle_formula active Hv) in Hfz. injection Hfz as <-.
  cbn [FrozenCycle.azimuth]. unfold apply_az_offset. fold dy dx offset.
  destruct (atan2_axis dy dx) as (H0 & H90 & H180 & H270).
  destruct degrees_turns as (D0 & D90 & D180 & D270).
  pose proof PI_RGT_0 as Hpi.
  repeat split; intros Hcase.
  - rewrite (H0 Hcase). destruct (Rlt_dec 0 0); [lra|]. rewrite D0. lra.
  - rewrite (H90 Hcase). destruct (Rlt_dec _ _); [lra|]. rewrite D90. lra.
  - rewrite (H180 Hcase). destruct (Rlt_dec _ _); [lra|]. rewrite D180. lra.
  - rewrite (H270 Hcase). destruct (Rlt_dec _ _); [|lra]. rewrite D270. lra.
Qed.
End Azimuth.

(** ** Identities *)

Lemma talker_to_offset_Some talker offset :
  talker_to_offset talker = Some offset ->
  (talker = Talker.GALIEO /\ offset = 1000)
  \/ (talker = Talker.BEIDOU /\ offset = 2000)
  \/ (talker = Talker.GLONASS /\ offset = 3000)
  \/ (talker = Talker.GNSS /\ offset = 4000)
  \/ (talker = Talker.GPS /\ offset = 5000)
  \/ (talker = Talker.QZSS /\ offset = 6000).
Proof.
  unfold talker_to_offset.
  destruct (String.eqb_spec talker Talker.GALIEO) as [-> | _];
    [intros [= <-]; tauto|].
  destruct (String.eqb_spec talker Talker.BEIDOU) as [-> | _];
    [intros [= <-]; tauto|].
  destruct (String.eqb_spec talker Talker.GLONASS) as [-> | _];
    [intros [= <-]; tauto|].
  destruct (String.eqb_spec talker Talker.GNSS) as [-> | _];
    [intros [= <-]; tauto|].
  destruct (String.eqb_spec talker Talker.GPS) as [-> | _];
    [intros [= <-]; tauto|].
  destruct (String.eqb_spec talker Talker.QZSS) as [-> | _];
    [intros [= <-]; tauto|].
  discriminate.
Qed.

(** X8.  For the six known talkers and a PRN between 1 and 999 the identity
    is never the sentinel -1000, and it determines the talker and the
    PRN, so two satellites never share a registry key. *)
Theorem ident_determines_satellite talker1 prn1 talker2 prn2 :
  is_Some (talker_to_offset talker1) ->
  is_Some (talker_to_offset talker2) ->
  0 < prn1 < 1000 -> 0 < prn2 < 1000 ->
  ident_of talker1 (Some prn1) <> -1000
  /\ (ident_of talker1 (Some prn1) = ident_of talker2 (Some prn2) ->
      talker1 = talker2 /\ prn1 = prn2).
Proof.
  intros [o1 H1] [o2 H2] Hp1 Hp2. unfold ident_of. rewrite H1, H2.
  assert (Hb1 : bool_of_int prn1 = true).
  { unfold bool_of_int. by rewrite (proj2 (Z.eqb_neq _ _)) by lia. }
  assert (Hb2 : bool_of_int prn2 = true).
  { unfold bool_of_int. by rewrite (proj2 (Z.eqb_neq _ _)) by lia. }
  apply talker_to_offset_Some in H1, H2.
  destruct H1 as [[-> ->]|[[-> ->]|[[-> ->]|[[-> ->]|[[-> ->]|[-> ->]]]]]];
  destruct H2 as [[-> ->]|[[-> ->]|[[-> ->]|[[-> ->]|[[-> ->]|[-> ->]]]]]];
    rewrite Hb1, Hb2; cbn [bool_of_int Z.eqb negb andb];
    (split; [lia|]); intros Heq; (split; [done || lia | lia]).
Qed.

(** ** The driver's invariant *)

Section Driver_frames.
Context (cfg : Config.t) (int : string -> Result Z).

Lemma tracked_update key tracker cycle sat now :
  tracked cfg key tracker ->
  tracked cfg key (state_of (SatHistory.update cfg tracker cycle sat now)).
Proof.
  intros (Hkey & Hprn & Hreach).
  destruct (update_static cfg tracker cycle sat now) as (Ht & Hp & _).
  cbv zeta in Ht, Hp. unfold tracked.
  rewrite update_ident, Ht, Hp. repeat split; try done.
  by constructor.
Qed.

(** [_process_gsv] assigns nothing but the registry. *)
Lemma process_gsv_slot_frame talker self slot clock :
  let self' :=
    state_of (Driver._process_gsv_slot cfg int talker self slot clock) in
  self' = Driver.set_satellites (Driver.satellites self') self.
Proof.
  unfold Driver._process_gsv_slot.
  destruct (Driver.int_or_none int (GSV.sv_prn_num slot)) as [[prn|]|];
    cbn [mbind Result_bind];
    destruct (Driver.int_or_none int (GSV.azimuth slot)) as [[az|]|];
    cbn [mbind Result_bind];
    destruct (Driver.int_or_none int (GSV.elevation_deg slot)) as [[el|]|];
    cbn [mbind Result_bind];
    destruct (Driver.int_or_none int (GSV.snr slot)) as [snr|];
    cbn [mbind Result_bind state_of]; try (by destruct self).
  set (sat := Sat.mk _ _ _ _ _ _ _).
  set (key := pretty (Sat.ident sat)).
  destruct self as [r a p m t s e sats ph mode buf].
  cbn [Driver.satellites Driver.antenna Driver.set_satellites].
  destruct (sats !! key) as [h|] eqn:Hlook;
    cbn [Driver.antenna Driver.satellites Driver.set_satellites
         Driver._do_reset Driver.position Driver.magnetometer
         Driver.temprature Driver.status Driver.error_status
         Driver.antenna_phase Driver.magnetometer_calibration_mode
         Driver.magnetometer_readings].
  - destruct a as [antenna|]; [|done].
    rewrite Hlook.
    by destruct (SatHistory.update _ _ _ _ _).
  - destruct a as [antenna|]; [|done].
    rewrite lookup_insert_eq.
    by destruct (SatHistory.update _ _ _ _ _).
Qed.

Lemma process_gsv_slots_frame talker slots : forall self,
  let self' :=
    state_of (Driver._process_gsv_slots cfg int talker self slots) in
  self' = Driver.set_satellites (Driver.satellites self') self.
Proof.
  induction slots as [|[slot clock] slots IH]; intros self.
  - by destruct self.
  - cbn [Driver._process_gsv_slots].
    pose proof (process_gsv_slot_frame talker self slot clock) as Hslot.
    destruct (Driver._process_gsv_slot _ _ _ _ _ _) as [self1 [] log|];
      [|done].
    cbn [state_of] in Hslot. specialize (IH self1).
    destruct (Driver._process_gsv_slots _ _ _ _ _); cbn [state_of] in *;
      rewrite IH, Hslot at 1; by destruct self.
Qed.

Lemma process_gsv_frame self sentence clock :
  let self' := state_of (Driver._process_gsv cfg int self sentence clock) in
  self' = Driver.set_satellites (Driver.satellites self') self.
Proof.
  unfold Driver._process_gsv.
  destruct (Driver.antenna self); [|by destruct self].
  pose proof (process_gsv_slots_frame (GSV.talker sentence)
    (zip (GSV.slots sentence)
         [clock 1%nat; clock 2%nat; clock 3%nat; clock 4%nat]) self) as H.
  by destruct (Driver._process_gsv_slots _ _ _ _ _).
Qed.

(** [_process_gsv] keeps the registry in order. *)
Lemma process_gsv_slot_ok talker self slot clock :
  registry_ok cfg (Driver.satellites self) ->
  registry_ok cfg
    (Driver.satellites
       (state_of (Driver._process_gsv_slot cfg int talker self slot clock))).
Proof.
  intros Hok. unfold Driver._process_gsv_slot.
  destruct (Driver.int_or_none int (GSV.sv_prn_num slot)) as [[prn|]|];
    cbn [mbind Result_bind];
    destruct (Driver.int_or_none int (GSV.azimuth slot)) as [[az|]|];
    cbn [mbind Result_bind];
    destruct (Driver.int_or_none int (GSV.elevation_deg slot)) as [[el|]|];
    cbn [mbind Result_bind];
    destruct (Driver.int_or_none int (GSV.snr slot)) as [snr|];
    cbn [mbind Result_bind state_of]; try done.
  set (sat := Sat.mk _ _ _ _ _ _ _).
  set (key := pretty (Sat.ident sat)).
  set (self1 := match Driver.satellites self !! key with
                | Some _ => self | None => _ end).
  assert (Hok1 : registry_ok cfg (Driver.satellites self1)).
  { subst self1. destruct (Driver.satellites self !! key); [done|].
    destruct self. cbn [Driver.satellites Driver.set_satellites].
    intros key' tracker [[<- <-] | [_ Hlook]]%lookup_insert_Some.
    - unfold tracked. cbn [SatHistory.init SatHistory.talker SatHistory.prn].
      split; [done|]. split; [by eexists | constructor].
    - by apply Hok. }
  clearbody self1.
  destruct (Driver.antenna self1) as [antenna|]; [|done].
  destruct (Driver.satellites self1 !! key) as [history|] eqn:Hlook; [|done].
  assert (Hok2 : registry_ok cfg
    (<[key := state_of
         (SatHistory.update cfg history (Antenna.counter antenna) sat
            clock.2)]> (Driver.satellites self1))).
  { intros key' tracker [[<- <-] | [_ Hlook']]%lookup_insert_Some.
    - apply tracked_update. by apply Hok1.
    - by apply Hok1. }
  destruct (SatHistory.update _ _ _ _ _); by destruct self1.
Qed.

Lemma process_gsv_ok self sentence clock :
  registry_ok cfg (Driver.satellites self) ->
  registry_ok cfg
    (Driver.satellites
       (state_of (Driver._process_gsv cfg int self sentence clock))).
Proof.
  intros Hok. unfold Driver._process_gsv.
  destruct (Driver.antenna self); [|done].
  assert (Hslots : forall slots self,
    registry_ok cfg (Driver.satellites self) ->
    registry_ok cfg
      (Driver.satellites
         (state_of
            (Driver._process_gsv_slots cfg int (GSV.talker sentence) self
               slots)))).
  { clear. induction slots as [|[slot clock] slots IH]; intros self Hok.
    - done.
    - cbn [Driver._process_gsv_slots].
      pose proof (process_gsv_slot_ok (GSV.talker sentence) self slot clock
                    Hok) as Hslot.
      destruct (Driver._process_gsv_slot _ _ _ _ _ _) as [self' [] log|];
        [|done].
      specialize (IH self' Hslot).
      by destruct (Driver._process_gsv_slots _ _ _ _ _). }
  specialize (Hslots (zip (GSV.slots sentence)
    [clock 1%nat; clock 2%nat; clock 3%nat; clock 4%nat]) self Hok).
  by destruct (Driver._process_gsv_slots _ _ _ _ _).
Qed.
End Driver_frames.

Section Sweep.
Context (cfg : Config.t).

(** The sweep, tracker by tracker. *)
Lemma drop_old_satellites_lookup self now :
  registry_wf (Driver.satellites self) ->
  exists satellites' log,
    Driver._drop_old_satellites cfg self now
    = Return (Driver.set_satellites satellites' self) tt log
    /\ forall key,
         satellites' !! key
         = sat ← Driver.satellites self !! key;
           if SatHistory.above_time_limit cfg sat (now key) then None
           else Some sat.
Proof.
  intros Hwf. unfold Driver._drop_old_satellites.
  set (to_drop := list_to_set _ : gset Z).
  assert (Hdrop : forall ident, ident ∈ elements to_drop <->
    exists key sat, Driver.satellites self !! key = Some sat
      /\ SatHistory.above_time_limit cfg sat (now key) = true
      /\ ident = SatHistory.ident sat).
  { intros ident. subst to_drop.
    rewrite elem_of_elements, elem_of_list_to_set, list_elem_of_fmap.
    unfold Driver.stale. split.
    - intros ([key sat] & -> & Hin).
      apply list_elem_of_filter in Hin as [Hlim Hin].
      apply elem_of_map_to_list in Hin. by exists key, sat.
    - intros (key & sat & Hlook & Hlim & ->). exists (key, sat).
      split; [done|]. apply list_elem_of_filter. split; [done|].
      by apply elem_of_map_to_list. }
  destruct (pop_all_spec (elements to_drop) (Driver.satellites self))
    as (satellites' & Hpop & Hlook).
  { apply NoDup_elements. }
  { intros ident (key & sat & Hsat & _ & ->)%Hdrop.
    rewrite <- (Hwf key sat Hsat). by exists sat. }
  rewrite Hpop. eexists satellites', _. split; [reflexivity|].
  intros key. rewrite Hlook.
  destruct (Driver.satellites self !! key) as [sat|] eqn:Hsat; cbn.
  - destruct (SatHistory.above_time_limit cfg sat (now key)) eqn:Hlim.
    + rewrite decide_True; [done|]. apply list_elem_of_fmap.
      exists (SatHistory.ident sat). split; [by apply Hwf|].
      apply Hdrop. by exists key, sat.
    + rewrite decide_False; [done|].
      intros (ident & -> & (key' & sat' & Hsat' & Hlim' & ->)%Hdrop)
        %list_elem_of_fmap.
      rewrite <- (Hwf key' sat' Hsat') in Hsat, Hlim.
      rewrite Hsat' in Hsat. injection Hsat as ->. congruence.
  - by destruct (decide _).
Qed.

Lemma registry_ok_wf satellites :
  registry_ok cfg satellites -> registry_wf satellites.
Proof. intros Hok key sat Hlook. by destruct (Hok key sat Hlook). Qed.

Lemma drop_old_satellites_ok self now :
  registry_ok cfg (Driver.satellites self) ->
  exists satellites' log,
    Driver._drop_old_satellites cfg self now
    = Return (Driver.set_satellites satellites' self) tt log
    /\ registry_ok cfg satellites'.
Proof.
  intros Hok.
  destruct (drop_old_satellites_lookup self now (registry_ok_wf _ Hok))
    as (satellites' & log & Hsweep & Hlook).
  exists satellites', log. split; [done|].
  intros key tracker Htracker. rewrite Hlook in Htracker.
  destruct (Driver.satellites self !! key) as [sat|] eqn:Hsat; [|done].
  cbn in Htracker. destruct (SatHistory.above_time_limit _ _ _); [done|].
  injection Htracker as <-. by apply Hok.
Qed.
End Sweep.

Section Proprietary_frame.
Context (cfg : Config.t).
Context (parse_phase_sentence : string -> Result Antenna.t).
Context (parse_temperature_sentence : string -> Result Temperature.t).
Context (parse_magnetometer_sentence :
           string -> bool -> bool -> bool -> Result RawMagnetometerReading.t).

Local Abbreviation sort :=
  (Driver._sort_proprietary_sentence cfg parse_phase_sentence
     parse_temperature_sentence parse_magnetometer_sentence).

Lemma deque_append_ok {A : Type} (x : A) (d : Deque.t A) :
  (forall n, Deque.maxlen d = Some n -> (length (Deque.elems d) <= n)%nat) ->
  Deque.maxlen (Deque.append x d) = Deque.maxlen d
  /\ forall n, Deque.maxlen (Deque.append x d) = Some n ->
               (length (Deque.elems (Deque.append x d)) <= n)%nat.
Proof.
  intros Hd. unfold Deque.append.
  destruct (Deque.maxlen d) as [n|] eqn:Hmax; [|done].
  specialize (Hd n eq_refl).
  destruct (n <? _)%nat eqn:Hfull; cbn; (split; [done|]);
    intros ? [= <-].
  - rewrite length_tl, length_app. cbn. lia.
  - by apply Nat.ltb_ge in Hfull.
Qed.

(** What a proprietary sentence can change. *)
Lemma sort_proprietary_returns self decoded :
  exists self' log,
    sort self decoded = Return self' tt log
    /\ Driver.satellites self' = Driver.satellites self
    /\ Driver.position self' = Driver.position self
    /\ Driver._do_reset self' = Driver._do_reset self
    /\ Driver.magnetometer_calibration_mode self'
       = Driver.magnetometer_calibration_mode self
    /\ (buffer_ok cfg (Driver.magnetometer_readings self) ->
        buffer_ok cfg (Driver.magnetometer_readings self')).
Proof.
  unfold Driver._sort_proprietary_sentence.
  repeat (destruct (String.eqb _ _);
          [try (by eexists _, _; split; [reflexivity|]; destruct self)|]).
  - destruct (index 4 decoded ≫= AntennaPhase.of_value) as [phase|e].
    + destruct (parse_phase_sentence decoded);
        eexists _, _; (split; [reflexivity|]); by destruct self.
    + eexists _, _. split; [reflexivity|]. by destruct self.
  - destruct (parse_temperature_sentence decoded);
      eexists _, _; (split; [reflexivity|]); by destruct self.
  - destruct (parse_magnetometer_sentence _ _ _ _) as [reading|e].
    + eexists _, _. split; [reflexivity|]. destruct self.
      cbn. do 4 (split; [done|]).
      intros [Hmax Hlen]. cbn in *.
      destruct (deque_append_ok reading magnetometer_readings Hlen)
        as [Hmax' Hlen'].
      split; [by rewrite Hmax' | done].
    + eexists _, _. split; [reflexivity|]. by destruct self.
  - eexists _, _. split; [reflexivity|]. by destruct self.
Qed.
End Proprietary_frame.

Section Loop.
Context (cfg : Config.t) (mode : DeviceMode.t).
Context (parse_phase_sentence : string -> Result Antenna.t).
Context (parse_temperature_sentence : string -> Result Temperature.t).
Context (parse_magnetometer_sentence :
           string -> bool -> bool -> bool -> Result RawMagnetometerReading.t).
Context (int : string -> Result Z).
Context (NMEASentence : Type).
Context (parse : string -> ParseFailure + NMEASentence).
Context (sentence_type : NMEASentence -> Result string).
Context (gsv_fields : NMEASentence -> GSV.t).
Context (parse_gga_sentence : NMEASentence -> Result Position.t).
Context (decode : list Byte.byte -> Result string).
Context (strip : string -> string).

Local Abbreviation sort_regular :=
  (DriverLoop._sort_regular_sentence cfg mode int NMEASentence parse
     sentence_type gsv_fields parse_gga_sentence).
Local Abbreviation pass :=
  (DriverLoop._loop_pass cfg mode parse_phase_sentence
     parse_temperature_sentence parse_magnetometer_sentence int NMEASentence
     parse sentence_type gsv_fields parse_gga_sentence decode strip).
Local Abbreviation reachable :=
  (DriverLoop.reachable cfg mode parse_phase_sentence
     parse_temperature_sentence parse_magnetometer_sentence int NMEASentence
     parse sentence_type gsv_fields parse_gga_sentence decode strip).

(** What a standard sentence can change: the registry and the position. *)
Lemma sort_regular_frame self decoded clock :
  let self' := (sort_regular self decoded clock).1 in
  self'
  = DriverLoop.set_position (Driver.position self')
      (Driver.set_satellites (Driver.satellites self') self)
  /\ (registry_ok cfg (Driver.satellites self) ->
      registry_ok cfg (Driver.satellites self')).
Proof.
  unfold DriverLoop._sort_regular_sentence.
  destruct (parse decoded) as [[e|e|e]|sentence];
    try (by destruct self).
  destruct (sentence_type sentence) as [type|e]; [|by destruct self].
  destruct (String.eqb type SID.GSV).
  { pose proof (process_gsv_frame cfg int self (gsv_fields sentence) clock)
      as Hframe.
    pose proof (process_gsv_ok cfg int self (gsv_fields sentence) clock)
      as Hok.
    destruct (Driver._process_gsv _ _ _ _ _) as [self' [] log|self' e log];
      cbn [state_of fst] in *; (split; [|done]);
      set (satellites' := Driver.satellites self') in Hframe;
      rewrite Hframe; by destruct self. }
  destruct (String.eqb type SID.GGA); [|by destruct self].
  match goal with |- context [match ?p with Ok _ => _ | Raise _ => _ end] =>
    destruct p end; by destruct self.
Qed.

Lemma check_for_reset_ok self :
  let self' := (DriverLoop._check_for_reset self).1 in
  Driver._do_reset self' = false
  /\ Driver.magnetometer_readings self' = Driver.magnetometer_readings self
  /\ (registry_ok cfg (Driver.satellites self) ->
      registry_ok cfg (Driver.satellites self')).
Proof.
  unfold DriverLoop._check_for_reset.
  destruct (Driver._do_reset self) eqn:Hflag; cbn; [|done].
  do 2 (split; [done|]). intros _ k tracker Hlook.
  by rewrite lookup_empty in Hlook.
Qed.

(** One pass keeps the invariant, consumes the reset request and ends in
    [Done] unless the bytes do not decode. *)
Lemma pass_ok self now raw clock :
  registry_ok cfg (Driver.satellites self) ->
  buffer_ok cfg (Driver.magnetometer_readings self) ->
  registry_ok cfg (Driver.satellites (driver_of (pass self now raw clock)))
  /\ buffer_ok cfg
       (Driver.magnetometer_readings (driver_of (pass self now raw clock)))
  /\ Driver._do_reset (driver_of (pass self now raw clock)) = false
  /\ match decode raw with
     | Ok _ => exists self' log, pass self now raw clock = Done self' log
     | Raise e => exists self' log, pass self now raw clock = Died self' e log
     end.
Proof.
  intros Hok Hbuf. unfold DriverLoop._loop_pass.
  destruct (check_for_reset_ok self) as (Hflag & Hreadings & Hok0).
  destruct (DriverLoop._check_for_reset self) as [self0 log0].
  cbn [fst] in *. specialize (Hok0 Hok). rewrite <- Hreadings in Hbuf.
  destruct (drop_old_satellites_ok cfg self0 now Hok0)
    as (satellites' & log1 & -> & Hok1).
  set (self1 := Driver.set_satellites satellites' self0).
  assert (Hflag1 : Driver._do_reset self1 = false) by (by destruct self0).
  assert (Hbuf1 : buffer_ok cfg (Driver.magnetometer_readings self1))
    by (by destruct self0).
  assert (Hsat1 : Driver.satellites self1 = satellites')
    by (by destruct self0).
  clearbody self1.
  destruct (decode raw) as [text|e].
  2:{ cbn [driver_of]. rewrite Hsat1. split_and!; try done.
      by eexists _, _. }
  destruct (strip text) as [|first rest] eqn:Hdecoded.
  { cbn [driver_of]. rewrite Hsat1. split_and!; try done.
    by eexists _, _. }
  destruct (Ascii.eqb first SID.PROPRIETARY).
  { destruct (sort_proprietary_returns cfg parse_phase_sentence
                parse_temperature_sentence parse_magnetometer_sentence
                self1 (String first rest))
      as (self2 & log2 & -> & Hsat & _ & Hflag2 & _ & Hbuf2).
    cbn [driver_of]. rewrite Hsat, Hsat1, Hflag2.
    split_and!; try done; [by apply Hbuf2 | by eexists _, _]. }
  destruct (Ascii.eqb first SID.STANDARD).
  2:{ cbn [driver_of]. rewrite Hsat1. split_and!; try done.
      by eexists _, _. }
  destruct (sort_regular_frame self1 (String first rest) clock)
    as (Hframe & Hok2).
  destruct (sort_regular self1 (String first rest) clock) as [self2 log2].
  cbn [fst driver_of] in *. rewrite Hsat1 in Hok2.
  set (satellites2 := Driver.satellites self2) in Hframe.
  set (position2 := Driver.position self2) in Hframe.
  split_and!; [by apply Hok2 | | | by eexists _, _].
  - rewrite Hframe. by destruct self1.
  - rewrite Hframe. by destruct self1.
Qed.

Lemma init_ok :
  registry_ok cfg (Driver.satellites (Driver.init cfg))
  /\ buffer_ok cfg (Driver.magnetometer_readings (Driver.init cfg)).
Proof.
  split.
  - intros key tracker Hlook. cbn in Hlook. by rewrite lookup_empty in Hlook.
  - split; [done|]. intros n _. cbn. lia.
Qed.

Lemma reachable_ok self :
  reachable self ->
  registry_ok cfg (Driver.satellites self)
  /\ buffer_ok cfg (Driver.magnetometer_readings self).
Proof.
  induction 1 as [|self _ [IHreg IHbuf]|self now raw clock _ [IHreg IHbuf]].
  - apply init_ok.
  - by destruct self.
  - destruct (pass_ok self now raw clock IHreg IHbuf) as (? & ? & _). done.
Qed.
End Loop.

Section Loop_theorems.
Context (cfg : Config.t) (mode : DeviceMode.t).
Context (parse_phase_sentence : string -> Result Antenna.t).
Context (parse_temperature_sentence : string -> Result Temperature.t).
Context (parse_magnetometer_sentence :
           string -> bool -> bool -> bool -> Result RawMagnetometerReading.t).
Context (int : string -> Result Z).
Context (NMEASentence : Type).
Context (parse : string -> ParseFailure + NMEASentence).
Context (sentence_type : NMEASentence -> Result string).
Context (gsv_fields : NMEASentence -> GSV.t).
Context (parse_gga_sentence : NMEASentence -> Result Position.t).
Context (decode : list Byte.byte -> Result string).
Context (strip : string -> string).

Local Abbreviation sort_regular :=
  (DriverLoop._sort_regular_sentence cfg mode int NMEASentence parse
     sentence_type gsv_fields parse_gga_sentence).
Local Abbreviation pass :=
  (DriverLoop._loop_pass cfg mode parse_phase_sentence
     parse_temperature_sentence parse_magnetometer_sentence int NMEASentence
     parse sentence_type gsv_fields parse_gga_sentence decode strip).
Local Abbreviation reachable :=
  (DriverLoop.reachable cfg mode parse_phase_sentence
     parse_temperature_sentence parse_magnetometer_sentence int NMEASentence
     parse sentence_type gsv_fields parse_gga_sentence decode strip).

(** X9.  In every driver that the loop and [reset] produce, each tracker of
    the registry is stored under the decimal string of its identity, has
    a PRN and the configured window and age limit, comes from a fresh
    tracker by calls of [update], and archives no more cycles than a
    non-negative [AVG_SIZE]. *)
Theorem registry_trackers_well_formed self key tracker :
  reachable self ->
  Driver.satellites self !! key = Some tracker ->
  key = pretty (SatHistory.ident tracker)
  /\ is_Some (SatHistory.prn tracker)
  /\ SatHistory.avg_size tracker = Daq.AVG_SIZE (Config.daq cfg)
  /\ SatHistory.max_age tracker = Daq.MAX_AGE (Config.daq cfg)
  /\ SatHistory.reachable cfg
       (SatHistory.init (SatHistory.talker tracker) (SatHistory.prn tracker)
          (Daq.AVG_SIZE (Config.daq cfg)) (Daq.MAX_AGE (Config.daq cfg)))
       tracker
  /\ (0 <= Daq.AVG_SIZE (Config.daq cfg) ->
      SatHistory.len tracker <= Daq.AVG_SIZE (Config.daq cfg)).
Proof.
  intros Hreach Hlook.
  destruct (reachable_ok cfg mode parse_phase_sentence
              parse_temperature_sentence parse_magnetometer_sentence int
              NMEASentence parse sentence_type gsv_fields parse_gga_sentence
              decode strip self Hreach)
    as [Hreg _].
  destruct (Hreg key tracker Hlook) as (Hkey & Hprn & Htracker).
  destruct (reachable_archive_ok cfg _ _ _ _ _ Htracker) as [Hok Havg].
  assert (Hmax : SatHistory.max_age tracker = Daq.MAX_AGE (Config.daq cfg)).
  { clear -Htracker. revert Htracker.
    generalize (SatHistory.talker tracker) (SatHistory.prn tracker).
    intros t p Htracker.
    induction Htracker as [|h cycle sat now _ IH]; [done|].
    by destruct (update_static cfg h cycle sat now) as (_ & _ & _ & ->). }
  split_and!; try done.
  intros Hsize. rewrite <- Havg in *. by apply (ok_len _ _ Hok).
Qed.

(** X10.  In every driver that the loop and [reset] produce, the calibration
    buffer has the configured bound and holds no more readings than
    that. *)
Theorem calibration_buffer_bounded self :
  reachable self ->
  Deque.maxlen (Driver.magnetometer_readings self)
  = Magnetometer.AVG_SIZE (Config.magnetometer cfg)
  /\ forall n,
       Magnetometer.AVG_SIZE (Config.magnetometer cfg) = Some n ->
       (length (Deque.elems (Driver.magnetometer_readings self)) <= n)%nat.
Proof.
  intros Hreach.
  destruct (reachable_ok cfg mode parse_phase_sentence
              parse_temperature_sentence parse_magnetometer_sentence int
              NMEASentence parse sentence_type gsv_fields parse_gga_sentence
              decode strip self Hreach)
    as [_ [Hmax Hlen]].
  split; [done|]. intros n Hn. apply Hlen. by rewrite Hmax.
Qed.

(** X11.  A pass of the loop over a driver that the loop has produced ends
    with the reset request cleared, and the only exception that leaves it
    is that of decoding the raw bytes: no handler lets [KeyError],
    [ValueError] or [StatisticsError] through. *)
Theorem pass_dies_only_on_undecodable_bytes self now raw clock :
  reachable self ->
  Driver._do_reset (driver_of (pass self now raw clock)) = false
  /\ match decode raw with
     | Ok _ => exists self' log, pass self now raw clock = Done self' log
     | Raise e => exists self' log, pass self now raw clock = Died self' e log
     end.
Proof.
  intros Hreach.
  destruct (reachable_ok cfg mode parse_phase_sentence
              parse_temperature_sentence parse_magnetometer_sentence int
              NMEASentence parse sentence_type gsv_fields parse_gga_sentence
              decode strip self Hreach)
    as [Hreg Hbuf].
  by destruct (pass_ok cfg mode parse_phase_sentence
                 parse_temperature_sentence parse_magnetometer_sentence int
                 NMEASentence parse sentence_type gsv_fields
                 parse_gga_sentence decode strip self now raw clock
                 Hreg Hbuf) as (_ & _ & ? & ?).
Qed.

(** X12.  [_sort_proprietary_sentence] never raises and never touches the
    registry, the position, the reset request or the calibration mode. *)
Theorem proprietary_sentence_frame self decoded :
  exists self' log,
    Driver._sort_proprietary_sentence cfg parse_phase_sentence
      parse_temperature_sentence parse_magnetometer_sentence self decoded
    = Return self' tt log
    /\ Driver.satellites self' = Driver.satellites self
    /\ Driver.position self' = Driver.position self
    /\ Driver._do_reset self' = Driver._do_reset self
    /\ Driver.magnetometer_calibration_mode self'
       = Driver.magnetometer_calibration_mode self.
Proof.
  destruct (sort_proprietary_returns cfg parse_phase_sentence
              parse_temperature_sentence parse_magnetometer_sentence
              self decoded) as (self' & log & ? & ? & ? & ? & ? & _).
  by exists self', log.
Qed.

(** X13.  [_sort_regular_sentence] assigns nothing but the registry and the
    position. *)
Theorem regular_sentence_frame self decoded clock :
  let self' := (sort_regular self decoded clock).1 in
  Driver.antenna self' = Driver.antenna self
  /\ Driver.antenna_phase self' = Driver.antenna_phase self
  /\ Driver.magnetometer self' = Driver.magnetometer self
  /\ Driver.magnetometer_readings self' = Driver.magnetometer_readings self
  /\ Driver.temprature self' = Driver.temprature self
  /\ Driver.status self' = Driver.status self
  /\ Driver.error_status self' = Driver.error_status self
  /\ Driver._do_reset self' = Driver._do_reset self
  /\ Driver.magnetometer_calibration_mode self'
     = Driver.magnetometer_calibration_mode self.
Proof.
  destruct (sort_regular_frame cfg mode int NMEASentence parse sentence_type
              gsv_fields parse_gga_sentence self decoded clock) as [Hframe _].
  cbv zeta. revert Hframe.
  generalize (sort_regular self decoded clock).1. intros self' Hframe.
  set (p := Driver.position self') in Hframe.
  set (s := Driver.satellites self') in Hframe.
  rewrite Hframe. by destruct self.
Qed.

(** X14.  A mock device without dynamic simulation reports the canonical fix:
    the position after a pass with a GGA sentence does not depend on the
    sentence. *)
Theorem static_mock_pins_position self now raw clock text first rest
    sentence :
  registry_wf (Driver.satellites self) ->
  DeviceMode.TYPE_is_MOCK mode = true ->
  DeviceMode.DYNAMIC_SIM mode = false ->
  decode raw = Ok text ->
  strip text = String first rest ->
  first = SID.STANDARD ->
  parse (String first rest) = inr sentence ->
  sentence_type sentence = Ok SID.GGA ->
  let before :=
    if Driver._do_reset self then None else Driver.position self in
  Driver.position (driver_of (pass self now raw clock))
  = match parse DriverLoop.canonical_fix with
    | inr fixed =>
        match parse_gga_sentence fixed with
        | Ok position => Some position
        | Raise _ => before
        end
    | inl _ => before
    end.
Proof.
  intros Hwf Hmock Hstatic Hdecode Hstrip -> Hparse Htype before.
  unfold DriverLoop._loop_pass.
  assert (Hreset : registry_wf
            (Driver.satellites (DriverLoop._check_for_reset self).1)
          /\ Driver.position (DriverLoop._check_for_reset self).1 = before).
  { unfold DriverLoop._check_for_reset. subst before.
    destruct (Driver._do_reset self); [|done]. split; [|done].
    intros key sat Hlook. cbn in Hlook. by rewrite lookup_empty in Hlook. }
  destruct (DriverLoop._check_for_reset self) as [self0 log0].
  cbn [fst] in Hreset. destruct Hreset as [Hwf0 Hpos0].
  destruct (drop_old_satellites_lookup cfg self0 now Hwf0)
    as (satellites' & log1 & -> & _).
  set (self1 := Driver.set_satellites satellites' self0).
  assert (Hpos1 : Driver.position self1 = before) by (by destruct self0).
  clearbody self1 before.
  rewrite Hdecode, Hstrip. cbn [Ascii.eqb Bool.eqb SID.STANDARD
    SID.PROPRIETARY].
  unfold DriverLoop._sort_regular_sentence.
  rewrite Hparse, Htype, Hmock, Hstatic.
  cbn [String.eqb Ascii.eqb Bool.eqb SID.GSV SID.GGA andb negb].
  destruct (parse DriverLoop.canonical_fix) as [failure|fixed]; [done|].
  destruct (parse_gga_sentence fixed); [by destruct self1 | done].
Qed.
End Loop_theorems.

(** ** What a pass keeps *)

Section Evolves.
Context (cfg : Config.t) (int : string -> Result Z).

Lemma evolves_refl satellites : evolves cfg satellites satellites.
Proof. intros key tracker Hlook. exists tracker. split; [done|constructor]. Qed.

Lemma reachable_trans a b c :
  SatHistory.reachable cfg a b -> SatHistory.reachable cfg b c ->
  SatHistory.reachable cfg a c.
Proof. intros Hab Hbc. induction Hbc; [done|by constructor]. Qed.

Lemma evolves_trans s1 s2 s3 :
  evolves cfg s1 s2 -> evolves cfg s2 s3 -> evolves cfg s1 s3.
Proof.
  intros H12 H23 key t1 Hlook.
  destruct (H12 key t1 Hlook) as (t2 & Hlook2 & Hreach2).
  destruct (H23 key t2 Hlook2) as (t3 & Hlook3 & Hreach3).
  exists t3. split; [done|]. by apply reachable_trans with t2.
Qed.

Lemma process_gsv_slot_evolves talker self slot clock :
  evolves cfg (Driver.satellites self)
    (Driver.satellites
       (state_of (Driver._process_gsv_slot cfg int talker self slot clock))).
Proof.
  unfold Driver._process_gsv_slot.
  destruct (Driver.int_or_none int (GSV.sv_prn_num slot)) as [[prn|]|];
    cbn [mbind Result_bind];
    destruct (Driver.int_or_none int (GSV.azimuth slot)) as [[az|]|];
    cbn [mbind Result_bind];
    destruct (Driver.int_or_none int (GSV.elevation_deg slot)) as [[el|]|];
    cbn [mbind Result_bind];
    destruct (Driver.int_or_none int (GSV.snr slot)) as [snr|];
    cbn [mbind Result_bind state_of]; try apply evolves_refl.
  set (sat := Sat.mk _ _ _ _ _ _ _).
  set (key := pretty (Sat.ident sat)).
  set (self1 := match Driver.satellites self !! key with
                | Some _ => self | None => _ end).
  assert (H1 : evolves cfg (Driver.satellites self)
                 (Driver.satellites self1)).
  { subst self1.
    destruct (Driver.satellites self !! key) eqn:Hkey; [apply evolves_refl|].
    destruct self. cbn [Driver.satellites Driver.set_satellites] in *.
    intros key' tracker Hlook. exists tracker. split; [|constructor].
    rewrite lookup_insert_ne; [done|]. intros <-. congruence. }
  clearbody self1.
  destruct (Driver.antenna self1) as [antenna|]; [|done].
  destruct (Driver.satellites self1 !! key) as [history|] eqn:Hlook; [|done].
  assert (H2 : evolves cfg (Driver.satellites self)
    (<[key := state_of
         (SatHistory.update cfg history (Antenna.counter antenna) sat
            clock.2)]> (Driver.satellites self1))).
  { apply evolves_trans with (Driver.satellites self1); [done|].
    intros key' tracker Hlook'. destruct (decide (key = key')) as [<-|Hne].
    - rewrite lookup_insert_eq. eexists. split; [done|].
      rewrite Hlook in Hlook'. injection Hlook' as <-.
      constructor. constructor.
    - rewrite lookup_insert_ne; [|done]. exists tracker.
      split; [done|constructor]. }
  destruct (SatHistory.update _ _ _ _ _); by destruct self1.
Qed.

Lemma process_gsv_evolves self sentence clock :
  evolves cfg (Driver.satellites self)
    (Driver.satellites
       (state_of (Driver._process_gsv cfg int self sentence clock))).
Proof.
  unfold Driver._process_gsv.
  destruct (Driver.antenna self); [|apply evolves_refl].
  assert (Hslots : forall slots self,
    evolves cfg (Driver.satellites self)
      (Driver.satellites
         (state_of
            (Driver._process_gsv_slots cfg int (GSV.talker sentence) self
               slots)))).
  { clear. induction slots as [|[slot clock] slots IH]; intros self.
    - apply evolves_refl.
    - cbn [Driver._process_gsv_slots].
      pose proof (process_gsv_slot_evolves (GSV.talker sentence) self slot
                    clock) as Hslot.
      destruct (Driver._process_gsv_slot _ _ _ _ _ _) as [self' [] log|];
        [|done].
      specialize (IH self'). cbn [state_of] in Hslot.
      destruct (Driver._process_gsv_slots _ _ _ _ _); cbn [state_of] in *;
        by apply evolves_trans with (Driver.satellites self'). }
  specialize (Hslots (zip (GSV.slots sentence)
    [clock 1%nat; clock 2%nat; clock 3%nat; clock 4%nat]) self).
  by destruct (Driver._process_gsv_slots _ _ _ _ _).
Qed.

(** A tracker without the flag keeps its cycle and its last reading. *)
Lemma reachable_invalid tracker tracker' :
  SatHistory.valid tracker = false ->
  SatHistory.reachable cfg tracker tracker' ->
  SatHistory.valid tracker' = false
  /\ SatHistory.active_cycle tracker' = SatHistory.active_cycle tracker
  /\ SatHistory.latest_sat tracker' = SatHistory.latest_sat tracker
  /\ SatHistory.last_update tracker' = SatHistory.last_update tracker
  /\ SatHistory.age tracker <= SatHistory.age tracker'.
Proof.
  intros Hinv. induction 1 as [|self cycle sat now _ IH].
  - split_and!; done || lia.
  - destruct IH as (Hv & Hact & Hlatest & Hlast & Hage).
    destruct (update_invalid cfg self cycle sat now Hv)
      as (self' & log & -> & Hv' & Hage' & Hact' & Hlatest' & Hlast').
    cbn [state_of]. rewrite Hact', Hlatest', Hlast'.
    split_and!; done || lia.
Qed.
End Evolves.

Section Loop_evolves.
Context (cfg : Config.t) (mode : DeviceMode.t).
Context (parse_phase_sentence : string -> Result Antenna.t).
Context (parse_temperature_sentence : string -> Result Temperature.t).
Context (parse_magnetometer_sentence :
           string -> bool -> bool -> bool -> Result RawMagnetometerReading.t).
Context (int : string -> Result Z).
Context (NMEASentence : Type).
Context (parse : string -> ParseFailure + NMEASentence).
Context (sentence_type : NMEASentence -> Result string).
Context (gsv_fields : NMEASentence -> GSV.t).
Context (parse_gga_sentence : NMEASentence -> Result Position.t).
Context (decode : list Byte.byte -> Result string).
Context (strip : string -> string).

Local Abbreviation sort_regular :=
  (DriverLoop._sort_regular_sentence cfg mode int NMEASentence parse
     sentence_type gsv_fields parse_gga_sentence).
Local Abbreviation pass :=
  (DriverLoop._loop_pass cfg mode parse_phase_sentence
     parse_temperature_sentence parse_magnetometer_sentence int NMEASentence
     parse sentence_type gsv_fields parse_gga_sentence decode strip).
Local Abbreviation reachable :=
  (DriverLoop.reachable cfg mode parse_phase_sentence
     parse_temperature_sentence parse_magnetometer_sentence int NMEASentence
     parse sentence_type gsv_fields parse_gga_sentence decode strip).

Lemma sort_regular_evolves self decoded clock :
  evolves cfg (Driver.satellites self)
    (Driver.satellites (sort_regular self decoded clock).1).
Proof.
  unfold DriverLoop._sort_regular_sentence.
  destruct (parse decoded) as [[e|e|e]|sentence]; try apply evolves_refl.
  destruct (sentence_type sentence) as [type|e]; [|apply evolves_refl].
  destruct (String.eqb type SID.GSV).
  { pose proof (process_gsv_evolves cfg int self (gsv_fields sentence) clock)
      as Hev.
    by destruct (Driver._process_gsv _ _ _ _ _). }
  destruct (String.eqb type SID.GGA); [|apply evolves_refl].
  match goal with |- context [match ?p with Ok _ => _ | Raise _ => _ end] =>
    destruct p end; destruct self; apply evolves_refl.
Qed.

(** What the sentence of a pass does to the registry after the sweep. *)
Lemma pass_after_sweep self now raw clock satellites' log :
  DriverLoop._check_for_reset self = (self, []) ->
  Driver._drop_old_satellites cfg self now
  = Return (Driver.set_satellites satellites' self) tt log ->
  evolves cfg satellites'
    (Driver.satellites (driver_of (pass self now raw clock))).
Proof.
  intros Hreset Hsweep. unfold DriverLoop._loop_pass.
  rewrite Hreset, Hsweep.
  set (self1 := Driver.set_satellites satellites' self).
  assert (Hsat1 : Driver.satellites self1 = satellites')
    by (by destruct self).
  clearbody self1. rewrite <- Hsat1.
  destruct (decode raw) as [text|e]; [|apply evolves_refl].
  destruct (strip text) as [|first rest]; [apply evolves_refl|].
  destruct (Ascii.eqb first SID.PROPRIETARY).
  { destruct (sort_proprietary_returns cfg parse_phase_sentence
                parse_temperature_sentence parse_magnetometer_sentence
                self1 (String first rest))
      as (self2 & log2 & -> & Hsat & _).
    cbn [driver_of]. rewrite Hsat. apply evolves_refl. }
  destruct (Ascii.eqb first SID.STANDARD); [|apply evolves_refl].
  pose proof (sort_regular_evolves self1 (String first rest) clock) as Hev.
  by destruct (sort_regular self1 (String first rest) clock).
Qed.

Lemma pass_keeps_tracker self now raw clock key tracker :
  registry_wf (Driver.satellites self) ->
  Driver._do_reset self = false ->
  Driver.satellites self !! key = Some tracker ->
  SatHistory.above_time_limit cfg tracker (now key) = false ->
  exists tracker',
    Driver.satellites (driver_of (pass self now raw clock)) !! key
    = Some tracker'
    /\ SatHistory.reachable cfg tracker tracker'.
Proof.
  intros Hwf Hflag Hlook Hfresh.
  destruct (drop_old_satellites_lookup cfg self now Hwf)
    as (satellites' & log & Hsweep & Hkeys).
  apply (pass_after_sweep self now raw clock satellites' log).
  - unfold DriverLoop._check_for_reset. by rewrite Hflag.
  - done.
  - rewrite Hkeys, Hlook. cbn. by rewrite Hfresh.
Qed.

(** X15.  A pass without a reset request keeps every tracker that is not above
    the time limit, updated by calls of [update]; a tracker that has lost
    its flag keeps its cycle, its latest reading and its time of last
    update, and only grows older. *)
Theorem lost_satellite_stays_lost self now raw clock key tracker :
  registry_wf (Driver.satellites self) ->
  Driver._do_reset self = false ->
  Driver.satellites self !! key = Some tracker ->
  SatHistory.above_time_limit cfg tracker (now key) = false ->
  exists tracker',
    Driver.satellites (driver_of (pass self now raw clock)) !! key
    = Some tracker'
    /\ SatHistory.reachable cfg tracker tracker'
    /\ (SatHistory.valid tracker = false ->
        SatHistory.valid tracker' = false
        /\ SatHistory.active_cycle tracker' = SatHistory.active_cycle tracker
        /\ SatHistory.latest_sat tracker' = SatHistory.latest_sat tracker
        /\ SatHistory.last_update tracker' = SatHistory.last_update tracker
        /\ SatHistory.age tracker <= SatHistory.age tracker').
Proof.
  intros Hwf Hflag Hlook Hfresh.
  destruct (pass_keeps_tracker self now raw clock key tracker Hwf Hflag Hlook
              Hfresh) as (tracker' & Hlook' & Hreach).
  exists tracker'. split_and!; try done.
  intros Hinv. apply (reachable_invalid cfg tracker tracker' Hinv Hreach).
Qed.

Lemma sort_regular_wf self decoded clock :
  registry_wf (Driver.satellites self) ->
  registry_wf (Driver.satellites (sort_regular self decoded clock).1).
Proof.
  intros Hwf. unfold DriverLoop._sort_regular_sentence.
  destruct (parse decoded) as [[e|e|e]|sentence]; try done.
  destruct (sentence_type sentence) as [type|e]; [|done].
  destruct (String.eqb type SID.GSV).
  { pose proof (process_gsv_wf cfg int self (gsv_fields sentence) clock Hwf)
      as Hwf'.
    by destruct (Driver._process_gsv _ _ _ _ _). }
  destruct (String.eqb type SID.GGA); [|done].
  match goal with |- context [match ?p with Ok _ => _ | Raise _ => _ end] =>
    destruct p end; by destruct self.
Qed.

(** A pass keeps every tracker under the string of its identity. *)
Lemma pass_wf self now raw clock :
  registry_wf (Driver.satellites self) ->
  registry_wf (Driver.satellites (driver_of (pass self now raw clock))).
Proof.
  intros Hwf. unfold DriverLoop._loop_pass.
  assert (Hwf0 : registry_wf
            (Driver.satellites (DriverLoop._check_for_reset self).1)).
  { unfold DriverLoop._check_for_reset.
    destruct (Driver._do_reset self); [|done].
    intros key sat Hlook. cbn in Hlook. by rewrite lookup_empty in Hlook. }
  destruct (DriverLoop._check_for_reset self) as [self0 log0].
  cbn [fst] in Hwf0.
  destruct (drop_old_satellites_lookup cfg self0 now Hwf0)
    as (satellites' & log1 & -> & Hkeys).
  set (self1 := Driver.set_satellites satellites' self0).
  assert (Hwf1 : registry_wf (Driver.satellites self1)).
  { subst self1. destruct self0.
    cbn [Driver.satellites Driver.set_satellites] in *.
    intros key sat Hlook. rewrite Hkeys in Hlook.
    destruct (satellites !! key) as [sat0|] eqn:Hsat0; [|done].
    cbn in Hlook. destruct (SatHistory.above_time_limit _ _ _); [done|].
    injection Hlook as <-. by apply Hwf0. }
  clearbody self1.
  destruct (decode raw) as [text|e]; [|done].
  destruct (strip text) as [|first rest]; [done|].
  destruct (Ascii.eqb first SID.PROPRIETARY).
  { destruct (sort_proprietary_returns cfg parse_phase_sentence
                parse_temperature_sentence parse_magnetometer_sentence
                self1 (String first rest))
      as (self2 & log2 & -> & Hsat & _).
    cbn [driver_of]. by rewrite Hsat. }
  destruct (Ascii.eqb first SID.STANDARD); [|done].
  pose proof (sort_regular_wf self1 (String first rest) clock Hwf1) as Hwf2.
  by destruct (sort_regular self1 (String first rest) clock).
Qed.

Lemma pass_clears_request self now raw clock :
  Driver._do_reset (driver_of (pass self now raw clock)) = false.
Proof.
  unfold DriverLoop._loop_pass.
  destruct (check_for_reset_ok cfg self) as (Hflag & _).
  destruct (DriverLoop._check_for_reset self) as [self0 log0].
  cbn [fst] in Hflag.
  assert (Hsweep : Driver._do_reset
            (state_of (Driver._drop_old_satellites cfg self0 now)) = false).
  { unfold Driver._drop_old_satellites.
    destruct (Driver.pop_all _ _) as [satellites' [e|]]; by destruct self0. }
  destruct (Driver._drop_old_satellites cfg self0 now)
    as [self1 [] log1|self1 e log1]; cbn [state_of] in Hsweep; [|done].
  destruct (decode raw) as [text|e]; [|done].
  destruct (strip text) as [|first rest]; [done|].
  destruct (Ascii.eqb first SID.PROPRIETARY).
  { destruct (sort_proprietary_returns cfg parse_phase_sentence
                parse_temperature_sentence parse_magnetometer_sentence
                self1 (String first rest))
      as (self2 & log2 & -> & _ & _ & Hflag2 & _).
    cbn [driver_of]. by rewrite Hflag2. }
  destruct (Ascii.eqb first SID.STANDARD); [|done].
  destruct (sort_regular_frame cfg mode int NMEASentence parse sentence_type
              gsv_fields parse_gga_sentence self1 (String first rest) clock)
    as [Hframe _].
  destruct (sort_regular self1 (String first rest) clock) as [self2 log2].
  cbn [fst driver_of] in *.
  set (satellites2 := Driver.satellites self2) in Hframe.
  set (position2 := Driver.position self2) in Hframe.
  rewrite Hframe. by destruct self1.
Qed.

(** X16.  A tracker that lost its flag before it ever had a signal is never
    swept and never updated: the pass hands on a driver in which all of
    this holds again, so only a reset removes the tracker. *)
Theorem unheard_satellite_is_stuck self now raw clock key tracker :
  registry_wf (Driver.satellites self) ->
  Driver._do_reset self = false ->
  Driver.satellites self !! key = Some tracker ->
  SatHistory.valid tracker = false ->
  SatHistory.last_update tracker = None ->
  let self' := driver_of (pass self now raw clock) in
  registry_wf (Driver.satellites self')
  /\ Driver._do_reset self' = false
  /\ exists tracker',
       Driver.satellites self' !! key = Some tracker'
       /\ SatHistory.valid tracker' = false
       /\ SatHistory.last_update tracker' = None
       /\ SatHistory.latest_sat tracker' = SatHistory.latest_sat tracker
       /\ SatHistory.active_cycle tracker' = SatHistory.active_cycle tracker.
Proof.
  intros Hwf Hflag Hlook Hinv Hlast. cbv zeta.
  split; [by apply pass_wf|]. split; [apply pass_clears_request|].
  destruct (pass_keeps_tracker self now raw clock key tracker Hwf Hflag Hlook)
    as (tracker' & Hlook' & Hreach).
  { unfold SatHistory.above_time_limit. by rewrite Hlast. }
  destruct (reachable_invalid cfg tracker tracker' Hinv Hreach)
    as (Hv & Hact & Hlatest & Hlast' & _).
  exists tracker'. rewrite Hlast', Hlast. by split_and!.
Qed.

(** X17.  After a reset request the pass ends with an empty registry,
    whatever the sentence is. *)
Theorem registry_empty_after_reset self now raw clock :
  Driver.satellites (driver_of (pass (DriverLoop.reset self) now raw clock))
  = ∅.
Proof.
  unfold DriverLoop._loop_pass, DriverLoop.reset, DriverLoop._check_for_reset.
  cbn [DriverLoop.set__do_reset Driver._do_reset].
  set (self0 := DriverLoop.set__do_reset false _).
  assert (Hsat0 : Driver.satellites self0 = ∅) by done.
  assert (Hant0 : Driver.antenna self0 = None) by done.
  clearbody self0.
  unfold Driver._drop_old_satellites, Driver.stale.
  rewrite Hsat0, map_to_list_empty.
  change (elements _) with (elements (∅ : gset Z)).
  rewrite elements_empty. cbn [Driver.pop_all filter map].
  set (self1 := Driver.set_satellites ∅ self0).
  assert (Hsat1 : Driver.satellites self1 = ∅) by (by destruct self0).
  assert (Hant1 : Driver.antenna self1 = None)
    by (subst self1; by destruct self0).
  clearbody self1.
  destruct (decode raw) as [text|e]; [|done].
  destruct (strip text) as [|first rest]; [done|].
  destruct (Ascii.eqb first SID.PROPRIETARY).
  { destruct (sort_proprietary_returns cfg parse_phase_sentence
                parse_temperature_sentence parse_magnetometer_sentence
                self1 (String first rest))
      as (self2 & log2 & -> & Hsat & _).
    cbn [driver_of]. by rewrite Hsat. }
  destruct (Ascii.eqb first SID.STANDARD); [|done].
  unfold DriverLoop._sort_regular_sentence.
  destruct (parse (String first rest)) as [[e|e|e]|sentence]; try done.
  destruct (sentence_type sentence) as [type|e]; [|done].
  destruct (String.eqb type SID.GSV).
  { unfold Driver._process_gsv. by rewrite Hant1. }
  destruct (String.eqb type SID.GGA); [|done].
  match goal with |- context [match ?p with Ok _ => _ | Raise _ => _ end] =>
    destruct p end; cbn [driver_of]; [by destruct self1 | done].
Qed.
End Loop_evolves.

(** ** The serializers *)

Section Tracker_age.
Import SatHistory.
Context (cfg : Config.t).

Lemma update_age_nonneg self cycle sat now :
  0 <= age self -> 0 <= age (state_of (update cfg self cycle sat now)).
Proof.
  intros Hage. unfold update, went_missing.
  destruct (Sat.SNR sat) as [snr|]; [|step; lia].
  destruct (negb (bool_of_int snr)); [step; lia|].
  destruct (above_age_limit self); step.
  all: destruct (valid self); step; [|lia].
  all: destruct (_ <? _); step; [lia|].
  all: destruct (CaporDict.contains _ _); step; [lia|].
  all: destruct (_ =? _); step; [lia|].
  all: destruct (Cycle.is_valid _) eqn:Hv; step; [|lia].
  all: destruct (freeze_cycle_valid cfg _ Hv) as (frozen & -> & _); step.
  all: lia.
Qed.

Lemma reachable_age_nonneg talker prn avg_size max_age self :
  reachable cfg (init talker prn avg_size max_age) self -> 0 <= age self.
Proof.
  induction 1 as [|self cycle sat now _ IH]; [done|].
  by apply update_age_nonneg.
Qed.
End Tracker_age.

Section Serialize.
Import Serializers.
Context {F Azimuths : Type}.
Context (calculate_avg_snr : SatHistory.t -> Result (F * F * F * F)).
Context (calculate_snr_avg_azimuth : F -> F -> F -> F -> Result F).
Context (get_azimuths : SatHistory.t -> Result Azimuths).
Context (calculate_azimuth_avg : Azimuths -> Result F).
Context (get_latest_snr : SatHistory.t -> AntennaPhase.t -> Result F).

Local Abbreviation serialize :=
  (serialize_sat_history calculate_avg_snr calculate_snr_avg_azimuth
     get_azimuths calculate_azimuth_avg get_latest_snr).
Local Abbreviation entry :=
  (serialize_entry calculate_avg_snr calculate_snr_avg_azimuth
     get_azimuths calculate_azimuth_avg get_latest_snr).
Local Abbreviation serialize_all :=
  (serialize_sat_histories calculate_avg_snr calculate_snr_avg_azimuth
     get_azimuths calculate_azimuth_avg get_latest_snr).

(** The loop of [serialize_sat_histories] over entries with distinct
    keys. *)
Lemma serialize_entries entries :
  NoDup entries.*1 ->
  let result :=
    fold_left (fun acc kv => entry kv.1 kv.2 acc) entries (∅, []) in
  (forall key serialized,
     result.1 !! key = Some serialized <->
     exists sat, (key, sat) ∈ entries /\ serialize sat = Ok serialized)
  /\ (forall record,
        record ∈ result.2 <->
        exists key sat e,
          (key, sat) ∈ entries /\ serialize sat = Raise e
          /\ record = (ERROR, FailedToSerialize key e)).
Proof.
  induction entries as [|[k sat] entries IH] using rev_ind; intros Hnodup.
  - cbn. split.
    + intros key serialized. rewrite lookup_empty. split; [done|].
      intros (sat & Hin & _). by apply elem_of_nil in Hin.
    + intros record. split; [by intros ?%elem_of_nil|].
      intros (key & sat & e & Hin & _). by apply elem_of_nil in Hin.
  - rewrite fmap_app in Hnodup. apply NoDup_app in Hnodup
      as (Hnodup & Hfresh & _).
    specialize (IH Hnodup). cbv zeta in IH |- *.
    rewrite fold_left_app. cbn [fold_left fst snd].
    destruct IH as [IHmap IHlog].
    set (acc := fold_left _ entries _) in *.
    assert (Hk : forall sat', (k, sat') ∈ entries ++ [(k, sat)] ->
                              sat' = sat).
    { intros sat' [Hin | Hin%list_elem_of_singleton]%elem_of_app;
        [|congruence].
      exfalso. apply (Hfresh k).
      - apply list_elem_of_fmap. by exists (k, sat').
      - cbn. apply list_elem_of_singleton. done. }
    unfold serialize_entry. destruct (serialize sat) as [s|e] eqn:Hser;
      cbn [fst snd]; split.
    + intros key serialized. destruct (decide (k = key)) as [<-|Hne].
      * rewrite lookup_insert_eq. split.
        -- intros [= <-]. exists sat. split; [|done].
           apply elem_of_app. right. by apply list_elem_of_singleton.
        -- intros (sat' & Hin & Hok). apply Hk in Hin as ->. congruence.
      * rewrite lookup_insert_ne, IHmap; [|done]. split.
        -- intros (sat' & Hin & Hok). exists sat'. split; [|done].
           apply elem_of_app. by left.
        -- intros (sat' & [Hin | Hin%list_elem_of_singleton]%elem_of_app
                   & Hok); [by exists sat' | congruence].
    + intros record. rewrite IHlog. split.
      * intros (key & sat' & e & Hin & Hrest). exists key, sat', e.
        split; [|done]. apply elem_of_app. by left.
      * intros (key & sat' & e
                & [Hin | Hin%list_elem_of_singleton]%elem_of_app
                & Hraise & Hrec); [by exists key, sat', e|].
        injection Hin as -> ->. congruence.
    + intros key serialized. destruct (decide (k = key)) as [<-|Hne].
      * rewrite lookup_delete_eq. split; [done|].
        intros (sat' & Hin & Hok). apply Hk in Hin as ->. congruence.
      * rewrite lookup_delete_ne, IHmap; [|done]. split.
        -- intros (sat' & Hin & Hok). exists sat'. split; [|done].
           apply elem_of_app. by left.
        -- intros (sat' & [Hin | Hin%list_elem_of_singleton]%elem_of_app
                   & Hok); [by exists sat' | congruence].
    + intros record. rewrite elem_of_app, IHlog, list_elem_of_singleton.
      split.
      * intros [(key & sat' & e' & Hin & Hrest) | ->].
        -- exists key, sat', e'. split; [|done]. apply elem_of_app. by left.
        -- exists k, sat, e. split; [|done].
           apply elem_of_app. right. by apply list_elem_of_singleton.
      * intros (key & sat' & e'
                & [Hin | Hin%list_elem_of_singleton]%elem_of_app
                & Hraise & Hrec); [left; by exists key, sat', e'|].
        injection Hin as -> ->. right. congruence.
Qed.


(** What a serialized tracker says when the tracker is in order. *)
Lemma serialize_tracked cfg key tracker serialized :
  tracked cfg key tracker ->
  serialize tracker = Ok serialized ->
  is_valid serialized = true
  /\ key = pretty (ident serialized)
  /\ 0 <= age serialized
  /\ match SNR serialized with
     | Some snr => snr <> 0 /\ is_Some (last_update serialized)
     | None => True
     end.
Proof.
  intros (Hkey & Hprn & Hreach) Hser. unfold serialize_sat_history in Hser.
  destruct (calculate_avg_snr tracker) as [[[[a b] c] d]|]; [|done].
  cbn [mbind Result_bind] in Hser.
  destruct (calculate_snr_avg_azimuth a b c d); [|done].
  cbn [mbind Result_bind] in Hser.
  destruct (get_azimuths tracker); [|done].
  cbn [mbind Result_bind] in Hser.
  destruct (calculate_azimuth_avg _); [|done].
  cbn [mbind Result_bind] in Hser.
  destruct (get_latest_snr tracker AntennaPhase.A);
    cbn [mbind Result_bind] in Hser; [|done].
  destruct (get_latest_snr tracker AntennaPhase.B);
    cbn [mbind Result_bind] in Hser; [|done].
  destruct (get_latest_snr tracker AntennaPhase.C);
    cbn [mbind Result_bind] in Hser; [|done].
  destruct (get_latest_snr tracker AntennaPhase.D);
    cbn [mbind Result_bind] in Hser; [|done].
  injection Hser as <-. cbn [is_valid ident age SNR last_update].
  destruct (reachable_latest cfg _ _ _ _ _ Hreach) as (_ & Hlatest & Hboth).
  split_and!.
  - unfold SatHistory.is_valid. by destruct Hprn as [prn ->].
  - done.
  - by apply (reachable_age_nonneg cfg _ _ _ _ _ Hreach).
  - destruct (SatHistory.latest_sat tracker) as [sat|] eqn:Hsat; [|done].
    cbn. specialize (Hlatest sat eq_refl).
    apply truthy_usable in Hlatest as (snr & -> & Hnz). split.
    + intros ->. done.
    + destruct (SatHistory.last_update tracker) eqn:Hlast; [done|].
      by destruct Hboth as [_ Hboth]; specialize (Hboth eq_refl).
Qed.
End Serialize.

(** ** The fields of a GSV sentence *)

Section Gsv_fields.
Context (cfg : Config.t) (int : string -> Result Z).




(** X20.  A satellite that is seen for the first time without a usable SNR is
    registered under its identity with the flag down, age 1, an empty
    archive and no time of last update. *)
Theorem first_sighting_without_signal talker self slot clock antenna
    prn azimuth elevation snr :
  Driver.antenna self = Some antenna ->
  Driver.int_or_none int (GSV.sv_prn_num slot) = Ok (Some prn) ->
  Driver.int_or_none int (GSV.azimuth slot) = Ok (Some azimuth) ->
  Driver.int_or_none int (GSV.elevation_deg slot) = Ok (Some elevation) ->
  Driver.int_or_none int (GSV.snr slot) = Ok snr ->
  truthy snr = false ->
  let sat :=
    Sat.mk talker (Some prn) (Some azimuth) (Some elevation) snr
      (Driver.antenna_phase self) clock.1 in
  let key := pretty (Sat.ident sat) in
  Driver.satellites self !! key = None ->
  exists tracker,
    Driver._process_gsv_slot cfg int talker self slot clock
    = Return (Driver.set_satellites
                (<[key := tracker]> (Driver.satellites self)) self) tt
        ((DEBUG, SatelliteWentMissing (Sat.ident sat))
         :: if Daq.MAX_AGE (Config.daq cfg) <=? 1
            then [(DEBUG, SatelliteTooOld (Sat.ident sat) 1)] else [])
    /\ SatHistory.talker tracker = talker
    /\ SatHistory.prn tracker = Some prn
    /\ SatHistory.valid tracker = false
    /\ SatHistory.last_update tracker = None
    /\ SatHistory.latest_sat tracker = None
    /\ SatHistory.active_cycle tracker = None
    /\ SatHistory.age tracker = 1
    /\ SatHistory.len tracker = 0.
Proof.
  intros Hant Hprn Haz Hel Hsnr Hlost sat key Hnew.
  unfold Driver._process_gsv_slot.
  rewrite Hprn, Haz, Hel, Hsnr. cbn [mbind Result_bind].
  fold sat. fold key. rewrite Hnew.
  destruct self as [r a p m t s e sats ph mode buf].
  cbn [Driver.antenna Driver.satellites Driver.set_satellites] in *.
  rewrite Hant, lookup_insert_eq.
  rewrite (update_missing cfg _ _ sat _ Hlost).
  unfold SatHistory.went_missing. cbn [state_of].
  eexists. split.
  { rewrite insert_insert_eq. cbn -[Z.leb Z.geb sat]. reflexivity. }
  by cbn.
Qed.
End Gsv_fields.

Section Serialize_registry.
Import Serializers.
Context (cfg : Config.t) (mode : DeviceMode.t).
Context (parse_phase_sentence : string -> Result Antenna.t).
Context (parse_temperature_sentence : string -> Result Temperature.t).
Context (parse_magnetometer_sentence :
           string -> bool -> bool -> bool -> Result RawMagnetometerReading.t).
Context (int : string -> Result Z).
Context (NMEASentence : Type).
Context (parse : string -> ParseFailure + NMEASentence).
Context (sentence_type : NMEASentence -> Result string).
Context (gsv_fields : NMEASentence -> GSV.t).
Context (parse_gga_sentence : NMEASentence -> Result Position.t).
Context (decode : list Byte.byte -> Result string).
Context (strip : string -> string).
Context {F Azimuths : Type}.
Context (calculate_avg_snr : SatHistory.t -> Result (F * F * F * F)).
Context (calculate_snr_avg_azimuth : F -> F -> F -> F -> Result F).
Context (get_azimuths : SatHistory.t -> Result Azimuths).
Context (calculate_azimuth_avg : Azimuths -> Result F).
Context (get_latest_snr : SatHistory.t -> AntennaPhase.t -> Result F).

Local Abbreviation reachable :=
  (DriverLoop.reachable cfg mode parse_phase_sentence
     parse_temperature_sentence parse_magnetometer_sentence int NMEASentence
     parse sentence_type gsv_fields parse_gga_sentence decode strip).
Local Abbreviation serialize_all :=
  (serialize_sat_histories calculate_avg_snr calculate_snr_avg_azimuth
     get_azimuths calculate_azimuth_avg get_latest_snr).

(** X21.  What the serialized registry of a driver says about each satellite:
    it counts as valid, its key is the decimal string of its identity,
    its age is not negative, and a reported SNR is never 0 and comes with
    a time of last update. *)
Theorem serialized_registry_entries {U : Type} (uuid : U) self key
    serialized :
  reachable self ->
  (serialize_all uuid (Driver.satellites self)).1.2 !! key
  = Some serialized ->
  is_valid serialized = true
  /\ key = pretty (ident serialized)
  /\ 0 <= age serialized
  /\ match SNR serialized with
     | Some snr => snr <> 0 /\ is_Some (last_update serialized)
     | None => True
     end.
Proof.
  intros Hreach Hlook.
  destruct (reachable_ok cfg mode parse_phase_sentence
              parse_temperature_sentence parse_magnetometer_sentence int
              NMEASentence parse sentence_type gsv_fields parse_gga_sentence
              decode strip self Hreach) as [Hreg _].
  unfold serialize_sat_histories in Hlook. cbn [fst snd] in Hlook.
  destruct (serialize_entries calculate_avg_snr calculate_snr_avg_azimuth
              get_azimuths calculate_azimuth_avg get_latest_snr
              (map_to_list (Driver.satellites self))) as [Hmap _].
  { apply NoDup_fst_map_to_list. }
  cbv zeta in Hmap. apply Hmap in Hlook
    as (tracker & Hin%elem_of_map_to_list & Hser).
  apply (serialize_tracked calculate_avg_snr calculate_snr_avg_azimuth
           get_azimuths calculate_azimuth_avg get_latest_snr cfg key
           tracker serialized); [by apply Hreg | done].
Qed.
End Serialize_registry.

(** ** Sample runs *)

Lemma tuned_reachable : Scenario.reachable Scenario.tuned.
Proof. apply DriverLoop.reachable_pass, DriverLoop.reachable_init. Qed.

Lemma heard_reachable : Scenario.reachable Scenario.heard.
Proof. apply DriverLoop.reachable_pass, tuned_reachable. Qed.

Lemma unheard_wf : registry_wf (Driver.satellites Scenario.unheard).
Proof. do 2 apply pass_wf. apply init_registry_wf. Qed.

Lemma heard_lookup :
  Driver.satellites Scenario.heard !! "5007" = Some Scenario.heard_tracker.
Proof. vm_compute. reflexivity. Qed.

Lemma unheard_lookup :
  Driver.satellites Scenario.unheard !! "5007" = Some Scenario.lost_tracker.
Proof. vm_compute. reflexivity. Qed.

(** ** The properties at the sample runs *)


Lemma archive_keys_increasing_witness :
  SatHistory.reachable (Sample.cfg 50 60)
    (SatHistory.init Talker.GPS (Some 7) 50 60) (Sample.archived 50 60)
  /\ StronglySorted Z.lt
       (CaporDict.keys (SatHistory._records (Sample.archived 50 60))).
Proof.
  split; [apply archived_reachable|].
  exact (proj1 (archive_keys_increasing (Sample.cfg 50 60) Talker.GPS
                  (Some 7) 50 60 (Sample.archived 50 60)
                  (archived_reachable 50 60))).
Defined.

Lemma duplicate_warning_never_logged_witness :
  SatHistory.reachable (Sample.cfg 50 60)
    (SatHistory.init Talker.GPS (Some 7) 50 60) (Sample.archived 50 60)
  /\ ~ (WARNING, CycleExists 1)
       ∈ log_of (SatHistory.update (Sample.cfg 50 60) (Sample.archived 50 60)
                   1 (Sample.reading AntennaPhase.A 30) 9%Q).
Proof.
  split; [apply archived_reachable|].
  exact (duplicate_warning_never_logged (Sample.cfg 50 60) Talker.GPS
           (Some 7) 50 60 (Sample.archived 50 60) 1
           (Sample.reading AntennaPhase.A 30) 9%Q 1
           (archived_reachable 50 60)).
Defined.

Lemma samples_never_zero_witness :
  SatHistory.reachable (Sample.cfg 50 60)
    (SatHistory.init Talker.GPS (Some 7) 50 60) (Sample.archived 50 60)
  /\ forall c,
       SatHistory.active_cycle (Sample.archived 50 60) = Some c ->
       samples_usable c.
Proof.
  split; [apply archived_reachable|].
  exact (proj1 (samples_never_zero (Sample.cfg 50 60) Talker.GPS (Some 7)
                  50 60 (Sample.archived 50 60) (archived_reachable 50 60))).
Defined.



Lemma azimuth_on_the_axes_witness :
  exists frozen,
    freeze_cycle Scenario.cfg (Cycle.mk 1 [30] [31] [30] [30]) = Ok frozen
    /\ FrozenCycle.azimuth frozen
       = (Daq.AZ_OFFSET (Config.daq Scenario.cfg) + 0)%R.
Proof.
  eexists.
  refine ((fun H => conj H
             (proj1 (azimuth_on_the_axes Scenario.cfg
                       (Cycle.mk 1 [30] [31] [30] [30]) _ H) _)) _).
  - unfold mean. cbn. rewrite !Z.add_0_r. split; lra.
  - reflexivity.
Defined.

Lemma ident_determines_satellite_witness :
  is_Some (talker_to_offset Talker.GPS)
  /\ is_Some (talker_to_offset Talker.GALIEO)
  /\ 0 < 7 < 1000
  /\ ident_of Talker.GPS (Some 7) <> -1000
  /\ (ident_of Talker.GPS (Some 7) = ident_of Talker.GALIEO (Some 7) ->
      Talker.GPS = Talker.GALIEO /\ 7 = 7).
Proof.
  assert (H1 : is_Some (talker_to_offset Talker.GPS)) by (by eexists).
  assert (H2 : is_Some (talker_to_offset Talker.GALIEO)) by (by eexists).
  assert (H3 : 0 < 7 < 1000) by (split; reflexivity).
  split; [exact H1|]. split; [exact H2|]. split; [exact H3|].
  exact (ident_determines_satellite Talker.GPS 7 Talker.GALIEO 7 H1 H2 H3 H3).
Defined.

Lemma registry_trackers_well_formed_witness :
  Scenario.reachable Scenario.heard
  /\ Driver.satellites Scenario.heard !! "5007" = Some Scenario.heard_tracker
  /\ "5007" = pretty (SatHistory.ident Scenario.heard_tracker)
  /\ is_Some (SatHistory.prn Scenario.heard_tracker).
Proof.
  split; [exact heard_reachable|]. split; [exact heard_lookup|].
  destruct (registry_trackers_well_formed Scenario.cfg Scenario.mode
              Scenario.parse_phase_sentence Sample.reject_temperature
              Sample.reject_magnetometer Scenario.int Scenario.NMEASentence
              Scenario.parse Scenario.sentence_type Scenario.gsv_fields
              Scenario.parse_gga_sentence Scenario.decode Scenario.strip
              Scenario.heard "5007" Scenario.heard_tracker heard_reachable
              heard_lookup) as (Hkey & Hprn & _).
  split; [exact Hkey | exact Hprn].
Defined.

Lemma calibration_buffer_bounded_witness :
  Scenario.reachable Scenario.heard
  /\ Deque.maxlen (Driver.magnetometer_readings Scenario.heard)
     = Some 10%nat.
Proof.
  split; [exact heard_reachable|].
  exact (proj1 (calibration_buffer_bounded Scenario.cfg Scenario.mode
                  Scenario.parse_phase_sentence Sample.reject_temperature
                  Sample.reject_magnetometer Scenario.int
                  Scenario.NMEASentence Scenario.parse Scenario.sentence_type
                  Scenario.gsv_fields Scenario.parse_gga_sentence
                  Scenario.decode Scenario.strip Scenario.heard
                  heard_reachable)).
Defined.

Lemma pass_dies_only_on_undecodable_bytes_witness :
  Scenario.reachable Scenario.tuned
  /\ Driver._do_reset (driver_of (Scenario.pass Scenario.tuned "$GPGSV,30"))
     = false.
Proof.
  split; [exact tuned_reachable|].
  exact (proj1 (pass_dies_only_on_undecodable_bytes Scenario.cfg
                  Scenario.mode Scenario.parse_phase_sentence
                  Sample.reject_temperature Sample.reject_magnetometer
                  Scenario.int Scenario.NMEASentence Scenario.parse
                  Scenario.sentence_type Scenario.gsv_fields
                  Scenario.parse_gga_sentence Scenario.decode Scenario.strip
                  Scenario.tuned Scenario.now
                  (list_byte_of_string "$GPGSV,30") Scenario.clock
                  tuned_reachable)).
Defined.

Lemma static_mock_pins_position_witness :
  registry_wf (Driver.satellites (Driver.init Scenario.cfg))
  /\ Scenario.parse "$GPGGA,1" = inr (Scenario.gga Scenario.home)
  /\ Driver.position
       (driver_of (Scenario.pass (Driver.init Scenario.cfg) "$GPGGA,1"))
     = Some Scenario.home.
Proof.
  split; [exact (init_registry_wf Scenario.cfg)|]. split; [reflexivity|].
  exact (static_mock_pins_position Scenario.cfg Scenario.mode
           Scenario.parse_phase_sentence Sample.reject_temperature
           Sample.reject_magnetometer Scenario.int Scenario.NMEASentence
           Scenario.parse Scenario.sentence_type Scenario.gsv_fields
           Scenario.parse_gga_sentence Scenario.decode Scenario.strip
           (Driver.init Scenario.cfg) Scenario.now
           (list_byte_of_string "$GPGGA,1") Scenario.clock "$GPGGA,1"
           "$"%char "GPGGA,1" (Scenario.gga Scenario.home)
           (init_registry_wf Scenario.cfg) eq_refl eq_refl eq_refl eq_refl
           eq_refl eq_refl eq_refl).
Defined.

Lemma lost_satellite_stays_lost_witness :
  registry_wf (Driver.satellites Scenario.unheard)
  /\ Driver._do_reset Scenario.unheard = false
  /\ Driver.satellites Scenario.unheard !! "5007" = Some Scenario.lost_tracker
  /\ SatHistory.above_time_limit Scenario.cfg Scenario.lost_tracker
       (Scenario.now "5007") = false
  /\ exists tracker',
       Driver.satellites
         (driver_of (Scenario.pass Scenario.unheard "$GPGSV,30")) !! "5007"
       = Some tracker'
       /\ SatHistory.reachable Scenario.cfg Scenario.lost_tracker tracker'.
Proof.
  split; [exact unheard_wf|]. split; [reflexivity|].
  split; [exact unheard_lookup|]. split; [reflexivity|].
  destruct (lost_satellite_stays_lost Scenario.cfg Scenario.mode
              Scenario.parse_phase_sentence Sample.reject_temperature
              Sample.reject_magnetometer Scenario.int Scenario.NMEASentence
              Scenario.parse Scenario.sentence_type Scenario.gsv_fields
              Scenario.parse_gga_sentence Scenario.decode Scenario.strip
              Scenario.unheard Scenario.now
              (list_byte_of_string "$GPGSV,30") Scenario.clock "5007"
              Scenario.lost_tracker unheard_wf eq_refl unheard_lookup
              eq_refl) as (tracker' & Hlook & Hreach & _).
  exists tracker'. split; [exact Hlook | exact Hreach].
Defined.

Lemma unheard_satellite_is_stuck_witness :
  registry_wf (Driver.satellites Scenario.unheard)
  /\ Driver._do_reset Scenario.unheard = false
  /\ Driver.satellites Scenario.unheard !! "5007" = Some Scenario.lost_tracker
  /\ SatHistory.valid Scenario.lost_tracker = false
  /\ SatHistory.last_update Scenario.lost_tracker = None
  /\ exists tracker',
       Driver.satellites
         (driver_of (Scenario.pass Scenario.unheard "$GPGSV,30")) !! "5007"
       = Some tracker'
       /\ SatHistory.valid tracker' = false
       /\ SatHistory.last_update tracker' = None.
Proof.
  split; [exact unheard_wf|]. split; [reflexivity|].
  split; [exact unheard_lookup|]. split; [reflexivity|].
  split; [reflexivity|].
  destruct (unheard_satellite_is_stuck Scenario.cfg Scenario.mode
              Scenario.parse_phase_sentence Sample.reject_temperature
              Sample.reject_magnetometer Scenario.int Scenario.NMEASentence
              Scenario.parse Scenario.sentence_type Scenario.gsv_fields
              Scenario.parse_gga_sentence Scenario.decode Scenario.strip
              Scenario.unheard Scenario.now
              (list_byte_of_string "$GPGSV,30") Scenario.clock "5007"
              Scenario.lost_tracker unheard_wf eq_refl unheard_lookup
              eq_refl eq_refl)
    as (_ & _ & tracker' & Hlook & Hvalid & Hlast & _).
  exists tracker'. split; [exact Hlook|]. split; [exact Hvalid | exact Hlast].
Defined.


Lemma first_sighting_without_signal_witness :
  Driver.antenna Scenario.tuned = Some Scenario.antenna
  /\ Driver.satellites Scenario.tuned !! "5007" = None
  /\ exists tracker,
       Driver._process_gsv_slot Scenario.cfg Scenario.int Talker.GPS
         Scenario.tuned (GSV.mk_slot "7" "45" "120" "") (0%Q, 0%Q)
       = Return
           (Driver.set_satellites
              (<["5007" := tracker]> (Driver.satellites Scenario.tuned))
              Scenario.tuned) tt
           [(DEBUG, SatelliteWentMissing 5007)]
       /\ SatHistory.valid tracker = false
       /\ SatHistory.last_update tracker = None.
Proof.
  split; [reflexivity|]. split; [reflexivity|].
  destruct (first_sighting_without_signal Scenario.cfg Scenario.int
              Talker.GPS Scenario.tuned (GSV.mk_slot "7" "45" "120" "")
              (0%Q, 0%Q) Scenario.antenna 7 120 45 None
              eq_refl eq_refl eq_refl eq_refl eq_refl eq_refl eq_refl)
    as (tracker & Hslot & _ & _ & Hvalid & Hlast & _).
  exists tracker. split; [exact Hslot|]. split; [exact Hvalid | exact Hlast].
Defined.

Lemma serialized_registry_entries_witness :
  Scenario.reachable Scenario.heard
  /\ exists serialized,
       (Serializers.serialize_sat_histories Scenario.calculate_avg_snr
          Scenario.calculate_snr_avg_azimuth Scenario.get_azimuths
          Scenario.calculate_azimuth_avg Scenario.get_latest_snr tt
          (Driver.satellites Scenario.heard)).1.2 !! "5007"
       = Some serialized
       /\ Serializers.is_valid serialized = true
       /\ "5007" = pretty (Serializers.ident serialized).
Proof.
  split; [exact heard_reachable|]. eexists.
  split; [vm_compute; reflexivity|].
  match goal with
  | |- Serializers.is_valid ?s = true /\ _ =>
      assert (H : (Serializers.serialize_sat_histories
                     Scenario.calculate_avg_snr
                     Scenario.calculate_snr_avg_azimuth Scenario.get_azimuths
                     Scenario.calculate_azimuth_avg Scenario.get_latest_snr
                     tt (Driver.satellites Scenario.heard)).1.2 !! "5007"
                  = Some s) by (vm_compute; reflexivity)
  end.
  destruct (serialized_registry_entries Scenario.cfg Scenario.mode
              Scenario.parse_phase_sentence Sample.reject_temperature
              Sample.reject_magnetometer Scenario.int Scenario.NMEASentence
              Scenario.parse Scenario.sentence_type Scenario.gsv_fields
              Scenario.parse_gga_sentence Scenario.decode Scenario.strip
              Scenario.calculate_avg_snr Scenario.calculate_snr_avg_azimuth
              Scenario.get_azimuths Scenario.calculate_azimuth_avg
              Scenario.get_latest_snr tt Scenario.heard "5007" _
              heard_reachable H) as (Hvalid & Hkey & _).
  split; [exact Hvalid | exact Hkey].
Defined.
